(** * Web traffic analytics: validation, cleaning and aggregation

    A shallow embedding of [data_validator.py] (class [DataValidator]) and of
    the aggregation functions of [app.py], with the properties of the
    specification stated and settled against it.

    Modelling conventions.
    - The library is pandas 2 (before copy-on-write became the default).
    - A pandas float is an exact rational extended with [NaN] and the two
      infinities.  Comparisons, [clip], [min], [max], [median] and the
      special-value rules of IEEE-754 division are as in numpy; rounding,
      overflow and the sign of zero are not represented, so a sum of finite
      numbers is finite here where the float64 sum may be infinite.
    - A [DataFrame] is a header (column names with their dtype) and a list
      of rows; a row maps column names to cells.  A column of dtype object
      holds what [read_csv] leaves in it: text, missing values, or numbers.
    - Python exceptions are values of [exn]; a function that can raise
      returns a [result].
    - [print] output is not represented, except the step headers that
      [run_full_validation] prints, which are kept as a trace. *)

From Stdlib Require Import ZArith QArith Qcanon String Ascii List Lia Lqa.
From stdpp Require Import base option list gmap strings numbers.

Local Open Scope string_scope.
Local Open Scope Qc_scope.

(** ** Numbers *)

Module Num.

Inductive fnum : Type :=
  | NaN
  | NInf
  | Fin (q : Qc)
  | PInf.

#[global] Instance fnum_eq_dec : EqDecision fnum.
Proof. solve_decision. Defined.

Definition isna (x : fnum) : bool :=
  match x with NaN => true | _ => false end.

Definition is_finite (x : fnum) : bool :=
  match x with Fin _ => true | _ => false end.

(** IEEE comparisons: every comparison with [NaN] is false. *)
Definition flt (x y : fnum) : bool :=
  match x, y with
  | NaN, _ | _, NaN => false
  | NInf, NInf => false
  | NInf, _ => true
  | _, NInf => false
  | PInf, _ => false
  | Fin _, PInf => true
  | Fin a, Fin b => bool_decide (a < b)
  end.

Definition feq (x y : fnum) : bool :=
  match x, y with
  | NInf, NInf | PInf, PInf => true
  | Fin a, Fin b => bool_decide (a = b)
  | _, _ => false
  end.

Definition fle (x y : fnum) : bool := flt x y || feq x y.
Definition fgt (x y : fnum) : bool := flt y x.
Definition fge (x y : fnum) : bool := fle y x.

Definition fopp (x : fnum) : fnum :=
  match x with
  | NaN => NaN
  | NInf => PInf
  | PInf => NInf
  | Fin a => Fin (- a)
  end.

Definition fadd (x y : fnum) : fnum :=
  match x, y with
  | NaN, _ | _, NaN => NaN
  | PInf, NInf | NInf, PInf => NaN
  | PInf, _ | _, PInf => PInf
  | NInf, _ | _, NInf => NInf
  | Fin a, Fin b => Fin (a + b)
  end.

Definition fsub (x y : fnum) : fnum := fadd x (fopp y).

(** Sign of a number that is not [NaN]. *)
Definition sign (x : fnum) : comparison :=
  match x with
  | NaN => Eq
  | NInf => Lt
  | PInf => Gt
  | Fin a => a ?= 0
  end.

Definition signed_inf (s : comparison) : fnum :=
  match s with
  | Eq => NaN
  | Gt => PInf
  | Lt => NInf
  end.

Definition sign_mul (s t : comparison) : comparison :=
  match s, t with
  | Eq, _ | _, Eq => Eq
  | Lt, Lt | Gt, Gt => Gt
  | _, _ => Lt
  end.

Definition fmul (x y : fnum) : fnum :=
  match x, y with
  | NaN, _ | _, NaN => NaN
  | Fin a, Fin b => Fin (a * b)
  | _, _ => signed_inf (sign_mul (sign x) (sign y))
  end.

(** Division as numpy performs it: a zero divisor gives an infinity of the
    sign of the dividend, and [0/0] gives [NaN]; nothing is raised. *)
Definition fdiv (x y : fnum) : fnum :=
  match x, y with
  | NaN, _ | _, NaN => NaN
  | Fin a, Fin b =>
      if bool_decide (b = 0) then signed_inf (sign x) else Fin (a / b)
  | Fin _, _ => Fin 0
  | _, Fin b =>
      if bool_decide (b = 0) then x else signed_inf (sign_mul (sign x) (sign y))
  | _, _ => NaN
  end.

Definition of_nat (n : nat) : fnum := Fin (Q2Qc (inject_Z (Z.of_nat n))).
Definition of_Z (n : Z) : fnum := Fin (Q2Qc (inject_Z n)).

(** [Series.sum()]: missing values are skipped, the empty sum is 0. *)
Definition sum (l : list fnum) : fnum :=
  foldr fadd (Fin 0) (filter (fun x => isna x = false) l).

(** [Series.count()]: the number of values that are not missing. *)
Definition count (l : list fnum) : nat :=
  length (filter (fun x => isna x = false) l).

(** [Series.mean()]: the mean of the values present, [NaN] when none is. *)
Definition mean (l : list fnum) : fnum :=
  match count l with
  | O => NaN
  | n => fdiv (sum l) (of_nat n)
  end.

Definition fmax2 (x y : fnum) : fnum := if flt x y then y else x.
Definition fmin2 (x y : fnum) : fnum := if flt y x then y else x.

(** [Series.max()] and the row-wise [DataFrame.min(axis=1)], both skipping
    missing values. *)
Definition max (l : list fnum) : fnum :=
  match filter (fun x => isna x = false) l with
  | [] => NaN
  | x :: l' => foldr fmax2 x l'
  end.

Definition min (l : list fnum) : fnum :=
  match filter (fun x => isna x = false) l with
  | [] => NaN
  | x :: l' => foldr fmin2 x l'
  end.

(** [Series.clip(lower, upper)]: a missing value stays missing. *)
Definition clip (lower upper x : fnum) : fnum :=
  if flt x lower then lower else if flt upper x then upper else x.

Fixpoint insert_sorted (x : fnum) (l : list fnum) : list fnum :=
  match l with
  | [] => [x]
  | y :: l' => if fle x y then x :: l else y :: insert_sorted x l'
  end.

Definition sort (l : list fnum) : list fnum := foldr insert_sorted [] l.

(** [Series.median()]: the middle of the sorted values present, the mean of
    the two middle ones when their number is even, [NaN] when there is
    none. *)
Definition median (l : list fnum) : fnum :=
  let s := sort (filter (fun x => isna x = false) l) in
  let n := length s in
  match n with
  | O => NaN
  | _ =>
      if Nat.even n
      then fdiv (fadd (nth (n / 2 - 1) s NaN) (nth (n / 2) s NaN)) (of_nat 2)
      else nth (n / 2) s NaN
  end.

End Num.

Export Num.

(** ** Tables *)

(** A timestamp, ordered field by field from the year down. *)
Record datetime : Type := mk_datetime {
  dt_year : nat;
  dt_month : nat;
  dt_day : nat;
  dt_hour : nat;
  dt_minute : nat
}.

#[global] Instance datetime_eq_dec : EqDecision datetime.
Proof. solve_decision. Defined.

Definition dt_key (d : datetime) : list nat :=
  [dt_year d; dt_month d; dt_day d; dt_hour d; dt_minute d].

Fixpoint lex_ltb (a b : list nat) : bool :=
  match a, b with
  | x :: a', y :: b' =>
      if Nat.ltb x y then true
      else if Nat.ltb y x then false
      else lex_ltb a' b'
  | [], _ :: _ => true
  | _, [] => false
  end.

Definition dt_ltb (a b : datetime) : bool := lex_ltb (dt_key a) (dt_key b).
Definition dt_gtb (a b : datetime) : bool := dt_ltb b a.

(** [CNaT] is the missing timestamp [NaT]. *)
Inductive cell : Type :=
  | CNum (x : fnum)
  | CText (s : string)
  | CDate (d : datetime)
  | CNaT.

#[global] Instance cell_eq_dec : EqDecision cell.
Proof. solve_decision. Defined.

Inductive dtype : Type :=
  | DNumeric
  | DObject
  | DDatetime.

#[global] Instance dtype_eq_dec : EqDecision dtype.
Proof. solve_decision. Defined.

Record DataFrame : Type := mk_df {
  columns : list (string * dtype);
  rows : list (gmap string cell)
}.

Inductive exn : Type :=
  | KeyError (col : string)
  | TypeError (col : string)
  | ValueError (text : string).

#[global] Instance exn_eq_dec : EqDecision exn.
Proof. solve_decision. Defined.

Inductive result (A : Type) : Type :=
  | Ok (a : A)
  | Raise (e : exn).

Arguments Ok {A} a.
Arguments Raise {A} e.

#[global] Instance result_bind : MBind result :=
  fun A B (k : A -> result B) (m : result A) =>
    match m with
    | Ok a => k a
    | Raise e => Raise e
    end.

Definition column_names (df : DataFrame) : list string := (columns df).*1.

Fixpoint assoc (col : string) (l : list (string * dtype)) : option dtype :=
  match l with
  | [] => None
  | c :: l' => if bool_decide (c.1 = col) then Some c.2 else assoc col l'
  end.

Definition dtype_of (df : DataFrame) (col : string) : option dtype :=
  assoc col (columns df).

(** The value of a numeric cell; anything else reads as missing. *)
Definition num (r : gmap string cell) (col : string) : fnum :=
  match r !! col with
  | Some (CNum x) => x
  | _ => NaN
  end.

(** [df[col]]: raises [KeyError] for an absent column. *)
Definition getitem (df : DataFrame) (col : string) : result dtype :=
  match dtype_of df col with
  | Some t => Ok t
  | None => Raise (KeyError col)
  end.

(** [isna()] on a cell: text and timestamps are present values. *)
Definition cell_isna (c : option cell) : bool :=
  match c with
  | Some (CNum x) => isna x
  | Some CNaT => true
  | Some _ => false
  | None => true
  end.

(** [df[col]] as the operand of [sum], [mean] and of a division.  A numeric
    column gives numbers.  On a column of another dtype the outcome
    depends on the Python values it holds (text is concatenated, or raises
    [TypeError] beside a number; two Python numbers divide with
    [ZeroDivisionError] on a zero divisor; timestamps are not added).  The
    model does not follow these cases and stops with [TypeError]: every
    number that an aggregate returns below comes from numeric columns. *)
Definition numeric (df : DataFrame) (col : string) : result (list fnum) :=
  t ← getitem df col;
  match t with
  | DNumeric => Ok ((fun r => num r col) <$> rows df)
  | _ => Raise (TypeError col)
  end.

(** The value that the column [col] holds in the row [r]: a numeric column
    holds numbers only. *)
Definition column_cell (df : DataFrame) (col : string) (r : gmap string cell)
    : option cell :=
  match dtype_of df col with
  | Some DNumeric => Some (CNum (num r col))
  | _ => r !! col
  end.

Definition same_kind (a b : option cell) : bool :=
  match a, b with
  | Some (CNum _), Some (CNum _) => true
  | Some (CText _), Some (CText _) => true
  | Some (CDate _), Some (CDate _) => true
  | _, _ => false
  end.

(** Whether Python can order two values of an object column: a missing
    value compares false with anything, two values present must be of one
    kind ([str] against a number raises [TypeError]). *)
Definition orders (a b : option cell) : bool :=
  cell_isna a || cell_isna b || same_kind a b.

(** [df[col]] compared with a number ([> 0], [>= 0], [<= 1]).  The
    comparison is made value by value: in an object column it raises
    [TypeError] at the first text, and raises nothing when there is none
    (no row, or missing values and numbers only).  A datetime column is
    refused whatever its values. *)
Definition compared (df : DataFrame) (col : string) : result (list fnum) :=
  t ← getitem df col;
  if bool_decide (t = DDatetime)
  then Raise (TypeError col)
  else if forallb (fun r => orders (column_cell df col r) (Some (CNum (Fin 0))))
            (rows df)
  then Ok ((fun r => num r col) <$> rows df)
  else Raise (TypeError col).

(** [df[col] = values], row by row, for a column that exists: [update]
    when the values have the dtype of the column, [assign] when they bring
    their own. *)
Definition update (df : DataFrame) (col : string) (f : gmap string cell -> cell)
    : DataFrame :=
  {| columns := columns df;
     rows := (fun r => <[col := f r]> r) <$> rows df |}.

Definition retype (col : string) (t : dtype) (c : string * dtype) : string * dtype :=
  if bool_decide (c.1 = col) then (col, t) else c.

Definition assign (df : DataFrame) (col : string) (t : dtype)
    (f : gmap string cell -> cell) : DataFrame :=
  {| columns := retype col t <$> columns df;
     rows := (fun r => <[col := f r]> r) <$> rows df |}.

(** [df[mask]]: the rows selected by a boolean mask, in their order. *)
Definition select (df : DataFrame) (mask : gmap string cell -> bool) : DataFrame :=
  {| columns := columns df;
     rows := filter (fun r => mask r = true) (rows df) |}.

(** [DataFrame.duplicated()] marks a row equal to an earlier one, and
    [drop_duplicates()] keeps the first row of every group of equal rows. *)
Fixpoint dedup (seen : list (gmap string cell)) (l : list (gmap string cell))
    : list (gmap string cell) :=
  match l with
  | [] => []
  | r :: l' =>
      if bool_decide (r ∈ seen) then dedup seen l' else r :: dedup (r :: seen) l'
  end.

Definition drop_duplicates (df : DataFrame) : DataFrame :=
  {| columns := columns df; rows := dedup [] (rows df) |}.

Definition duplicated_count (df : DataFrame) : nat :=
  length (rows df) - length (rows (drop_duplicates df)).

(** ** The cleaner: [DataValidator.clean_data] *)

Definition numeric_columns : list string :=
  ["sessions"; "users"; "conversions"; "bounce_rate"; "avg_session_duration"].

(** [df[col].isna().sum()] *)
Definition isna_count (df : DataFrame) (col : string) : nat :=
  length (filter (fun r => cell_isna (r !! col) = true) (rows df)).

(** [df[col].fillna(value, inplace=True)], which writes through to the frame
    (pandas before 3.0, without copy-on-write). *)
Definition fillna_row (col : string) (value : fnum) (r : gmap string cell)
    : gmap string cell :=
  if cell_isna (r !! col) then <[col := CNum value]> r else r.

Definition fillna (df : DataFrame) (col : string) (value : fnum) : DataFrame :=
  {| columns := columns df; rows := fillna_row col value <$> rows df |}.

(** One round of the loop over [numeric_columns]. *)
Definition fill_column (df : DataFrame) (col : string) : result DataFrame :=
  _ ← getitem df col;
  if bool_decide (0 < isna_count df col)%nat
  then Ok (fillna df col (Fin 0))
  else Ok df.

Fixpoint fill_missing (cols : list string) (df : DataFrame) : result DataFrame :=
  match cols with
  | [] => Ok df
  | col :: cols' => df' ← fill_column df col; fill_missing cols' df'
  end.

Definition positive_sessions (r : gmap string cell) : bool :=
  fgt (num r "sessions") (Fin 0).

Definition clip_bounce_rate (r : gmap string cell) : cell :=
  CNum (clip (Fin 0) (Fin 1) (num r "bounce_rate")).

Definition cap_conversions (r : gmap string cell) : cell :=
  CNum (Num.min [num r "conversions"; num r "sessions"]).

(** The number that [clean_data] prints as removed duplicate records. *)
Definition removed_duplicates (df : DataFrame) : nat :=
  length (rows df) - length (rows (drop_duplicates df)).

(** The dtype of [df[['conversions', 'sessions']].min(axis=1)]: numeric
    when both columns are, object otherwise. *)
Definition row_min_dtype (df : DataFrame) : dtype :=
  match dtype_of df "conversions", dtype_of df "sessions" with
  | Some DNumeric, Some DNumeric => DNumeric
  | _, _ => DObject
  end.

(** [clean_data], with [self.df] passed explicitly.  The frame returned is
    also the one written to the output file.  [clip] keeps the dtype of the
    column.  The row minimum compares the conversions of every row with its
    sessions, which are a number in every row that was kept. *)
Definition clean_data (df : DataFrame) : result DataFrame :=
  (* Remove duplicates *)
  let df := drop_duplicates df in
  (* Remove records with zero sessions *)
  _ ← compared df "sessions";
  let df := select df positive_sessions in
  (* Cap bounce rate at 0-1 *)
  _ ← compared df "bounce_rate";
  let df := update df "bounce_rate" clip_bounce_rate in
  (* Ensure conversions don't exceed sessions *)
  _ ← compared df "conversions";
  _ ← compared df "sessions";
  let df := assign df "conversions" (row_min_dtype df) cap_conversions in
  (* Fill missing values if any *)
  fill_missing numeric_columns df.

(** Building tables for examples. *)
Definition q (n : Z) (d : positive) : fnum := Fin (Q2Qc (n # d)).

Definition required_columns : list string :=
  ["date"; "page"; "device"; "country"; "sessions"; "users"; "bounce_rate";
   "conversions"; "avg_session_duration"].

Definition raw_header : list (string * dtype) :=
  [("date", DObject); ("page", DObject); ("device", DObject);
   ("country", DObject); ("sessions", DNumeric); ("users", DNumeric);
   ("bounce_rate", DNumeric); ("conversions", DNumeric);
   ("avg_session_duration", DNumeric)].

Definition record (date page device country : string)
    (sessions users bounce_rate conversions avg_session_duration : fnum)
    : gmap string cell :=
  <["date" := CText date]> (<["page" := CText page]> (<["device" := CText device]>
  (<["country" := CText country]> (<["sessions" := CNum sessions]>
  (<["users" := CNum users]> (<["bounce_rate" := CNum bounce_rate]>
  (<["conversions" := CNum conversions]>
  (<["avg_session_duration" := CNum avg_session_duration]> ∅)))))))).

Definition raw_table (l : list (gmap string cell)) : DataFrame :=
  {| columns := raw_header; rows := l |}.

(** What [clean_data] does to one row that it keeps. *)
Definition repair_row (r : gmap string cell) : gmap string cell :=
  let r1 := <["bounce_rate" := clip_bounce_rate r]> r in
  let r2 := <["conversions" := cap_conversions r1]> r1 in
  foldl (fun r col => fillna_row col (Fin 0) r) r2 numeric_columns.

(** The frame that [clean_data] has built when it reaches the loop that
    fills missing values. *)
Definition before_fill (df : DataFrame) : DataFrame :=
  let df := update (select (drop_duplicates df) positive_sessions)
              "bounce_rate" clip_bounce_rate in
  assign df "conversions" (row_min_dtype df) cap_conversions.

(** A raw table and its cleaned form. *)
Definition t_ex : DataFrame := raw_table
  [ record "01-01-2024 10:00" "home" "mobile" "US"
      (q 100 1) (q 80 1) (q 3 2) (q 120 1) (q 30 1);
    record "01-01-2024 11:00" "cart" "mobile" "US"
      NaN (q 80 1) (q 1 2) (q 5 1) (q 30 1);
    record "01-01-2024 12:00" "blog" "tablet" "UK"
      (q 7 1) (q 6 1) NaN NaN (q 30 1);
    record "01-01-2024 13:00" "blog" "tablet" "UK"
      (q 0 1) (q 0 1) (q 1 2) (q 0 1) (q 0 1) ].

Definition t_ex_clean : DataFrame := raw_table
  [ record "01-01-2024 10:00" "home" "mobile" "US"
      (q 100 1) (q 80 1) (q 1 1) (q 100 1) (q 30 1);
    record "01-01-2024 12:00" "blog" "tablet" "UK"
      (q 7 1) (q 6 1) (q 0 1) (q 7 1) (q 30 1) ].


(** A frame as [clean_data] returns it: every row is a repaired row with
    positive sessions, the five numeric columns exist, none of the three
    repaired columns is a datetime column, and the conversions have the
    dtype of the row minimum. *)
Record cleaned (df : DataFrame) : Prop := mk_cleaned {
  cl_rows : forall r, r ∈ rows df ->
            exists r0, positive_sessions r0 = true /\ r = repair_row r0;
  cl_sessions : dtype_of df "sessions" <> Some DDatetime;
  cl_bounce_rate : dtype_of df "bounce_rate" <> Some DDatetime;
  cl_conversions : dtype_of df "conversions" = Some (row_min_dtype df);
  cl_retype_conversions :
    retype "conversions" (row_min_dtype df) <$> columns df = columns df;
  cl_columns : forall col, col ∈ numeric_columns -> is_Some (dtype_of df col)
}.

(** No step of [clean_data] changes the frame: nothing to report. *)
Definition no_repair (df : DataFrame) : Prop :=
  drop_duplicates df = df /\
  removed_duplicates df = 0%nat /\
  select df positive_sessions = df /\
  update df "bounce_rate" clip_bounce_rate = df /\
  assign df "conversions" (row_min_dtype df) cap_conversions = df /\
  fill_missing numeric_columns df = Ok df.

(** Two rows that differ only in a bounce rate above 1. *)
Definition t_dup : DataFrame := raw_table
  [ record "01-01-2024 10:00" "home" "mobile" "US"
      (q 100 1) (q 80 1) (q 3 2) (q 10 1) (q 30 1);
    record "01-01-2024 10:00" "home" "mobile" "US"
      (q 100 1) (q 80 1) (q 2 1) (q 10 1) (q 30 1) ].

Definition t_dup_clean : DataFrame := raw_table
  [ record "01-01-2024 10:00" "home" "mobile" "US"
      (q 100 1) (q 80 1) (q 1 1) (q 10 1) (q 30 1);
    record "01-01-2024 10:00" "home" "mobile" "US"
      (q 100 1) (q 80 1) (q 1 1) (q 10 1) (q 30 1) ].

Definition t_dup_clean2 : DataFrame := raw_table
  [ record "01-01-2024 10:00" "home" "mobile" "US"
      (q 100 1) (q 80 1) (q 1 1) (q 10 1) (q 30 1) ].

(** ** The validator: [DataValidator] *)

(** The entries of [self.issues].  Each constructor stands for one of the
    messages the validator appends, with the values the message prints. *)
Inductive issue : Type :=
  | MissingColumns (cols : list string)
  | FutureDates (n : nat)
  | DateParsingError (e : exn)
  | NotNumeric (col : string)
  | NegativeValues (n : nat) (col : string)
  | InvalidBounceRate (n : nat)
  | MissingValues (n : nat) (col : string)
  | SessionsBelowUsers (n : nat)
  | ConversionsAboveSessions (n : nat)
  | ZeroSessions (n : nat).

#[global] Instance issue_eq_dec : EqDecision issue.
Proof. solve_decision. Defined.

(** The object state: the frame, the issues, and the step headers printed
    so far (oldest first). *)
Record Validator : Type := mk_validator {
  self_df : DataFrame;
  self_issues : list issue;
  self_log : list string
}.

Definition set_df (d : DataFrame) (self : Validator) : Validator :=
  {| self_df := d; self_issues := self_issues self; self_log := self_log self |}.

Definition append_issue (i : issue) (self : Validator) : Validator :=
  {| self_df := self_df self;
     self_issues := self_issues self ++ [i];
     self_log := self_log self |}.

Definition print_header (name : string) (self : Validator) : Validator :=
  {| self_df := self_df self;
     self_issues := self_issues self;
     self_log := self_log self ++ [name] |}.

(** [load_data]: [None] stands for a file that cannot be read. *)
Definition load_data (file : option DataFrame) : option Validator :=
  match file with
  | Some d => Some {| self_df := d; self_issues := []; self_log := [] |}
  | None => None
  end.

(** [set(required_columns) - set(self.df.columns)] *)
Definition missing_columns (d : DataFrame) : gset string :=
  list_to_set required_columns ∖ list_to_set (column_names d).

(** [set_order] is the order in which the interpreter lists the members of
    a set of strings when it formats the set; it follows the hashes of the
    strings, which change with the hash seed of the process. *)
Definition validate_columns (set_order : gset string -> list string)
    (self : Validator) : result bool * Validator :=
  let missing_columns := missing_columns (self_df self) in
  if bool_decide (missing_columns <> ∅)
  then (Ok false, append_issue (MissingColumns (set_order missing_columns)) self)
  else (Ok true, self).

Definition count_rows (d : DataFrame) (p : gmap string cell -> bool) : nat :=
  length (filter (fun r => p r = true) (rows d)).

(** Order on cells of one kind; cells of different kinds do not compare. *)
Definition cell_ltb (a b : option cell) : bool :=
  match a, b with
  | Some (CNum x), Some (CNum y) => flt x y
  | Some (CText s), Some (CText t) => String.ltb s t
  | Some (CDate d), Some (CDate e) => dt_ltb d e
  | _, _ => false
  end.

(** Two columns that pandas refuses to order whatever they hold: a
    datetime column against a numeric one. *)
Definition datetime_against_numeric (ta tb : dtype) : bool :=
  match ta, tb with
  | DDatetime, DNumeric | DNumeric, DDatetime => true
  | _, _ => false
  end.

(** The two columns of a comparison [df[a] < df[b]] or [df[a] > df[b]]:
    the values are compared row by row, and a row whose two values are
    present and of different kinds raises [TypeError]. *)
Definition column_pair (d : DataFrame) (a b : string)
    : result ((gmap string cell -> option cell) * (gmap string cell -> option cell)) :=
  ta ← getitem d a;
  tb ← getitem d b;
  if datetime_against_numeric ta tb
  then Raise (TypeError a)
  else if forallb (fun r => orders (column_cell d a r) (column_cell d b r)) (rows d)
  then Ok (column_cell d a, column_cell d b)
  else Raise (TypeError a).

(** [df[a] < df[b]] as a mask. *)
Definition column_lt (d : DataFrame) (a b : string)
    : result (gmap string cell -> bool) :=
  p ← column_pair d a b;
  Ok (fun r => cell_ltb (p.1 r) (p.2 r)).

(** [df[a] > df[b]] as a mask. *)
Definition column_gt (d : DataFrame) (a b : string)
    : result (gmap string cell -> bool) :=
  p ← column_pair d a b;
  Ok (fun r => cell_ltb (p.2 r) (p.1 r)).

(** [df[col] == 0] as a mask: false on every cell that is not a number. *)
Definition column_eq_zero (d : DataFrame) (col : string)
    : result (gmap string cell -> bool) :=
  _ ← getitem d col;
  Ok (fun r => match r !! col with
               | Some (CNum x) => feq x (Fin 0)
               | _ => false
               end).

Definition is_numeric_dtype (t : dtype) : bool :=
  match t with DNumeric => true | _ => false end.

Definition append_if_positive (n : nat) (i : issue) (self : Validator) : Validator :=
  if bool_decide (0 < n)%nat then append_issue i self else self.

(** One round of the loop of [validate_numeric_columns]; the boolean is
    [all_valid]. *)
Definition validate_numeric_column (col : string) (all_valid : bool)
    (self : Validator) : result bool * Validator :=
  match getitem (self_df self) col with
  | Raise e => (Raise e, self)
  | Ok t =>
      if negb (is_numeric_dtype t)
      then (Ok false, append_issue (NotNumeric col) self)
      else
        let d := self_df self in
        let self :=
          if bool_decide (col <> "bounce_rate")
          then
            let negative_count := count_rows d (fun r => flt (num r col) (Fin 0)) in
            append_if_positive negative_count (NegativeValues negative_count col) self
          else self in
        let self :=
          if bool_decide (col = "bounce_rate")
          then
            let invalid_bounce :=
              count_rows d (fun r => flt (num r col) (Fin 0) || fgt (num r col) (Fin 1)) in
            append_if_positive invalid_bounce (InvalidBounceRate invalid_bounce) self
          else self in
        let missing_count := isna_count d col in
        (Ok all_valid,
         append_if_positive missing_count (MissingValues missing_count col) self)
  end.

Fixpoint validate_numeric_loop (cols : list string) (all_valid : bool)
    (self : Validator) : result bool * Validator :=
  match cols with
  | [] => (Ok all_valid, self)
  | col :: cols' =>
      match validate_numeric_column col all_valid self with
      | (Ok all_valid', self') => validate_numeric_loop cols' all_valid' self'
      | (Raise e, self') => (Raise e, self')
      end
  end.

Definition validate_numeric_columns (self : Validator) : result bool * Validator :=
  validate_numeric_loop numeric_columns true self.

(** [validate_categorical_columns] only prints; what remains of it is the
    access to its three columns. *)
Fixpoint validate_categorical_loop (cols : list string) (self : Validator)
    : result bool * Validator :=
  match cols with
  | [] => (Ok true, self)
  | col :: cols' =>
      match getitem (self_df self) col with
      | Ok _ => validate_categorical_loop cols' self
      | Raise e => (Raise e, self)
      end
  end.

Definition validate_categorical_columns (self : Validator) : result bool * Validator :=
  validate_categorical_loop ["page"; "device"; "country"] self.

Definition check_data_quality (self : Validator) : result bool * Validator :=
  let d := self_df self in
  (* Check sessions vs users logic *)
  match column_lt d "sessions" "users" with
  | Raise e => (Raise e, self)
  | Ok mask =>
      let invalid_sessions := count_rows d mask in
      let self := append_if_positive invalid_sessions
                    (SessionsBelowUsers invalid_sessions) self in
      (* Check conversions vs sessions logic *)
      match column_gt d "conversions" "sessions" with
      | Raise e => (Raise e, self)
      | Ok mask =>
          let invalid_conversions := count_rows d mask in
          let self := append_if_positive invalid_conversions
                        (ConversionsAboveSessions invalid_conversions) self in
          (* Check for zero sessions *)
          match column_eq_zero d "sessions" with
          | Raise e => (Raise e, self)
          | Ok mask =>
              let zero_sessions := count_rows d mask in
              (Ok true,
               append_if_positive zero_sessions (ZeroSessions zero_sessions) self)
          end
      end
  end.

(** The dictionary that [generate_summary_stats] returns, with the numbers
    that its formatted entries print. *)
Record Stats : Type := mk_stats {
  total_records : nat;
  date_range : option cell * option cell;
  total_sessions : fnum;
  total_users : fnum;
  total_conversions : fnum;
  avg_bounce_rate : fnum;
  avg_session_duration : fnum;
  overall_conversion_rate : fnum
}.

(** The smallest and the largest of the values present. *)
Definition cell_min (l : list (option cell)) : option cell :=
  foldr (fun c acc => match acc with
                      | None => c
                      | Some _ => if cell_ltb c acc then c else acc
                      end) None
    (filter (fun c => cell_isna c = false) l).

Definition cell_max (l : list (option cell)) : option cell :=
  foldr (fun c acc => match acc with
                      | None => c
                      | Some _ => if cell_ltb acc c then c else acc
                      end) None
    (filter (fun c => cell_isna c = false) l).

(** What [min] and [max] compare in an object column: pandas puts an
    infinite float in the place of every missing value. *)
Definition fill_inf (c : option cell) : option cell :=
  if cell_isna c then Some (CNum PInf) else c.

Definition one_kind (l : list (option cell)) : bool :=
  match l with
  | [] => true
  | c :: l' => forallb (same_kind c) l'
  end.

(** [df['date'].min()] and [df['date'].max()].  In an object column the
    values must be of one kind: text beside a number, or beside a missing
    value, raises [TypeError]. *)
Definition date_range_of (d : DataFrame) : result (option cell * option cell) :=
  t ← getitem d "date";
  let dates := column_cell d "date" <$> rows d in
  if bool_decide (t = DObject) && negb (one_kind (fill_inf <$> dates))
  then Raise (TypeError "date")
  else Ok (cell_min dates, cell_max dates).

Definition summary_stats (d : DataFrame) : result Stats :=
  date_range ← date_range_of d;
  sessions ← numeric d "sessions";
  users ← numeric d "users";
  conversions ← numeric d "conversions";
  bounce_rate ← numeric d "bounce_rate";
  duration ← numeric d "avg_session_duration";
  Ok {| total_records := length (rows d);
        date_range := date_range;
        total_sessions := Num.sum sessions;
        total_users := Num.sum users;
        total_conversions := Num.sum conversions;
        avg_bounce_rate := fmul (Num.mean bounce_rate) (of_nat 100);
        avg_session_duration := Num.mean duration;
        overall_conversion_rate :=
          fmul (fdiv (Num.sum conversions) (Num.sum sessions)) (of_nat 100) |}.

Definition generate_summary_stats (self : Validator) : result Stats * Validator :=
  (summary_stats (self_df self), self).

(** [clean_data] as a method: it replaces [self.df]. *)
Definition clean_data_method (self : Validator) : result DataFrame * Validator :=
  match clean_data (self_df self) with
  | Ok d => (Ok d, set_df d self)
  | Raise e => (Raise e, self)
  end.

(** [str.lower] on ASCII letters. *)
Definition lower_ascii (c : ascii) : ascii :=
  let n := nat_of_ascii c in
  if (65 <=? n)%nat && (n <=? 90)%nat then ascii_of_nat (n + 32) else c.

Fixpoint lower (s : string) : string :=
  match s with
  | EmptyString => EmptyString
  | String c s' => String (lower_ascii c) (lower s')
  end.

Definition truthy (m : result Stats * Validator) : result bool * Validator :=
  match m with
  | (Ok _, self) => (Ok true, self)
  | (Raise e, self) => (Raise e, self)
  end.

(** The four steps that follow the date check. *)
Definition later_steps : list (string * (Validator -> result bool * Validator)) :=
  [ ("Numeric Validation", validate_numeric_columns);
    ("Categorical Validation", validate_categorical_columns);
    ("Quality Checks", check_data_quality);
    ("Summary Statistics", fun self => truthy (generate_summary_stats self)) ].

(** A state extends another when it has the same printed headers and issues
    and possibly more after them. *)
Definition extends (s s' : Validator) : Prop :=
  self_log s `prefix_of` self_log s' /\ self_issues s `prefix_of` self_issues s'.

(** A step that leaves the frame alone and only adds to the report. *)
Definition read_only (f : Validator -> result bool * Validator) : Prop :=
  forall s, self_df (f s).2 = self_df s /\ extends s (f s).2.

Section Validation.

(** [strptime] parses one string in the format ["%d-%m-%Y %H:%M"]. *)
Variable strptime : string -> option datetime.

Variable set_order : gset string -> list string.

(** The strings that [pd.to_datetime] reads as a missing timestamp. *)
Definition nat_strings : list string :=
  [""; "NaT"; "nat"; "NAT"; "nan"; "NaN"; "NAN"].

(** [pd.to_datetime] on one cell: [None] is [NaT].  A missing value gives
    [NaT] and raises nothing; a number is written out and does not match
    the format. *)
Definition to_datetime_cell (c : option cell) : result (option datetime) :=
  match c with
  | Some (CText s) =>
      if bool_decide (s ∈ nat_strings) then Ok None
      else match strptime s with
           | Some t => Ok (Some t)
           | None => Raise (ValueError s)
           end
  | Some (CDate t) => Ok (Some t)
  | Some (CNum x) => if isna x then Ok None else Raise (ValueError "")
  | Some CNaT => Ok None
  | None => Ok None
  end.

(** [pd.to_datetime(df['date'], format=...)]: the first value that does not
    parse raises. *)
Fixpoint to_datetime_rows (l : list (gmap string cell))
    : result (list (option datetime)) :=
  match l with
  | [] => Ok []
  | r :: l' =>
      t ← to_datetime_cell (r !! "date");
      ts ← to_datetime_rows l';
      Ok (t :: ts)
  end.

Definition to_datetime (d : DataFrame) : result (list (option datetime)) :=
  _ ← getitem d "date";
  to_datetime_rows (rows d).

Definition parsed_date (r : gmap string cell) : cell :=
  match to_datetime_cell (r !! "date") with
  | Ok (Some t) => CDate t
  | Ok None => CNaT
  | Raise _ => default (CText "") (r !! "date")
  end.

(** [now] is the value of [datetime.now()]. *)
Definition validate_dates (now : datetime) (self : Validator)
    : result bool * Validator :=
  match to_datetime (self_df self) with
  | Ok _ =>
      let self := set_df (assign (self_df self) "date" DDatetime parsed_date) self in
      let future_dates :=
        count_rows (self_df self)
          (fun r => match r !! "date" with
                    | Some (CDate t) => dt_gtb t now
                    | _ => false
                    end) in
      (Ok true, append_if_positive future_dates (FutureDates future_dates) self)
  | Raise e => (Ok false, append_issue (DateParsingError e) self)
  end.

Definition steps (now : datetime)
    : list (string * (Validator -> result bool * Validator)) :=
  ("Column Validation", validate_columns set_order)
  :: ("Date Validation", validate_dates now)
  :: later_steps.

(** The loop over the steps; the boolean is [all_passed]. *)
Fixpoint run_steps (l : list (string * (Validator -> result bool * Validator)))
    (all_passed : bool) (self : Validator) : result bool * Validator :=
  match l with
  | [] => (Ok all_passed, self)
  | (step_name, step_func) :: l' =>
      match step_func (print_header step_name self) with
      | (Ok result, self') =>
          run_steps l' (if negb result then false else all_passed) self'
      | (Raise e, self') => (Raise e, self')
      end
  end.

(** [file] is what [pd.read_csv] makes of the file, [now] the time of the
    run, and [response] the answer typed at the prompt, which is read only
    when an issue was recorded.  [strptime] and [set_order] are those of the
    section. *)
Definition run_full_validation (file : option DataFrame) (now : datetime)
    (response : string) : result bool * option Validator :=
  match load_data file with
  | None => (Ok false, None)
  | Some self =>
      match run_steps (steps now) true self with
      | (Raise e, self) => (Raise e, Some self)
      | (Ok all_passed, self) =>
          match self_issues self with
          | [] => (Ok all_passed, Some self)
          | _ :: _ =>
              if bool_decide (lower response = "y")
              then
                match clean_data_method self with
                | (Ok _, self) => (Ok all_passed, Some self)
                | (Raise e, self) => (Raise e, Some self)
                end
              else (Ok all_passed, Some self)
          end
      end
  end.

End Validation.

(** What a run may have done to the frame [d] it loaded. *)
Definition dates_parsed (strptime : string -> option datetime)
    (d d' : DataFrame) : Prop :=
  d' = d \/
  exists ts, to_datetime strptime d = Ok ts /\
             d' = assign d "date" DDatetime (parsed_date strptime).

(** Whether the parsed date of a row is later than [now]. *)
Definition in_future (now : datetime) (r : gmap string cell) : bool :=
  match r !! "date" with
  | Some (CDate t) => dt_gtb t now
  | _ => false
  end.


(** ** The aggregation engine: [app.py] *)

Module App.

(** The dictionary returned by [calculate_kpis]. *)
Record KPIs : Type := mk_kpis {
  total_sessions : fnum;
  total_users : fnum;
  total_conversions : fnum;
  avg_bounce_rate : fnum;
  avg_session_duration : fnum;
  conversion_rate : fnum
}.

Definition calculate_kpis (df : DataFrame) : result KPIs :=
  sessions ← numeric df "sessions";
  let total_sessions := Num.sum sessions in
  users ← numeric df "users";
  let total_users := Num.sum users in
  conversions ← numeric df "conversions";
  let total_conversions := Num.sum conversions in
  bounce_rate ← numeric df "bounce_rate";
  let avg_bounce_rate := Num.mean bounce_rate in
  duration ← numeric df "avg_session_duration";
  let avg_session_duration := Num.mean duration in
  let conversion_rate :=
    if fgt total_sessions (Fin 0)
    then fmul (fdiv total_conversions total_sessions) (of_nat 100)
    else Fin 0 in
  Ok {| total_sessions := total_sessions;
        total_users := total_users;
        total_conversions := total_conversions;
        avg_bounce_rate := avg_bounce_rate;
        avg_session_duration := avg_session_duration;
        conversion_rate := conversion_rate |}.

(** *** [groupby] *)

Definition key_present (c : cell) : bool :=
  match c with
  | CNum x => negb (isna x)
  | CNaT => false
  | _ => true
  end.

Fixpoint insert_key (k : cell) (l : list cell) : list cell :=
  match l with
  | [] => [k]
  | k' :: l' =>
      if cell_ltb (Some k') (Some k) then k' :: insert_key k l' else k :: l
  end.

(** The distinct values of the grouping column, sorted; a missing key makes
    no group. *)
Definition group_keys (df : DataFrame) (key : string) : list cell :=
  foldr insert_key []
    (remove_dups (filter (fun c => key_present c = true)
                    (omap (fun r => r !! key) (rows df)))).

Definition group (df : DataFrame) (key : string) (k : cell)
    : list (gmap string cell) :=
  filter (fun r => r !! key = Some k) (rows df).

(** [df.groupby(key)]: the groups in the order of their keys. *)
Definition groupby (df : DataFrame) (key : string)
    : result (list (cell * list (gmap string cell))) :=
  _ ← getitem df key;
  Ok ((fun k => (k, group df key k)) <$> group_keys df key).

Definition agg_sum (col : string) (g : list (gmap string cell)) : fnum :=
  Num.sum ((fun r => num r col) <$> g).

Definition agg_mean (col : string) (g : list (gmap string cell)) : fnum :=
  Num.mean ((fun r => num r col) <$> g).

(** [conversions / sessions * 100], with no guard on the divisor. *)
Definition rate (conversions sessions : fnum) : fnum :=
  fmul (fdiv conversions sessions) (of_nat 100).

(** *** Pages *)

Inductive Category : Type :=
  | StarPerformer
  | HighTrafficLowConversion
  | HiddenGem
  | NeedsAttention.

#[global] Instance Category_eq_dec : EqDecision Category.
Proof. solve_decision. Defined.

Definition category_name (c : Category) : string :=
  match c with
  | StarPerformer => "Star Performers"
  | HighTrafficLowConversion => "High Traffic - Low Conversion"
  | HiddenGem => "Hidden Gems"
  | NeedsAttention => "Needs Attention"
  end.

(** A row of [page_stats] before the derived columns are added. *)
Record PageAggregate : Type := mk_page_aggregate {
  pa_page : cell;
  pa_sessions : fnum;
  pa_conversions : fnum;
  pa_bounce_rate : fnum;
  pa_avg_session_duration : fnum
}.

(** A row of the frame that [analyze_page_performance] returns. *)
Record PageStats : Type := mk_page_stats {
  page : cell;
  sessions : fnum;
  conversions : fnum;
  bounce_rate : fnum;
  page_avg_session_duration : fnum;
  page_conversion_rate : fnum;
  quality_score : fnum;
  category : Category
}.

Definition page_aggregates (df : DataFrame) : result (list PageAggregate) :=
  groups ← groupby df "page";
  _ ← numeric df "sessions";
  _ ← numeric df "conversions";
  _ ← numeric df "bounce_rate";
  _ ← numeric df "avg_session_duration";
  Ok ((fun g => {| pa_page := g.1;
                   pa_sessions := agg_sum "sessions" g.2;
                   pa_conversions := agg_sum "conversions" g.2;
                   pa_bounce_rate := agg_mean "bounce_rate" g.2;
                   pa_avg_session_duration := agg_mean "avg_session_duration" g.2 |})
        <$> (groups : list (cell * list (gmap string cell)))).

(** The weighted score of one page; [max_duration] is the largest mean
    session duration over the pages. *)
Definition score (bounce_rate conversion_rate duration max_duration : fnum) : fnum :=
  fmul
    (fadd
       (fadd (fmul (fsub (Fin 1) bounce_rate) (q 3 10))
             (fmul (fdiv conversion_rate (of_nat 100)) (q 4 10)))
       (fmul (fdiv duration max_duration) (q 3 10)))
    (of_nat 100).

Definition categorize_page (median_sessions median_conversions : fnum)
    (row_sessions row_conversion_rate : fnum) : Category :=
  if fge row_sessions median_sessions && fge row_conversion_rate median_conversions
  then StarPerformer
  else if fge row_sessions median_sessions && flt row_conversion_rate median_conversions
  then HighTrafficLowConversion
  else if flt row_sessions median_sessions && fge row_conversion_rate median_conversions
  then HiddenGem
  else NeedsAttention.

Definition max_duration (aggs : list PageAggregate) : fnum :=
  Num.max (pa_avg_session_duration <$> aggs).

Definition median_sessions (aggs : list PageAggregate) : fnum :=
  Num.median (pa_sessions <$> aggs).

Definition median_conversions (aggs : list PageAggregate) : fnum :=
  Num.median ((fun a => rate (pa_conversions a) (pa_sessions a)) <$> aggs).

(** The scorer and categorizer on the page aggregates. *)
Definition score_pages (aggs : list PageAggregate) : list PageStats :=
  (fun a =>
     let conversion_rate := rate (pa_conversions a) (pa_sessions a) in
     {| page := pa_page a;
        sessions := pa_sessions a;
        conversions := pa_conversions a;
        bounce_rate := pa_bounce_rate a;
        page_avg_session_duration := pa_avg_session_duration a;
        page_conversion_rate := conversion_rate;
        quality_score :=
          score (pa_bounce_rate a) conversion_rate (pa_avg_session_duration a)
            (max_duration aggs);
        category :=
          categorize_page (median_sessions aggs) (median_conversions aggs)
            (pa_sessions a) conversion_rate |}) <$> aggs.

Definition analyze_page_performance (df : DataFrame) : result (list PageStats) :=
  aggs ← page_aggregates df;
  Ok (score_pages aggs).

(** *** Devices, countries, days, hours *)

(** A row of a dimensional aggregate; [ar_users] and [ar_duration] are
    absent where the aggregate does not compute them. *)
Record AggregateRow : Type := mk_aggregate_row {
  ar_key : cell;
  ar_sessions : fnum;
  ar_users : option fnum;
  ar_conversions : fnum;
  ar_bounce_rate : fnum;
  ar_duration : option fnum;
  ar_conversion_rate : fnum
}.

(** Sessions, users, conversions summed; bounce rate and duration averaged;
    used for the device and the country. *)
Definition analyze_with_users (df : DataFrame) (key : string)
    : result (list AggregateRow) :=
  groups ← groupby df key;
  _ ← numeric df "sessions";
  _ ← numeric df "users";
  _ ← numeric df "conversions";
  _ ← numeric df "bounce_rate";
  _ ← numeric df "avg_session_duration";
  Ok ((fun g =>
         let s := agg_sum "sessions" g.2 in
         let c := agg_sum "conversions" g.2 in
         {| ar_key := g.1;
            ar_sessions := s;
            ar_users := Some (agg_sum "users" g.2);
            ar_conversions := c;
            ar_bounce_rate := agg_mean "bounce_rate" g.2;
            ar_duration := Some (agg_mean "avg_session_duration" g.2);
            ar_conversion_rate := rate c s |}) <$> (groups : list (cell * list (gmap string cell)))).

Definition analyze_device_performance (df : DataFrame) : result (list AggregateRow) :=
  analyze_with_users df "device".

Definition analyze_country_performance (df : DataFrame) : result (list AggregateRow) :=
  analyze_with_users df "country".

(** Sessions and conversions summed, bounce rate averaged; used for the day
    and the hour. *)
Definition analyze_over_time (df : DataFrame) (key : string)
    : result (list AggregateRow) :=
  groups ← groupby df key;
  _ ← numeric df "sessions";
  _ ← numeric df "conversions";
  _ ← numeric df "bounce_rate";
  Ok ((fun g =>
         let s := agg_sum "sessions" g.2 in
         let c := agg_sum "conversions" g.2 in
         {| ar_key := g.1;
            ar_sessions := s;
            ar_users := None;
            ar_conversions := c;
            ar_bounce_rate := agg_mean "bounce_rate" g.2;
            ar_duration := None;
            ar_conversion_rate := rate c s |}) <$> (groups : list (cell * list (gmap string cell)))).

Definition analyze_time_trends (df : DataFrame) : result (list AggregateRow) :=
  analyze_over_time df "date_only".

(** [hourly_perf], computed in [main]. *)
Definition hourly_perf (df : DataFrame) : result (list AggregateRow) :=
  analyze_over_time df "hour".

(** The formula of the specification for the quality score. *)
Definition quality_score_formula
    (bounce_rate conversion_rate duration max_duration : fnum) : fnum :=
  fmul (of_nat 100)
    (fadd
       (fadd (fmul (q 3 10) (fsub (Fin 1) bounce_rate))
             (fmul (q 4 10) (fdiv conversion_rate (of_nat 100))))
       (fmul (q 3 10) (fdiv duration max_duration))).

End App.

(** ** A concrete parser and tables for the examples *)

Definition digit (c : ascii) : option nat :=
  let n := nat_of_ascii c in
  if (48 <=? n)%nat && (n <=? 57)%nat then Some (n - 48)%nat else None.

Definition number (cs : list ascii) : option nat :=
  foldl (fun acc c => n ← acc; k ← digit c; Some (10 * n + k)%nat) (Some 0%nat) cs.

(** The zero-padded form [DD-MM-YYYY HH:MM] of the format
    ["%d-%m-%Y %H:%M"]. *)
Definition strptime_padded (s : string) : option datetime :=
  match list_ascii_of_string s with
  | [d1; d2; s1; m1; m2; s2; y1; y2; y3; y4; s3; h1; h2; s4; n1; n2] =>
      if Ascii.eqb s1 "-" && Ascii.eqb s2 "-" && Ascii.eqb s3 " " && Ascii.eqb s4 ":"
      then
        day ← number [d1; d2];
        month ← number [m1; m2];
        year ← number [y1; y2; y3; y4];
        hour ← number [h1; h2];
        minute ← number [n1; n2];
        if (1 <=? day)%nat && (day <=? 31)%nat && (1 <=? month)%nat
           && (month <=? 12)%nat && (hour <? 24)%nat && (minute <? 60)%nat
        then Some (mk_datetime year month day hour minute)
        else None
      else None
  | _ => None
  end.

(** Whether the same rows of [d] lie in the future at [now1] and at
    [now2]. *)
Definition same_future (strptime : string -> option datetime)
    (now1 now2 : datetime) (d : DataFrame) : bool :=
  forallb (fun r => match to_datetime_cell strptime (r !! "date") with
                    | Ok (Some t) => bool_decide (dt_gtb t now1 = dt_gtb t now2)
                    | _ => true
                    end) (rows d).

(** One well-formed record, dated 1 March 2025. *)
Definition v_ex : DataFrame := raw_table
  [ record "01-03-2025 10:00" "home" "mobile" "US"
      (q 100 1) (q 80 1) (q 1 2) (q 10 1) (q 30 1) ].

(** The same record in a file without the [country] column. *)
Definition v_missing : DataFrame :=
  {| columns := filter (fun c => c.1 <> "country") raw_header;
     rows := [ delete "country"
                 (record "01-03-2025 10:00" "home" "mobile" "US"
                    (q 100 1) (q 80 1) (q 1 2) (q 10 1) (q 30 1)) ] |}.

(** A page whose only record has no sessions. *)
Definition a_zero : DataFrame := raw_table
  [ record "01-03-2025 10:00" "home" "mobile" "US"
      (q 0 1) (q 0 1) (q 1 2) (q 0 1) (q 30 1) ].

(** A cleaned table whose sessions all last 0 seconds. *)
Definition a_still : DataFrame := raw_table
  [ record "01-03-2025 10:00" "home" "mobile" "US"
      (q 10 1) (q 8 1) (q 1 2) (q 1 1) (q 0 1) ].

(** Three pages. *)
Definition a_pages : DataFrame := raw_table
  [ record "01-03-2025 10:00" "home" "mobile" "US"
      (q 1000 1) (q 800 1) (q 1 2) (q 50 1) (q 30 1);
    record "01-03-2025 11:00" "cart" "mobile" "US"
      (q 200 1) (q 100 1) (q 1 4) (q 16 1) (q 60 1);
    record "01-03-2025 12:00" "blog" "desktop" "UK"
      (q 50 1) (q 40 1) (q 3 4) (q 1 2) (q 15 1) ].

Definition january_2024 : datetime := mk_datetime 2024 1 1 0 0.
Definition june_2024 : datetime := mk_datetime 2024 6 1 0 0.
Definition january_2026 : datetime := mk_datetime 2026 1 1 0 0.

(** [a_zero] with the derived columns [date_only] and [hour] that the
    dashboard adds when it loads the file. *)
Definition a_zero_loaded : DataFrame :=
  {| columns := raw_header ++ [("date_only", DObject); ("hour", DNumeric)];
     rows := (fun r => <["date_only" := CText "2025-03-01"]>
                         (<["hour" := CNum (q 10 1)]> r)) <$> rows a_zero |}.

(** ** Further notions used to state properties *)

(** Two numbers that the comparisons can order. *)
Definition comparable (x y : fnum) : bool := negb (isna x) && negb (isna y).

(** The decision table of the page categories. *)
Definition quadrant (high_sessions high_conversion : bool) : App.Category :=
  match high_sessions, high_conversion with
  | true, true => App.StarPerformer
  | true, false => App.HighTrafficLowConversion
  | false, true => App.HiddenGem
  | false, false => App.NeedsAttention
  end.

(** Whether every numeric column of the header has a numeric dtype. *)
Definition all_numeric (d : DataFrame) : bool :=
  forallb (fun col => bool_decide (dtype_of d col = Some DNumeric)) numeric_columns.

(** A table with every required column, whose numeric columns are
    numeric. *)
Definition well_formed (d : DataFrame) : bool :=
  forallb (fun col => bool_decide (is_Some (dtype_of d col))) required_columns
  && all_numeric d.

(** The step [f] returns [r] from the state [s] without raising, leaving
    the frame and the printed headers as they are. *)
Definition passes (f : Validator -> result bool * Validator) (s : Validator)
    (r : bool) : Prop :=
  exists s', f s = (Ok r, s') /\ self_df s' = self_df s /\ self_log s' = self_log s.

(** Two tables that hold the same series in every column of [cols]: the
    same dtype and, row by row, the same values. *)
Definition same_columns (cols : list string) (d1 d2 : DataFrame) : Prop :=
  (forall c, c ∈ cols -> dtype_of d1 c = dtype_of d2 c) /\
  Forall2 (fun r1 r2 : gmap string cell => forall c, c ∈ cols -> r1 !! c = r2 !! c)
    (rows d1) (rows d2).

(** The record of [v_ex] in a file that has neither the [page] nor the
    [country] column. *)
Definition v_missing_two : DataFrame :=
  {| columns := filter (fun c => c.1 <> "page" /\ c.1 <> "country") raw_header;
     rows := [ delete "page" (delete "country"
                 (record "01-03-2025 10:00" "home" "mobile" "US"
                    (q 100 1) (q 80 1) (q 1 2) (q 10 1) (q 30 1))) ] |}.

(** The record of [v_ex] with another page, device and country. *)
Definition v_ex_elsewhere : DataFrame := raw_table
  [ record "01-03-2025 10:00" "pricing" "desktop" "FR"
      (q 100 1) (q 80 1) (q 1 2) (q 10 1) (q 30 1) ].

(** [v_ex] with a second record whose date is blank. *)
Definition v_blank : DataFrame := raw_table
  [ record "01-03-2025 10:00" "home" "mobile" "US"
      (q 100 1) (q 80 1) (q 1 2) (q 10 1) (q 30 1);
    <["date" := CNum NaN]>
      (record "" "cart" "mobile" "US" (q 50 1) (q 40 1) (q 1 2) (q 5 1) (q 20 1)) ].

(** Whether a column holds numbers: it is numeric, or it is an object
    column in which no value is text (numbers and missing values only). *)
Definition holds_numbers (df : DataFrame) (col : string) : bool :=
  match dtype_of df col with
  | Some DNumeric => true
  | Some DObject =>
      forallb (fun r => orders (r !! col) (Some (CNum (Fin 0)))) (rows df)
  | _ => false
  end.

(** A file that has the header line only: [read_csv] gives every column
    the dtype object. *)
Definition t_header_only : DataFrame :=
  {| columns := (fun c => (c, DObject)) <$> required_columns; rows := [] |}.

(** A file whose sessions column holds a word. *)
Definition t_text : DataFrame :=
  {| columns := retype "sessions" DObject <$> raw_header;
     rows := [ <["sessions" := CText "many"]>
                 (record "01-03-2025 10:00" "home" "mobile" "US"
                    NaN (q 80 1) (q 1 2) (q 10 1) (q 30 1)) ] |}.

(** The record of [v_ex] in a file without the [users] column. *)
Definition t_no_users : DataFrame :=
  {| columns := filter (fun c => c.1 <> "users") raw_header;
     rows := [ delete "users"
                 (record "01-03-2025 10:00" "home" "mobile" "US"
                    (q 100 1) (q 80 1) (q 1 2) (q 10 1) (q 30 1)) ] |}.

(** A file whose only record has no sessions and a word for its bounce
    rate. *)
Definition t_text_bounce : DataFrame :=
  {| columns := retype "bounce_rate" DObject <$> raw_header;
     rows := [ <["bounce_rate" := CText "high"]>
                 (record "01-03-2025 10:00" "home" "mobile" "US"
                    (q 0 1) (q 0 1) NaN (q 0 1) (q 30 1)) ] |}.
(** ** Facts about numbers *)

Lemma fle_Fin (a b : Qc) : fle (Fin a) (Fin b) = bool_decide (a <= b).
Proof.
  unfold fle; simpl.
  destruct (Qclt_le_dec a b) as [Hlt | Hle].
  - rewrite (bool_decide_eq_true_2 _ Hlt); simpl.
    symmetry; apply bool_decide_eq_true_2, Qclt_le_weak, Hlt.
  - rewrite (bool_decide_eq_false_2 (a < b)) by (apply Qcle_not_lt, Hle); simpl.
    apply bool_decide_ext; split.
    + intros ->; apply Qcle_refl.
    + intros H; apply Qcle_antisym; assumption.
Qed.

Lemma fle_refl_notna (x : fnum) : isna x = false -> fle x x = true.
Proof.
  destruct x; try discriminate; try reflexivity.
  intros _; rewrite fle_Fin; apply bool_decide_eq_true_2, Qcle_refl.
Qed.

Lemma flt_false_fle (x y : fnum) :
  isna x = false -> isna y = false -> flt x y = false -> fle y x = true.
Proof.
  destruct x, y; simpl; try discriminate; try reflexivity.
  intros _ _ H; rewrite fle_Fin.
  apply bool_decide_eq_false_1 in H.
  apply bool_decide_eq_true_2, Qcnot_lt_le, H.
Qed.

Lemma flt_fle (x y : fnum) : flt x y = true -> fle x y = true.
Proof. unfold fle; intros ->; reflexivity. Qed.

Lemma flt_notna (x y : fnum) : flt x y = true -> isna x = false /\ isna y = false.
Proof. destruct x, y; simpl; try discriminate; auto. Qed.

Lemma zero_le_one : fle (Fin 0) (Fin 1) = true.
Proof. rewrite fle_Fin; apply bool_decide_eq_true_2; discriminate. Qed.

(** [clip] puts every value present between its bounds. *)
Lemma clip_bounds (lo hi x : fnum) :
  fle lo hi = true -> isna x = false ->
  fle lo (clip lo hi x) = true /\ fle (clip lo hi x) hi = true.
Proof.
  intros Hb Hx; unfold clip.
  assert (Hlo : isna lo = false) by (destruct lo, hi; try discriminate; reflexivity).
  assert (Hhi : isna hi = false) by (destruct lo, hi; try discriminate; reflexivity).
  destruct (flt x lo) eqn:E1.
  - split; [apply fle_refl_notna, Hlo | exact Hb].
  - destruct (flt hi x) eqn:E2.
    + split; [exact Hb | apply fle_refl_notna, Hhi].
    + split; apply flt_false_fle; assumption.
Qed.

Lemma clip_isna (lo hi x : fnum) :
  isna lo = false -> isna hi = false -> isna (clip lo hi x) = isna x.
Proof.
  intros Hlo Hhi; unfold clip.
  destruct (flt x lo) eqn:E1.
  - apply flt_notna in E1 as [-> _]; exact Hlo.
  - destruct (flt hi x) eqn:E2; [|reflexivity].
    apply flt_notna in E2 as [_ ->]; exact Hhi.
Qed.

(** The row minimum of a pair whose second component is present. *)
Lemma min_pair (c s : fnum) :
  isna s = false ->
  Num.min [c; s] = if isna c then s else if flt c s then c else s.
Proof.
  intros Hs; unfold Num.min; simpl.
  destruct c, s; simpl in *; try discriminate; reflexivity.
Qed.

Lemma min_pair_le (c s : fnum) :
  isna s = false ->
  isna (Num.min [c; s]) = false /\ fle (Num.min [c; s]) s = true.
Proof.
  intros Hs; rewrite (min_pair c s Hs).
  destruct (isna c) eqn:Ec.
  - split; [exact Hs | apply fle_refl_notna, Hs].
  - destruct (flt c s) eqn:E.
    + split; [exact Ec | apply flt_fle, E].
    + split; [exact Hs | apply fle_refl_notna, Hs].
Qed.

(** ** Facts about [clean_data] *)

Lemma bind_Ok_inv {A B : Type} (m : result A) (k : A -> result B) (b : B) :
  m ≫= k = Ok b -> exists a, m = Ok a /\ k a = Ok b.
Proof. destruct m as [a|e]; [eauto | discriminate]. Qed.

Ltac bind_inv H :=
  let a := fresh "a" in
  let E := fresh "E" in
  apply bind_Ok_inv in H as (a & E & H).

Lemma fill_column_spec (df df' : DataFrame) (col : string) :
  fill_column df col = Ok df' ->
  columns df' = columns df /\ rows df' = fillna_row col (Fin 0) <$> rows df.
Proof.
  unfold fill_column.
  destruct (getitem df col) as [t|e]; simpl; [|discriminate].
  case_bool_decide as Hc; intros [= <-]; [split; reflexivity|].
  split; [reflexivity|].
  assert (Hz : isna_count df col = 0%nat) by lia.
  unfold isna_count in Hz. apply length_zero_iff_nil in Hz.
  symmetry. erewrite list_fmap_ext; [apply list_fmap_id|].
  intros i r Hr; simpl. unfold fillna_row.
  destruct (cell_isna (r !! col)) eqn:E; [|reflexivity].
  exfalso. assert (Hin : r ∈ filter (fun r => cell_isna (r !! col) = true) (rows df)).
  { apply list_elem_of_filter; split; [exact E|]. eapply list_elem_of_lookup_2, Hr. }
  rewrite Hz in Hin. by apply not_elem_of_nil in Hin.
Qed.

Lemma fill_missing_spec (cols : list string) (df df' : DataFrame) :
  fill_missing cols df = Ok df' ->
  columns df' = columns df /\
  rows df' = (fun r => foldl (fun r col => fillna_row col (Fin 0) r) r cols) <$> rows df.
Proof.
  revert df; induction cols as [|col cols IH]; intros df; simpl.
  - intros [= <-]; split; [reflexivity|]. by rewrite list_fmap_id.
  - destruct (fill_column df col) as [df1|e] eqn:E; simpl; [|discriminate].
    intros H. apply IH in H as [Hc Hr]. apply fill_column_spec in E as [Hc1 Hr1].
    split; [congruence|]. rewrite Hr, Hr1, <- list_fmap_compose. reflexivity.
Qed.

(** The rows of a cleaned table: the first copy of every input row with
    positive sessions, each repaired, in the order of the input. *)
Lemma clean_data_rows (df df' : DataFrame) :
  clean_data df = Ok df' ->
  rows df' = repair_row <$> filter (fun r => positive_sessions r = true) (dedup [] (rows df)).
Proof.
  unfold clean_data; intros H.
  do 4 bind_inv H.
  apply fill_missing_spec in H as [_ ->]. simpl.
  rewrite <- !list_fmap_compose. reflexivity.
Qed.

Lemma lookup_fillna_row_ne (c c' : string) (v : fnum) (r : gmap string cell) :
  c <> c' -> fillna_row c v r !! c' = r !! c'.
Proof.
  intros Hne; unfold fillna_row.
  destruct (cell_isna (r !! c)); [apply lookup_insert_ne, Hne | reflexivity].
Qed.

Lemma lookup_fillna_row_eq (c : string) (v : fnum) (r : gmap string cell) :
  fillna_row c v r !! c =
  match r !! c with
  | Some (CNum x) => Some (CNum (if isna x then v else x))
  | Some CNaT => Some (CNum v)
  | Some y => Some y
  | None => Some (CNum v)
  end.
Proof.
  unfold fillna_row.
  destruct (r !! c) as [[x|s|d|]|] eqn:E; simpl; rewrite ?E; try reflexivity.
  - destruct (isna x); [apply lookup_insert_eq | exact E].
  - apply lookup_insert_eq.
  - apply lookup_insert_eq.
Qed.

Ltac norm_lookup :=
  repeat first
    [ rewrite lookup_fillna_row_eq
    | rewrite lookup_fillna_row_ne by discriminate
    | rewrite lookup_insert_eq
    | rewrite lookup_insert_ne by discriminate ].

Lemma positive_sessions_cell (r : gmap string cell) :
  positive_sessions r = true ->
  exists x, r !! "sessions" = Some (CNum x) /\ flt (Fin 0) x = true.
Proof.
  unfold positive_sessions, fgt, num.
  destruct (r !! "sessions") as [[x|s|d|]|]; try discriminate.
  intros H; exists x; split; [reflexivity | exact H].
Qed.

Lemma repair_row_sessions (r : gmap string cell) :
  positive_sessions r = true ->
  num (repair_row r) "sessions" = num r "sessions".
Proof.
  intros H; apply positive_sessions_cell in H as (x & Hx & Hpos).
  apply flt_notna in Hpos as [_ Hna].
  unfold num, repair_row, numeric_columns; simpl foldl.
  norm_lookup. rewrite Hx, Hna. reflexivity.
Qed.

Lemma repair_row_bounce_rate (r : gmap string cell) :
  num (repair_row r) "bounce_rate" =
  let b := clip (Fin 0) (Fin 1) (num r "bounce_rate") in
  if isna b then Fin 0 else b.
Proof.
  unfold num at 1; unfold repair_row, numeric_columns; simpl foldl.
  norm_lookup. unfold clip_bounce_rate. reflexivity.
Qed.

Lemma repair_row_conversions (r : gmap string cell) :
  positive_sessions r = true ->
  num (repair_row r) "conversions" = Num.min [num r "conversions"; num r "sessions"].
Proof.
  intros H; apply positive_sessions_cell in H as (x & Hx & Hpos).
  apply flt_notna in Hpos as [_ Hna].
  unfold num at 1; unfold repair_row, numeric_columns; simpl foldl.
  norm_lookup. unfold cap_conversions.
  assert (Hs : num (<["bounce_rate":=clip_bounce_rate r]> r) "sessions" = x).
  { unfold num; norm_lookup; rewrite Hx; reflexivity. }
  assert (Hc : num (<["bounce_rate":=clip_bounce_rate r]> r) "conversions"
               = num r "conversions").
  { unfold num; norm_lookup; reflexivity. }
  rewrite Hs, Hc. replace (num r "sessions") with x by (unfold num; rewrite Hx; reflexivity).
  destruct (min_pair_le (num r "conversions") x Hna) as [-> _]. reflexivity.
Qed.

(** A repaired row that was kept satisfies the three domain invariants. *)
Lemma repair_row_invariants (r : gmap string cell) :
  positive_sessions r = true ->
  let r' := repair_row r in
  fle (Fin 0) (num r' "bounce_rate") = true /\
  fle (num r' "bounce_rate") (Fin 1) = true /\
  fle (num r' "conversions") (num r' "sessions") = true /\
  fgt (num r' "sessions") (Fin 0) = true.
Proof.
  intros H r'; subst r'.
  rewrite repair_row_bounce_rate, repair_row_conversions, repair_row_sessions by exact H.
  pose proof (positive_sessions_cell r H) as (x & Hx & Hpos).
  pose proof (flt_notna _ _ Hpos) as [_ Hna].
  assert (Hs : num r "sessions" = x) by (unfold num; rewrite Hx; reflexivity).
  rewrite Hs. cbv zeta.
  destruct (isna (clip (Fin 0) (Fin 1) (num r "bounce_rate"))) eqn:Eb.
  - split; [apply fle_refl_notna; reflexivity|].
    split; [apply zero_le_one|].
    split; [apply min_pair_le, Hna | exact Hpos].
  - rewrite clip_isna in Eb by reflexivity.
    destruct (clip_bounds (Fin 0) (Fin 1) (num r "bounce_rate") zero_le_one Eb) as [H0 H1].
    split; [exact H0|]. split; [exact H1|].
    split; [apply min_pair_le, Hna | exact Hpos].
Qed.

Lemma dedup_elem_of (seen l : list (gmap string cell)) (r : gmap string cell) :
  r ∈ dedup seen l -> r ∈ l /\ r ∉ seen.
Proof.
  revert seen; induction l as [|x l IH]; intros seen; simpl.
  - intros H; by apply not_elem_of_nil in H.
  - case_bool_decide as Hx.
    + intros H; apply IH in H as [H1 H2]. split; [by right | exact H2].
    + intros H; apply elem_of_cons in H as [-> | H].
      * split; [by left | exact Hx].
      * apply IH in H as [H1 H2]. split; [by right|].
        intros Hin; apply H2; by right.
Qed.

Lemma dedup_NoDup (seen l : list (gmap string cell)) : NoDup (dedup seen l).
Proof.
  revert seen; induction l as [|x l IH]; intros seen; simpl; [constructor|].
  case_bool_decide as Hx; [apply IH|].
  constructor; [|apply IH].
  intros H; apply dedup_elem_of in H as [_ H]. apply H; by left.
Qed.

Lemma dedup_id (seen l : list (gmap string cell)) :
  NoDup l -> (forall r, r ∈ l -> r ∉ seen) -> dedup seen l = l.
Proof.
  revert seen; induction l as [|x l IH]; intros seen Hnd Hs; simpl; [reflexivity|].
  apply list.NoDup_cons in Hnd as [Hx Hnd].
  rewrite bool_decide_eq_false_2 by (apply Hs; by left).
  f_equal. apply IH; [exact Hnd|].
  intros r Hr Hin. apply elem_of_cons in Hin as [-> | Hin]; [contradiction|].
  eapply Hs; [right; exact Hr | exact Hin].
Qed.

(** ** The invariants of a cleaned table *)

Example clean_data_t_ex : clean_data t_ex = Ok t_ex_clean.
Proof. vm_compute. reflexivity. Qed.



(** ** Cleaning a cleaned table *)

Lemma feq_eq (x y : fnum) : feq x y = true -> x = y.
Proof.
  destruct x, y; simpl; try discriminate; try reflexivity.
  intros H; apply bool_decide_eq_true_1 in H; congruence.
Qed.

Lemma flt_fle_false (x y : fnum) : fle x y = true -> flt y x = false.
Proof.
  destruct x, y; unfold fle; simpl; try discriminate; try reflexivity.
  intros H. apply bool_decide_eq_false_2.
  apply orb_true_iff in H as [H | H]; apply bool_decide_eq_true_1 in H.
  - apply Qcle_not_lt, Qclt_le_weak, H.
  - subst; apply Qcle_not_lt, Qcle_refl.
Qed.

Lemma clip_id (lo hi x : fnum) :
  fle lo x = true -> fle x hi = true -> clip lo hi x = x.
Proof.
  intros H1 H2; unfold clip.
  rewrite (flt_fle_false _ _ H1), (flt_fle_false _ _ H2). reflexivity.
Qed.

Lemma min_pair_id (c s : fnum) : fle c s = true -> Num.min [c; s] = c.
Proof.
  intros H.
  assert (Hs : isna s = false) by (destruct c, s; try discriminate; reflexivity).
  assert (Hc : isna c = false) by (destruct c, s; try discriminate; reflexivity).
  rewrite (min_pair c s Hs), Hc.
  destruct (flt c s) eqn:E; [reflexivity|].
  unfold fle in H; rewrite E in H; simpl in H. symmetry; apply feq_eq, H.
Qed.

Lemma clean_data_before_fill (df df' : DataFrame) :
  clean_data df = Ok df' -> fill_missing numeric_columns (before_fill df) = Ok df'.
Proof. unfold clean_data; intros H. do 4 bind_inv H. exact H. Qed.

Lemma repair_row_lookup_bounce_rate (r : gmap string cell) :
  repair_row r !! "bounce_rate" =
  Some (CNum (let b := clip (Fin 0) (Fin 1) (num r "bounce_rate") in
              if isna b then Fin 0 else b)).
Proof.
  unfold repair_row, numeric_columns; simpl foldl.
  norm_lookup. reflexivity.
Qed.

Lemma repair_row_lookup_conversions (r : gmap string cell) :
  repair_row r !! "conversions" =
  Some (CNum (let c := Num.min [num r "conversions"; num r "sessions"] in
              if isna c then Fin 0 else c)).
Proof.
  unfold repair_row, numeric_columns; simpl foldl.
  norm_lookup. unfold cap_conversions.
  assert (Hs : num (<["bounce_rate":=clip_bounce_rate r]> r) "sessions"
               = num r "sessions") by (unfold num; norm_lookup; reflexivity).
  assert (Hc : num (<["bounce_rate":=clip_bounce_rate r]> r) "conversions"
               = num r "conversions") by (unfold num; norm_lookup; reflexivity).
  rewrite Hs, Hc. reflexivity.
Qed.

Lemma cell_isna_filled (c : string) (v : fnum) (r : gmap string cell) :
  isna v = false -> cell_isna (fillna_row c v r !! c) = false.
Proof.
  intros Hv; rewrite lookup_fillna_row_eq.
  destruct (r !! c) as [[x|s|d|]|]; simpl; try reflexivity; try exact Hv.
  destruct (isna x) eqn:E; [exact Hv | exact E].
Qed.

(** After cleaning, no numeric column of a row holds a missing value. *)
Lemma repair_row_no_missing (r : gmap string cell) (col : string) :
  col ∈ numeric_columns -> cell_isna (repair_row r !! col) = false.
Proof.
  intros Hcol. unfold numeric_columns in Hcol.
  repeat (apply elem_of_cons in Hcol as [-> | Hcol]);
    [| | | | | by apply not_elem_of_nil in Hcol];
    unfold repair_row, numeric_columns; simpl foldl.
  - rewrite !(lookup_fillna_row_ne _ "sessions") by discriminate.
    apply cell_isna_filled; reflexivity.
  - rewrite !(lookup_fillna_row_ne _ "users") by discriminate.
    apply cell_isna_filled; reflexivity.
  - rewrite !(lookup_fillna_row_ne _ "conversions") by discriminate.
    apply cell_isna_filled; reflexivity.
  - rewrite !(lookup_fillna_row_ne _ "bounce_rate") by discriminate.
    apply cell_isna_filled; reflexivity.
  - apply cell_isna_filled; reflexivity.
Qed.

Lemma fillna_row_id (c : string) (v : fnum) (r : gmap string cell) :
  cell_isna (r !! c) = false -> fillna_row c v r = r.
Proof. unfold fillna_row; intros ->; reflexivity. Qed.

Lemma repair_row_positive (r : gmap string cell) :
  positive_sessions r = true -> positive_sessions (repair_row r) = true.
Proof.
  intros H; unfold positive_sessions in *.
  rewrite repair_row_sessions by exact H. exact H.
Qed.

(** The two range repairs leave a repaired row as it is. *)
Lemma repair_row_bounce_fixed (r : gmap string cell) :
  positive_sessions r = true ->
  <["bounce_rate" := clip_bounce_rate (repair_row r)]> (repair_row r) = repair_row r.
Proof.
  intros Hpos.
  pose proof (repair_row_invariants r Hpos) as (Hb0 & Hb1 & _).
  cbv zeta in Hb0, Hb1.
  apply insert_id. unfold clip_bounce_rate.
  rewrite (clip_id _ _ _ Hb0 Hb1).
  unfold num. rewrite (repair_row_lookup_bounce_rate r). reflexivity.
Qed.

Lemma repair_row_conversions_fixed (r : gmap string cell) :
  positive_sessions r = true ->
  <["conversions" := cap_conversions (repair_row r)]> (repair_row r) = repair_row r.
Proof.
  intros Hpos.
  pose proof (repair_row_invariants r Hpos) as (_ & _ & Hcs & _).
  cbv zeta in Hcs.
  apply insert_id. unfold cap_conversions.
  rewrite (min_pair_id _ _ Hcs).
  unfold num at 1. rewrite (repair_row_lookup_conversions r). reflexivity.
Qed.

(** Repairing a repaired row changes nothing. *)
Lemma repair_row_idem (r : gmap string cell) :
  positive_sessions r = true -> repair_row (repair_row r) = repair_row r.
Proof.
  intros Hpos.
  unfold repair_row at 1. cbv zeta.
  rewrite (repair_row_bounce_fixed r Hpos), (repair_row_conversions_fixed r Hpos).
  unfold numeric_columns; simpl foldl.
  assert (Hnm : forall col, col ∈ numeric_columns ->
                  fillna_row col (Fin 0) (repair_row r) = repair_row r).
  { intros col Hcol; apply fillna_row_id, repair_row_no_missing, Hcol. }
  rewrite !Hnm by (unfold numeric_columns; set_solver). reflexivity.
Qed.

(** ** Headers *)

Lemma assoc_retype (col col' : string) (t : dtype) (l : list (string * dtype)) :
  assoc col' (retype col t <$> l) =
  if bool_decide (col = col')
  then match assoc col' l with Some _ => Some t | None => None end
  else assoc col' l.
Proof.
  induction l as [|[c u] l IH]; [simpl; by case_bool_decide|].
  rewrite fmap_cons. cbn [assoc]. rewrite IH; clear IH. unfold retype; simpl.
  repeat (case_bool_decide; simpl in *; subst; try congruence).
Qed.

Lemma dtype_of_assign (df : DataFrame) (col col' : string) (t : dtype)
    (f : gmap string cell -> cell) :
  dtype_of (assign df col t f) col' =
  if bool_decide (col = col')
  then match dtype_of df col' with Some _ => Some t | None => None end
  else dtype_of df col'.
Proof. apply assoc_retype. Qed.

Lemma retype_idem (col : string) (t : dtype) (l : list (string * dtype)) :
  retype col t <$> (retype col t <$> l) = retype col t <$> l.
Proof.
  rewrite <- list_fmap_compose. apply list_fmap_ext; intros i [c u] _.
  unfold retype; simpl.
  repeat (case_bool_decide; simpl in *; subst; try congruence).
Qed.

Lemma numeric_Ok (df : DataFrame) (col : string) :
  dtype_of df col = Some DNumeric ->
  numeric df col = Ok ((fun r => num r col) <$> rows df).
Proof. unfold numeric, getitem; intros ->; reflexivity. Qed.

Lemma numeric_Ok_inv (df : DataFrame) (col : string) (l : list fnum) :
  numeric df col = Ok l -> dtype_of df col = Some DNumeric.
Proof.
  unfold numeric, getitem.
  destruct (dtype_of df col) as [[]|]; simpl; try discriminate. reflexivity.
Qed.

(** *** Comparing a column with a number *)

Lemma orders_numbers (x y : fnum) : orders (Some (CNum x)) (Some (CNum y)) = true.
Proof. unfold orders; simpl. apply orb_true_r. Qed.

Lemma compared_Ok_inv (df : DataFrame) (col : string) (l : list fnum) :
  compared df col = Ok l ->
  (exists t, dtype_of df col = Some t /\ t <> DDatetime) /\
  l = (fun r => num r col) <$> rows df /\
  forall r, r ∈ rows df -> orders (column_cell df col r) (Some (CNum (Fin 0))) = true.
Proof.
  unfold compared, getitem.
  destruct (dtype_of df col) as [t|] eqn:Et; simpl; [|discriminate].
  case_bool_decide as Hd; [discriminate|].
  destruct (forallb _ (rows df)) eqn:Ef; [|discriminate].
  intros [= <-]. split; [eauto|]. split; [reflexivity|].
  intros r Hr. rewrite forallb_forall in Ef.
  apply Ef, list_elem_of_In, Hr.
Qed.

Lemma compared_Ok (df : DataFrame) (col : string) (t : dtype) :
  dtype_of df col = Some t -> t <> DDatetime ->
  (forall r, r ∈ rows df ->
     orders (column_cell df col r) (Some (CNum (Fin 0))) = true) ->
  compared df col = Ok ((fun r => num r col) <$> rows df).
Proof.
  intros Et Hd Hr. unfold compared, getitem. rewrite Et. simpl.
  rewrite bool_decide_eq_false_2 by exact Hd.
  replace (forallb _ (rows df)) with true; [reflexivity|].
  symmetry. apply forallb_forall. intros r Hin. apply Hr, list_elem_of_In, Hin.
Qed.

(** A numeric column compares with a number whatever it holds. *)
Lemma compared_numeric (df : DataFrame) (col : string) :
  dtype_of df col = Some DNumeric ->
  compared df col = Ok ((fun r => num r col) <$> rows df).
Proof.
  intros Et. apply (compared_Ok df col DNumeric Et); [discriminate|].
  intros r _. unfold column_cell. rewrite Et. apply orders_numbers.
Qed.

Lemma column_cell_number (df : DataFrame) (col : string) (r : gmap string cell)
    (x : fnum) :
  r !! col = Some (CNum x) -> column_cell df col r = Some (CNum x).
Proof.
  intros E. unfold column_cell, num. rewrite E.
  destruct (dtype_of df col) as [[]|]; reflexivity.
Qed.

(** A column of another dtype than datetime compares with a number when
    each of its cells is a number. *)
Lemma compared_numbers (df : DataFrame) (col : string) (t : dtype) :
  dtype_of df col = Some t -> t <> DDatetime ->
  (forall r, r ∈ rows df -> exists x, r !! col = Some (CNum x)) ->
  compared df col = Ok ((fun r => num r col) <$> rows df).
Proof.
  intros Et Hd Hr. apply (compared_Ok df col t Et Hd).
  intros r Hin. destruct (Hr r Hin) as (x & Ex).
  rewrite (column_cell_number df col r x Ex). apply orders_numbers.
Qed.

Lemma fill_missing_getitem (cols : list string) (df df' : DataFrame) (col : string) :
  fill_missing cols df = Ok df' -> col ∈ cols -> is_Some (dtype_of df col).
Proof.
  revert df; induction cols as [|c cols IH]; intros df H Hin; simpl in H.
  - by apply not_elem_of_nil in Hin.
  - bind_inv H. pose proof (fill_column_spec _ _ _ E) as [Hc _].
    apply elem_of_cons in Hin as [-> | Hin].
    + unfold fill_column, getitem in E.
      destruct (dtype_of df c); [eauto | discriminate].
    + unfold dtype_of. rewrite <- Hc. eapply IH; eassumption.
Qed.

Lemma fill_missing_id (cols : list string) (df : DataFrame) :
  (forall col, col ∈ cols -> is_Some (dtype_of df col)) ->
  (forall col r, col ∈ cols -> r ∈ rows df -> cell_isna (r !! col) = false) ->
  fill_missing cols df = Ok df.
Proof.
  induction cols as [|c cols IH]; intros Hd Hn; simpl; [reflexivity|].
  assert (Hc : fill_column df c = Ok df).
  { unfold fill_column, getitem.
    destruct (Hd c) as [t ->]; [by left|]. simpl.
    rewrite bool_decide_eq_false_2; [reflexivity|].
    unfold isna_count. intros Hlt.
    destruct (filter _ (rows df)) as [|r l] eqn:E; [simpl in Hlt; lia|].
    assert (Hr : r ∈ filter (fun r => cell_isna (r !! c) = true) (rows df))
      by (rewrite E; by left).
    apply list_elem_of_filter in Hr as [Hr1 Hr2].
    rewrite (Hn c r) in Hr1; [discriminate | by left | exact Hr2]. }
  rewrite Hc; simpl. apply IH.
  - intros col Hin; apply Hd; by right.
  - intros col r Hin; apply Hn; by right.
Qed.

Lemma bind_Ok {A B : Type} (a : A) (k : A -> result B) : Ok a ≫= k = k a.
Proof. reflexivity. Qed.

(** The header that [clean_data] returns: the header it was given, with
    the dtype of the row minimum for the conversions. *)
Lemma clean_data_columns (df df' : DataFrame) :
  clean_data df = Ok df' ->
  columns df' = retype "conversions" (row_min_dtype df) <$> columns df.
Proof.
  intros H. apply clean_data_before_fill in H.
  apply fill_missing_spec in H as [-> _]. reflexivity.
Qed.

Lemma row_min_dtype_retyped (df df' : DataFrame) :
  columns df' = retype "conversions" (row_min_dtype df) <$> columns df ->
  is_Some (dtype_of df "conversions") ->
  dtype_of df' "conversions" = Some (row_min_dtype df) /\
  dtype_of df' "sessions" = dtype_of df "sessions" /\
  row_min_dtype df' = row_min_dtype df.
Proof.
  intros Hc [t Ht].
  assert (H1 : dtype_of df' "conversions" = Some (row_min_dtype df)).
  { unfold dtype_of at 1. rewrite Hc, assoc_retype.
    rewrite bool_decide_eq_true_2 by reflexivity.
    fold (dtype_of df "conversions"). rewrite Ht. reflexivity. }
  assert (H2 : dtype_of df' "sessions" = dtype_of df "sessions").
  { unfold dtype_of at 1. rewrite Hc, assoc_retype.
    rewrite bool_decide_eq_false_2 by discriminate. reflexivity. }
  split; [exact H1|]. split; [exact H2|].
  unfold row_min_dtype at 1. rewrite H1, H2.
  unfold row_min_dtype. rewrite Ht.
  destruct t, (dtype_of df "sessions") as [[]|]; reflexivity.
Qed.

Lemma row_min_dtype_not_datetime (df : DataFrame) : row_min_dtype df <> DDatetime.
Proof.
  unfold row_min_dtype.
  destruct (dtype_of df "conversions") as [[]|], (dtype_of df "sessions") as [[]|];
    discriminate.
Qed.

Lemma clean_data_cleaned (df df' : DataFrame) : clean_data df = Ok df' -> cleaned df'.
Proof.
  intros H. pose proof (clean_data_rows _ _ H) as Hrows.
  pose proof (clean_data_before_fill _ _ H) as Hfill.
  pose proof (clean_data_columns _ _ H) as Hcols.
  unfold clean_data in H. do 4 bind_inv H.
  apply compared_Ok_inv in E as ((ts & Es & Hs) & _).
  apply compared_Ok_inv in E0 as ((tb & Eb & Hb) & _).
  apply compared_Ok_inv in E1 as ((tc & Ec & Hc) & _).
  change (dtype_of df "sessions" = Some ts) in Es.
  change (dtype_of df "bounce_rate" = Some tb) in Eb.
  change (dtype_of df "conversions" = Some tc) in Ec.
  destruct (row_min_dtype_retyped df df' Hcols) as (H1 & H2 & H3); [eauto|].
  assert (Hd : forall col, col <> "conversions" -> dtype_of df' col = dtype_of df col).
  { intros col Hne. unfold dtype_of at 1. rewrite Hcols, assoc_retype.
    rewrite bool_decide_eq_false_2 by congruence. reflexivity. }
  constructor.
  - intros r Hr. rewrite Hrows in Hr.
    apply list_elem_of_fmap in Hr as (r0 & -> & Hr0).
    apply list_elem_of_filter in Hr0 as [Hpos _]. eauto.
  - rewrite Hd by discriminate. rewrite Es. congruence.
  - rewrite Hd by discriminate. rewrite Eb. congruence.
  - rewrite H3. exact H1.
  - rewrite H3, Hcols. apply retype_idem.
  - intros col Hcol.
    assert (Hb4 : is_Some (dtype_of (before_fill df) col))
      by (eapply fill_missing_getitem; eassumption).
    unfold dtype_of in *. rewrite Hcols. exact Hb4.
Qed.

Lemma cleaned_drop_duplicates (df : DataFrame) :
  cleaned df -> cleaned (drop_duplicates df).
Proof.
  intros [Hr Hs Hb Hc Hrc Hcols].
  constructor; try assumption.
  intros r Hin. apply Hr. simpl in Hin. apply dedup_elem_of in Hin as [Hin _]. exact Hin.
Qed.

Lemma cleaned_select (df : DataFrame) :
  cleaned df -> select df positive_sessions = df.
Proof.
  intros Hcl. destruct df as [cols rws]; unfold select; simpl. f_equal.
  induction rws as [|r rws IH]; [reflexivity|].
  destruct (cl_rows _ Hcl r) as (r0 & Hpos & ->); [by left|].
  rewrite filter_cons_True by (apply repair_row_positive, Hpos).
  f_equal. apply IH. destruct Hcl as [Hr Hs Hb Hc Hrc Hcols].
  constructor; try assumption. intros r Hin; apply Hr; by right.
Qed.

Lemma cleaned_update_bounce_rate (df : DataFrame) :
  cleaned df -> update df "bounce_rate" clip_bounce_rate = df.
Proof.
  intros Hcl. destruct df as [cols rws]; unfold update; simpl.
  f_equal.
  erewrite list_fmap_ext; [apply list_fmap_id|].
  intros i r Hi; simpl.
  destruct (cl_rows _ Hcl r) as (r0 & Hpos & ->);
    [eapply list_elem_of_lookup_2, Hi|].
  apply repair_row_bounce_fixed, Hpos.
Qed.

Lemma cleaned_assign_conversions (df : DataFrame) :
  cleaned df -> assign df "conversions" (row_min_dtype df) cap_conversions = df.
Proof.
  intros Hcl. pose proof (cl_retype_conversions _ Hcl) as Hrc.
  destruct df as [cols rws]; unfold assign; simpl.
  f_equal; [exact Hrc|].
  erewrite list_fmap_ext; [apply list_fmap_id|].
  intros i r Hi; simpl.
  destruct (cl_rows _ Hcl r) as (r0 & Hpos & ->);
    [eapply list_elem_of_lookup_2, Hi|].
  apply repair_row_conversions_fixed, Hpos.
Qed.

Lemma cleaned_fill_missing (df : DataFrame) :
  cleaned df -> fill_missing numeric_columns df = Ok df.
Proof.
  intros Hcl. apply fill_missing_id; [apply (cl_columns _ Hcl)|].
  intros col r Hcol Hr.
  destruct (cl_rows _ Hcl r Hr) as (r0 & _ & ->).
  apply repair_row_no_missing, Hcol.
Qed.

(** The cells of a cleaned row. *)
Lemma cleaned_row_cells (df : DataFrame) (r : gmap string cell) :
  cleaned df -> r ∈ rows df ->
  exists s c b,
    r !! "sessions" = Some (CNum s) /\ r !! "conversions" = Some (CNum c) /\
    r !! "bounce_rate" = Some (CNum b) /\
    flt (Fin 0) s = true /\ fle c s = true /\
    fle (Fin 0) b = true /\ fle b (Fin 1) = true.
Proof.
  intros Hcl Hr. destruct (cl_rows _ Hcl r Hr) as (r0 & Hpos & ->).
  pose proof (repair_row_invariants r0 Hpos) as (Hb0 & Hb1 & Hcs & Hs).
  cbv zeta in *.
  destruct (positive_sessions_cell _ (repair_row_positive r0 Hpos)) as (s & Els & _).
  pose proof (repair_row_lookup_conversions r0) as Elc.
  pose proof (repair_row_lookup_bounce_rate r0) as Elb.
  cbv zeta in Elc, Elb.
  unfold num in Hb0, Hb1, Hcs, Hs. rewrite Els in Hcs, Hs.
  rewrite Elc in Hcs. rewrite Elb in Hb0, Hb1.
  eexists s, _, _. repeat split; eassumption.
Qed.

(** Every comparison that [clean_data] makes succeeds on a cleaned
    frame. *)
Lemma cleaned_compared (df : DataFrame) (col : string) :
  cleaned df -> col ∈ ["sessions"; "bounce_rate"; "conversions"] ->
  compared df col = Ok ((fun r => num r col) <$> rows df).
Proof.
  intros Hcl Hcol.
  assert (Hn : col ∈ numeric_columns) by (unfold numeric_columns; set_solver).
  destruct (cl_columns _ Hcl col Hn) as [t Et].
  apply (compared_numbers df col t Et).
  - repeat (apply elem_of_cons in Hcol as [-> | Hcol]).
    + intros ->. exact (cl_sessions _ Hcl Et).
    + intros ->. exact (cl_bounce_rate _ Hcl Et).
    + rewrite (cl_conversions _ Hcl) in Et. injection Et as <-.
      apply row_min_dtype_not_datetime.
    + by apply not_elem_of_nil in Hcol.
  - intros r Hr.
    destruct (cleaned_row_cells df r Hcl Hr) as (s & c & b & Es & Ec & Eb & _).
    repeat (apply elem_of_cons in Hcol as [-> | Hcol]); eauto.
    by apply not_elem_of_nil in Hcol.
Qed.

(** On a cleaned frame only the removal of duplicates can act. *)
Lemma cleaned_clean_data (df : DataFrame) :
  cleaned df -> clean_data df = Ok (drop_duplicates df).
Proof.
  intros Hcl. apply cleaned_drop_duplicates in Hcl.
  unfold clean_data.
  rewrite (cleaned_compared _ "sessions" Hcl), bind_Ok by set_solver.
  rewrite (cleaned_select _ Hcl).
  rewrite (cleaned_compared _ "bounce_rate" Hcl), bind_Ok by set_solver.
  rewrite (cleaned_update_bounce_rate _ Hcl).
  rewrite (cleaned_compared _ "conversions" Hcl), bind_Ok by set_solver.
  rewrite (cleaned_compared _ "sessions" Hcl), bind_Ok by set_solver.
  rewrite (cleaned_assign_conversions _ Hcl).
  apply cleaned_fill_missing, Hcl.
Qed.

Lemma drop_duplicates_NoDup (df : DataFrame) :
  NoDup (rows df) -> drop_duplicates df = df.
Proof.
  intros H. destruct df as [cols rws]; unfold drop_duplicates; simpl in *.
  f_equal. apply dedup_id; [exact H|].
  intros r _ Hin. by apply not_elem_of_nil in Hin.
Qed.

Example clean_data_t_dup : clean_data t_dup = Ok t_dup_clean.
Proof. vm_compute. reflexivity. Qed.

Example clean_data_t_dup_clean : clean_data t_dup_clean = Ok t_dup_clean2.
Proof. vm_compute. reflexivity. Qed.

(** C4, as stated, fails: two rows that differ only in a bounce rate above 1
    are both clamped to 1 by the first cleaning, so that the second cleaning
    finds a duplicate and removes it. *)
Lemma clean_data_not_idempotent :
  clean_data t_dup = Ok t_dup_clean /\
  clean_data t_dup_clean = Ok t_dup_clean2 /\
  t_dup_clean2 <> t_dup_clean /\
  removed_duplicates t_dup_clean = 1%nat.
Proof.
  split; [exact clean_data_t_dup|].
  split; [exact clean_data_t_dup_clean|].
  split; [|vm_compute; reflexivity].
  intros H. apply (f_equal (fun d => length (rows d))) in H.
  vm_compute in H. discriminate.
Qed.

(** C4, amended.  Cleaning a cleaned table returns it with its duplicate
    rows dropped and nothing else changed.  When the cleaned table has no
    two equal rows, cleaning it again returns the same table and no step
    removes or alters anything; and a table cleaned twice is a fixed point
    of cleaning. *)
Theorem clean_data_twice (df c1 : DataFrame) :
  clean_data df = Ok c1 ->
  clean_data c1 = Ok (drop_duplicates c1) /\
  (NoDup (rows c1) -> clean_data c1 = Ok c1 /\ no_repair c1) /\
  (forall c2, clean_data c1 = Ok c2 -> clean_data c2 = Ok c2 /\ no_repair c2).
Proof.
  intros H. apply clean_data_cleaned in H.
  assert (Hfix : forall c, cleaned c -> NoDup (rows c) ->
                   clean_data c = Ok c /\ no_repair c).
  { intros c Hc Hnd.
    pose proof (drop_duplicates_NoDup c Hnd) as Hdd.
    split; [rewrite (cleaned_clean_data c Hc), Hdd; reflexivity|].
    unfold no_repair, removed_duplicates. rewrite Hdd.
    split; [reflexivity|]. split; [lia|].
    split; [apply cleaned_select, Hc|].
    split; [apply cleaned_update_bounce_rate, Hc|].
    split; [apply cleaned_assign_conversions, Hc|].
    apply cleaned_fill_missing, Hc. }
  split; [apply cleaned_clean_data, H|].
  split; [apply Hfix, H|].
  intros c2 H2. rewrite (cleaned_clean_data c1 H) in H2. injection H2 as <-.
  apply Hfix; [apply cleaned_drop_duplicates, H | apply dedup_NoDup].
Qed.

Lemma clean_data_twice_witness :
  clean_data t_ex_clean = Ok (drop_duplicates t_ex_clean) /\
  (NoDup (rows t_ex_clean) -> clean_data t_ex_clean = Ok t_ex_clean /\ no_repair t_ex_clean) /\
  (forall c2, clean_data t_ex_clean = Ok c2 -> clean_data c2 = Ok c2 /\ no_repair c2).
Proof.
  apply (clean_data_twice t_ex t_ex_clean).
  vm_compute. reflexivity.
Defined.

(** ** Rows without sessions *)

Lemma positive_sessions_notna (r : gmap string cell) :
  positive_sessions r = true -> isna (num r "sessions") = false.
Proof. unfold positive_sessions, fgt; intros H; apply flt_notna in H as [_ H]; exact H. Qed.

Lemma positive_sessions_nonzero (r : gmap string cell) :
  positive_sessions r = true -> feq (num r "sessions") (Fin 0) = false.
Proof.
  unfold positive_sessions, fgt. destruct (num r "sessions"); simpl; try discriminate; try reflexivity.
  intros H; apply bool_decide_eq_true_1 in H. apply bool_decide_eq_false_2.
  intros ->. exact (Qclt_not_eq _ _ H eq_refl).
Qed.

Lemma dedup_filter_length (P Q : gmap string cell -> Prop)
    `{!forall r, Decision (P r)} `{!forall r, Decision (Q r)}
    (seen l : list (gmap string cell)) :
  (forall r, P r -> Q r) ->
  (length (filter P (dedup seen l)) <= length (filter Q l))%nat.
Proof.
  intros HPQ. revert seen; induction l as [|r l IH]; intros seen; simpl; [lia|].
  rewrite (filter_cons Q). case_bool_decide.
  - specialize (IH seen). destruct (decide (Q r)); simpl; lia.
  - rewrite (filter_cons P). specialize (IH (r :: seen)).
    destruct (decide (P r)) as [Hp|Hp]; destruct (decide (Q r)) as [Hq|Hq]; simpl; try lia.
    exfalso; apply Hq, HPQ, Hp.
Qed.

Lemma isna_count_zero (df : DataFrame) (col : string) :
  (forall r, r ∈ rows df -> cell_isna (r !! col) = false) ->
  isna_count df col = 0%nat.
Proof.
  intros Hn. unfold isna_count.
  destruct (filter _ (rows df)) as [|r l] eqn:E; [reflexivity|].
  assert (Hr : r ∈ filter (fun r => cell_isna (r !! col) = true) (rows df))
    by (rewrite E; by left).
  apply list_elem_of_filter in Hr as [Hr1 Hr2].
  rewrite (Hn r Hr2) in Hr1. discriminate.
Qed.

(** C10.  A row whose sessions value is missing never passes the filter
    [sessions > 0]: every row of the cleaned table comes from an input row
    whose sessions value is present and keeps that value, the cleaned table
    has at most as many rows as the input has rows with sessions present,
    the loop that fills missing values finds none in the sessions column
    and leaves the frame as it is there, and no cleaned row has zero (or
    missing) sessions. *)
Theorem clean_data_drops_null_sessions (df df' : DataFrame) :
  clean_data df = Ok df' ->
  (forall r, isna (num r "sessions") = true -> positive_sessions r = false) /\
  (forall r', r' ∈ rows df' ->
     exists r, r ∈ rows df /\ isna (num r "sessions") = false /\
               r' = repair_row r /\ num r' "sessions" = num r "sessions") /\
  (length (rows df') <=
     length (filter (fun r => isna (num r "sessions") = false) (rows df)))%nat /\
  (isna_count (before_fill df) "sessions" = 0%nat /\
   fill_column (before_fill df) "sessions" = Ok (before_fill df)) /\
  (forall r', r' ∈ rows df' ->
     isna (num r' "sessions") = false /\ feq (num r' "sessions") (Fin 0) = false).
Proof.
  intros H. pose proof (clean_data_rows _ _ H) as Hrows.
  split.
  { intros r Hr. destruct (positive_sessions r) eqn:E; [|reflexivity].
    apply positive_sessions_notna in E. congruence. }
  split.
  { intros r' Hr'. rewrite Hrows in Hr'.
    apply list_elem_of_fmap in Hr' as (r & -> & Hr).
    apply list_elem_of_filter in Hr as [Hpos Hr].
    apply dedup_elem_of in Hr as [Hr _].
    exists r. split; [exact Hr|]. split; [apply positive_sessions_notna, Hpos|].
    split; [reflexivity | apply repair_row_sessions, Hpos]. }
  split.
  { rewrite Hrows, length_fmap. apply dedup_filter_length.
    intros r Hr; apply positive_sessions_notna, Hr. }
  assert (Hz : isna_count (before_fill df) "sessions" = 0%nat).
  { apply isna_count_zero. intros r Hr. unfold before_fill in Hr; simpl in Hr.
    rewrite <- list_fmap_compose in Hr.
    apply list_elem_of_fmap in Hr as (r0 & -> & Hr0).
    apply list_elem_of_filter in Hr0 as [Hpos _].
    apply positive_sessions_cell in Hpos as (x & Hx & Hpos).
    apply flt_notna in Hpos as [_ Hna].
    simpl. norm_lookup. rewrite Hx. exact Hna. }
  split.
  { split; [exact Hz|].
    unfold fill_column, getitem.
    destruct (fill_missing_getitem _ _ _ "sessions" (clean_data_before_fill _ _ H))
      as [t ->]; [unfold numeric_columns; set_solver|].
    simpl. rewrite Hz. reflexivity. }
  intros r' Hr'. rewrite Hrows in Hr'.
  apply list_elem_of_fmap in Hr' as (r & -> & Hr).
  apply list_elem_of_filter in Hr as [Hpos _].
  apply repair_row_positive in Hpos.
  split; [apply positive_sessions_notna, Hpos | apply positive_sessions_nonzero, Hpos].
Qed.

Lemma clean_data_drops_null_sessions_witness :
  (forall r, isna (num r "sessions") = true -> positive_sessions r = false) /\
  (forall r', r' ∈ rows t_ex_clean ->
     exists r, r ∈ rows t_ex /\ isna (num r "sessions") = false /\
               r' = repair_row r /\ num r' "sessions" = num r "sessions") /\
  (length (rows t_ex_clean) <=
     length (filter (fun r => isna (num r "sessions") = false) (rows t_ex)))%nat /\
  (isna_count (before_fill t_ex) "sessions" = 0%nat /\
   fill_column (before_fill t_ex) "sessions" = Ok (before_fill t_ex)) /\
  (forall r', r' ∈ rows t_ex_clean ->
     isna (num r' "sessions") = false /\ feq (num r' "sessions") (Fin 0) = false).
Proof.
  apply (clean_data_drops_null_sessions t_ex t_ex_clean).
  vm_compute. reflexivity.
Defined.

(** ** Facts about the validator *)

Lemma extends_refl (s : Validator) : extends s s.
Proof. split; reflexivity. Qed.

Lemma extends_trans (s1 s2 s3 : Validator) :
  extends s1 s2 -> extends s2 s3 -> extends s1 s3.
Proof. intros [H1 H2] [H3 H4]; split; etrans; eassumption. Qed.

Lemma extends_append_issue (i : issue) (s : Validator) : extends s (append_issue i s).
Proof. split; simpl; [reflexivity | apply prefix_app_r; reflexivity]. Qed.

Lemma extends_print_header (name : string) (s : Validator) :
  extends s (print_header name s).
Proof. split; simpl; [apply prefix_app_r; reflexivity | reflexivity]. Qed.

Lemma extends_append_if_positive (n : nat) (i : issue) (s : Validator) :
  extends s (append_if_positive n i s).
Proof.
  unfold append_if_positive; case_bool_decide;
    [apply extends_append_issue | apply extends_refl].
Qed.

Lemma self_df_append_if_positive (n : nat) (i : issue) (s : Validator) :
  self_df (append_if_positive n i s) = self_df s.
Proof. unfold append_if_positive; case_bool_decide; reflexivity. Qed.

Lemma validate_columns_read_only (set_order : gset string -> list string) :
  read_only (validate_columns set_order).
Proof.
  intros s; unfold validate_columns. cbv zeta.
  case_bool_decide; simpl;
    split; try reflexivity; [apply extends_append_issue | apply extends_refl].
Qed.

Lemma validate_numeric_column_read_only (col : string) (b : bool) :
  read_only (validate_numeric_column col b).
Proof.
  intros s; unfold validate_numeric_column.
  destruct (getitem (self_df s) col) as [t|e]; simpl; [|split; [reflexivity | apply extends_refl]].
  destruct (negb (is_numeric_dtype t)); simpl;
    [split; [reflexivity | apply extends_append_issue]|].
  rewrite self_df_append_if_positive.
  split.
  - repeat case_bool_decide; rewrite ?self_df_append_if_positive; reflexivity.
  - eapply extends_trans; [|apply extends_append_if_positive].
    repeat case_bool_decide;
      repeat (first [apply extends_refl | apply extends_append_if_positive
                     | eapply extends_trans; [|apply extends_append_if_positive]]).
Qed.

Lemma validate_numeric_loop_read_only (cols : list string) (b : bool) :
  read_only (validate_numeric_loop cols b).
Proof.
  revert b; induction cols as [|col cols IH]; intros b s; simpl;
    [split; [reflexivity | apply extends_refl]|].
  destruct (validate_numeric_column_read_only col b s) as [Hd He].
  destruct (validate_numeric_column col b s) as [[b'|e] s']; simpl in *;
    [|split; assumption].
  destruct (IH b' s') as [Hd' He'].
  split; [congruence | eapply extends_trans; eassumption].
Qed.

Lemma validate_numeric_columns_read_only : read_only validate_numeric_columns.
Proof. apply validate_numeric_loop_read_only. Qed.

Lemma validate_categorical_loop_read_only (cols : list string) :
  read_only (validate_categorical_loop cols).
Proof.
  induction cols as [|col cols IH]; intros s; simpl;
    [split; [reflexivity | apply extends_refl]|].
  destruct (getitem (self_df s) col); [apply IH|].
  split; [reflexivity | apply extends_refl].
Qed.

Lemma validate_categorical_columns_read_only : read_only validate_categorical_columns.
Proof. apply validate_categorical_loop_read_only. Qed.

Lemma check_data_quality_read_only : read_only check_data_quality.
Proof.
  intros s; unfold check_data_quality.
  destruct (column_lt _ _ _); simpl; [|split; [reflexivity | apply extends_refl]].
  destruct (column_gt _ _ _); simpl;
    [|split; [apply self_df_append_if_positive | apply extends_append_if_positive]].
  destruct (column_eq_zero _ _); simpl; rewrite ?self_df_append_if_positive;
    (split; [reflexivity|]);
    repeat (first [apply extends_append_if_positive
                  | eapply extends_trans; [|apply extends_append_if_positive]]).
Qed.

Lemma generate_summary_stats_read_only :
  read_only (fun self => truthy (generate_summary_stats self)).
Proof.
  intros s; unfold truthy, generate_summary_stats.
  destruct (summary_stats (self_df s)); simpl; split;
    try reflexivity; apply extends_refl.
Qed.

Lemma run_steps_read_only (l : list (string * (Validator -> result bool * Validator)))
    (b : bool) :
  Forall (fun p => read_only p.2) l -> read_only (run_steps l b).
Proof.
  revert b; induction l as [|[name f] l IH]; intros b Hl s; simpl;
    [split; [reflexivity | apply extends_refl]|].
  apply list.Forall_cons in Hl as [Hf Hl].
  destruct (Hf (print_header name s)) as [Hd He]. simpl in Hd, He.
  destruct (f (print_header name s)) as [[r|e] s']; simpl in *.
  - destruct (IH (if negb r then false else b) Hl s') as [Hd' He'].
    split; [congruence|].
    eapply extends_trans; [apply extends_print_header|].
    eapply extends_trans; eassumption.
  - split; [exact Hd|].
    eapply extends_trans; [apply extends_print_header | exact He].
Qed.

Lemma later_steps_read_only : Forall (fun p => read_only p.2) later_steps.
Proof.
  unfold later_steps.
  apply list.Forall_cons; split; [apply validate_numeric_columns_read_only|].
  apply list.Forall_cons; split; [apply validate_categorical_columns_read_only|].
  apply list.Forall_cons; split; [apply check_data_quality_read_only|].
  apply list.Forall_cons; split; [apply generate_summary_stats_read_only|].
  apply list.Forall_nil; exact I.
Qed.

Section ValidationFacts.

Variable strptime : string -> option datetime.
Variable set_order : gset string -> list string.

Lemma validate_dates_spec (now : datetime) (s : Validator) :
  exists r, (validate_dates strptime now s).1 = Ok r /\
            dates_parsed strptime (self_df s) (self_df (validate_dates strptime now s).2) /\
            extends s (validate_dates strptime now s).2.
Proof.
  unfold validate_dates.
  destruct (to_datetime strptime (self_df s)) as [ts|e] eqn:E; simpl.
  - exists true. split; [reflexivity|]. rewrite self_df_append_if_positive. simpl.
    split; [right; eauto|].
    eapply extends_trans; [|apply extends_append_if_positive].
    split; reflexivity.
  - exists false. split; [reflexivity|].
    split; [left; reflexivity | apply extends_append_issue].
Qed.


Lemma column_names_assign (d : DataFrame) (col : string) (t : dtype)
    (f : gmap string cell -> cell) :
  dtype_of d col <> None -> column_names (assign d col t f) = column_names d.
Proof.
  intros _. unfold column_names, assign; simpl.
  rewrite <- list_fmap_compose. apply list_fmap_ext.
  intros i [c u] _; unfold retype; simpl. case_bool_decide; simpl; congruence.
Qed.

Lemma dates_parsed_frame (d d' : DataFrame) :
  dates_parsed strptime d d' ->
  column_names d' = column_names d /\
  delete "date" <$> rows d' = delete "date" <$> rows d.
Proof.
  intros [-> | (ts & Hts & ->)]; [split; reflexivity|].
  split.
  - apply column_names_assign. unfold to_datetime, getitem in Hts.
    destruct (dtype_of d "date"); [discriminate | discriminate].
  - unfold assign; simpl. rewrite <- list_fmap_compose.
    apply list_fmap_ext. intros i r _; simpl. apply delete_insert_eq.
Qed.


Example run_full_validation_v_ex :
  exists s', run_full_validation strptime_padded elements (Some v_ex) january_2026 "n"
             = (Ok true, Some s') /\
             self_issues s' = [] /\
             dtype_of v_ex "date" = Some DObject /\
             dtype_of (self_df s') "date" = Some DDatetime.
Proof.
  eexists. split; [vm_compute; reflexivity|].
  split; [reflexivity|]. split; vm_compute; reflexivity.
Qed.

End ValidationFacts.



(** ** A missing column *)

Lemma assoc_None (col : string) (l : list (string * dtype)) :
  assoc col l = None <-> col ∉ l.*1.
Proof.
  induction l as [|[c t] l IH]; simpl.
  - split; [intros _; apply not_elem_of_nil | reflexivity].
  - case_bool_decide as Hc; simpl in Hc.
    + subst. split; [discriminate|]. intros H; exfalso; apply H; by left.
    + rewrite IH. rewrite not_elem_of_cons. naive_solver.
Qed.

Lemma missing_columns_elem (d : DataFrame) :
  missing_columns d <> ∅ ->
  exists col, col ∈ required_columns /\ dtype_of d col = None.
Proof.
  intros H. apply set_choose_L in H as (col & Hcol).
  unfold missing_columns in Hcol.
  apply elem_of_difference in Hcol as [Hin Hn].
  rewrite elem_of_list_to_set in Hin. rewrite elem_of_list_to_set in Hn.
  exists col. split; [exact Hin | apply assoc_None, Hn].
Qed.

Lemma getitem_missing {d : DataFrame} {col : string} :
  dtype_of d col = None -> getitem d col = Raise (KeyError col).
Proof. unfold getitem; intros ->; reflexivity. Qed.

Lemma validate_numeric_loop_raises (cols : list string) (b : bool) (s : Validator)
    (col : string) :
  col ∈ cols -> dtype_of (self_df s) col = None ->
  exists e s', validate_numeric_loop cols b s = (Raise e, s').
Proof.
  revert b s; induction cols as [|c cols IH]; intros b s Hin Hn.
  - by apply not_elem_of_nil in Hin.
  - simpl.
    destruct (validate_numeric_column_read_only c b s) as [Hd _].
    destruct (validate_numeric_column c b s) as [[b'|e] s1] eqn:E; [|eauto].
    simpl in Hd. apply elem_of_cons in Hin as [-> | Hin].
    + unfold validate_numeric_column in E.
      rewrite (getitem_missing Hn) in E. discriminate.
    + apply IH; [exact Hin | congruence].
Qed.

Lemma validate_categorical_loop_raises (cols : list string) (s : Validator)
    (col : string) :
  col ∈ cols -> dtype_of (self_df s) col = None ->
  exists e s', validate_categorical_loop cols s = (Raise e, s').
Proof.
  induction cols as [|c cols IH]; intros Hin Hn.
  - by apply not_elem_of_nil in Hin.
  - simpl. destruct (getitem (self_df s) c) as [t|e] eqn:E; [|eauto].
    apply elem_of_cons in Hin as [-> | Hin]; [|apply IH; assumption].
    rewrite (getitem_missing Hn) in E. discriminate.
Qed.

Lemma summary_stats_no_date (d : DataFrame) :
  dtype_of d "date" = None -> summary_stats d = Raise (KeyError "date").
Proof.
  intros H; unfold summary_stats, date_range_of.
  rewrite (getitem_missing H). reflexivity.
Qed.

(** With a required column absent, the four later steps end in an
    exception. *)
Lemma later_steps_raise (b : bool) (s : Validator) (col : string) :
  col ∈ required_columns -> dtype_of (self_df s) col = None ->
  exists e s', run_steps later_steps b s = (Raise e, s').
Proof.
  intros Hin Hn.
  assert (Hc : col ∈ numeric_columns \/ col ∈ ["page"; "device"; "country"]
               \/ col = "date").
  { unfold required_columns, numeric_columns in *. set_solver. }
  unfold later_steps. cbn [run_steps].
  set (s0 := print_header "Numeric Validation" s).
  destruct (validate_numeric_columns_read_only s0) as [Hd1 _].
  destruct (validate_numeric_columns s0) as [[r1|e1] s1] eqn:E1; [|eauto].
  simpl in Hd1.
  destruct Hc as [Hc | Hc].
  { destruct (validate_numeric_loop_raises numeric_columns true s0 col Hc Hn)
      as (e & s' & He).
    unfold validate_numeric_columns in E1. congruence. }
  set (s1' := print_header "Categorical Validation" s1).
  destruct (validate_categorical_columns_read_only s1') as [Hd2 _].
  destruct (validate_categorical_columns s1') as [[r2|e2] s2] eqn:E2; [|eauto].
  simpl in Hd2.
  destruct Hc as [Hc | ->].
  { destruct (validate_categorical_loop_raises _ s1' col Hc) as (e & s' & He).
    - simpl. rewrite Hd1. exact Hn.
    - unfold validate_categorical_columns in E2. congruence. }
  set (s2' := print_header "Quality Checks" s2).
  destruct (check_data_quality_read_only s2') as [Hd3 _].
  destruct (check_data_quality s2') as [[r3|e3] s3] eqn:E3; [|eauto].
  simpl in Hd3.
  unfold truthy, generate_summary_stats. simpl self_df.
  rewrite summary_stats_no_date; [eauto|].
  rewrite Hd3. unfold s2'; simpl. rewrite Hd2. unfold s1'; simpl. rewrite Hd1. exact Hn.
Qed.

Section MissingColumn.

Variable strptime : string -> option datetime.
Variable set_order : gset string -> list string.

(** C7: what the code does when a required column is absent.  The column
    check records the missing columns and fails, the loop goes on to the
    date check, and the later steps end in an uncaught exception when one of
    them reads an absent column: no report is returned. *)
Theorem missing_column_does_not_halt (d : DataFrame) (now : datetime)
    (response : string) :
  missing_columns d <> ∅ ->
  exists e s',
    run_full_validation strptime set_order (Some d) now response = (Raise e, Some s') /\
    ["Column Validation"; "Date Validation"] `prefix_of` self_log s' /\
    [MissingColumns (set_order (missing_columns d))] `prefix_of` self_issues s'.
Proof.
  intros Hm. destruct (missing_columns_elem d Hm) as (col & Hin & Hn).
  unfold run_full_validation, load_data, steps. cbn [run_steps].
  unfold validate_columns at 1. cbv zeta. simpl self_df.
  rewrite bool_decide_eq_true_2 by exact Hm.
  set (s1 := append_issue (MissingColumns (set_order (missing_columns d))) _).
  destruct (validate_dates_spec strptime now (print_header "Date Validation" s1))
    as (r2 & Hr2 & Hd2 & He2).
  destruct (validate_dates strptime now (print_header "Date Validation" s1))
    as [res2 s2]. simpl in Hr2, Hd2, He2. subst res2.
  assert (Hn2 : dtype_of (self_df s2) col = None).
  { apply assoc_None. apply dates_parsed_frame in Hd2 as [Hc _].
    unfold column_names in Hc. rewrite Hc. apply assoc_None, Hn. }
  match goal with
  | |- context [run_steps later_steps ?bb s2] =>
      destruct (later_steps_raise bb s2 col Hin Hn2) as (e & s3 & H3);
      destruct (run_steps_read_only later_steps bb later_steps_read_only s2)
        as [_ He3]
  end.
  rewrite H3 in He3 |- *. simpl in He3.
  exists e, s3. split; [reflexivity|].
  destruct He2 as [Hl2 Hi2], He3 as [Hl3 Hi3].
  split; [etrans; [exact Hl2 | exact Hl3] | etrans; [exact Hi2 | exact Hi3]].
Qed.

End MissingColumn.

Lemma missing_column_does_not_halt_witness :
  exists e s',
    run_full_validation strptime_padded elements (Some v_missing) january_2024 "n"
    = (Raise e, Some s') /\
    ["Column Validation"; "Date Validation"] `prefix_of` self_log s' /\
    [MissingColumns (elements (missing_columns v_missing))] `prefix_of` self_issues s'.
Proof.
  apply (missing_column_does_not_halt strptime_padded elements v_missing january_2024 "n").
  intros H. apply (f_equal (fun X => bool_decide ("country" ∈ X))) in H.
  vm_compute in H. discriminate.
Defined.

(** The run on a file without the [country] column. *)
Example run_full_validation_v_missing :
  exists s', run_full_validation strptime_padded elements (Some v_missing) january_2024 "n"
             = (Raise (KeyError "country"), Some s') /\
             self_issues s' = [MissingColumns ["country"]; FutureDates 1] /\
             self_log s' = ["Column Validation"; "Date Validation";
                            "Numeric Validation"; "Categorical Validation"].
Proof.
  eexists. split; [vm_compute; reflexivity|]. split; reflexivity.
Qed.

(** *** Aggregations read their own columns only *)

Lemma same_columns_values (cols : list string) (d1 d2 : DataFrame)
    (key col : string) (k : cell) :
  same_columns cols d1 d2 -> key ∈ cols -> col ∈ cols ->
  (fun r => num r col) <$> App.group d1 key k =
  (fun r => num r col) <$> App.group d2 key k.
Proof.
  intros [_ H] Hkey Hcol. unfold App.group.
  induction H as [|r1 r2 l1 l2 Hr _ IH]; [reflexivity|].
  rewrite !filter_cons, (Hr key Hkey).
  destruct (decide (r2 !! key = Some k)); [|exact IH].
  rewrite !fmap_cons, IH. unfold num. rewrite (Hr col Hcol). reflexivity.
Qed.

Lemma same_columns_numeric (cols : list string) (d1 d2 : DataFrame) (col : string) :
  same_columns cols d1 d2 -> col ∈ cols -> numeric d1 col = numeric d2 col.
Proof.
  intros [Ht H] Hcol. unfold numeric, getitem. rewrite (Ht col Hcol).
  destruct (dtype_of d2 col) as [[]|]; simpl; try reflexivity.
  f_equal. induction H as [|r1 r2 l1 l2 Hr _ IH]; [reflexivity|].
  rewrite !fmap_cons, IH. unfold num. rewrite (Hr col Hcol). reflexivity.
Qed.

Lemma same_columns_groupby (cols : list string) (d1 d2 : DataFrame) (key : string) :
  same_columns cols d1 d2 -> key ∈ cols ->
  getitem d1 key = getitem d2 key /\ App.group_keys d1 key = App.group_keys d2 key.
Proof.
  intros [Ht H] Hkey. split; [unfold getitem; rewrite (Ht key Hkey); reflexivity|].
  unfold App.group_keys. do 3 f_equal.
  induction H as [|r1 r2 l1 l2 Hr _ IH]; [reflexivity|].
  cbn [omap list_omap]. rewrite (Hr key Hkey), IH. reflexivity.
Qed.

Lemma same_columns_sum (cols : list string) (d1 d2 : DataFrame)
    (key col : string) (k : cell) :
  same_columns cols d1 d2 -> key ∈ cols -> col ∈ cols ->
  App.agg_sum col (App.group d1 key k) = App.agg_sum col (App.group d2 key k).
Proof.
  intros H Hkey Hcol. unfold App.agg_sum.
  rewrite (same_columns_values cols d1 d2 key col k H Hkey Hcol). reflexivity.
Qed.

Lemma same_columns_mean (cols : list string) (d1 d2 : DataFrame)
    (key col : string) (k : cell) :
  same_columns cols d1 d2 -> key ∈ cols -> col ∈ cols ->
  App.agg_mean col (App.group d1 key k) = App.agg_mean col (App.group d2 key k).
Proof.
  intros H Hkey Hcol. unfold App.agg_mean.
  rewrite (same_columns_values cols d1 d2 key col k H Hkey Hcol). reflexivity.
Qed.

Lemma same_columns_kpis (d1 d2 : DataFrame) :
  same_columns numeric_columns d1 d2 -> App.calculate_kpis d1 = App.calculate_kpis d2.
Proof.
  intros H. unfold App.calculate_kpis.
  rewrite !(same_columns_numeric numeric_columns d1 d2) by
    (try exact H; unfold numeric_columns; set_solver).
  reflexivity.
Qed.

Lemma same_columns_pages (d1 d2 : DataFrame) :
  same_columns ["page"; "sessions"; "conversions"; "bounce_rate"; "avg_session_duration"]
    d1 d2 ->
  App.analyze_page_performance d1 = App.analyze_page_performance d2.
Proof.
  intros H. unfold App.analyze_page_performance, App.page_aggregates, App.groupby.
  destruct (same_columns_groupby _ d1 d2 "page" H) as [-> ->]; [set_solver|].
  rewrite !(same_columns_numeric _ d1 d2 _ H) by set_solver.
  destruct (getitem d2 "page"); simpl; [|reflexivity].
  repeat (match goal with
          | |- context [numeric d2 ?c] => destruct (numeric d2 c); simpl; [|reflexivity]
          end).
  do 2 f_equal. rewrite <- !list_fmap_compose.
  apply list_fmap_ext. intros i k _. simpl.
  rewrite !(same_columns_sum _ d1 d2 "page" _ k H) by set_solver.
  rewrite !(same_columns_mean _ d1 d2 "page" _ k H) by set_solver.
  reflexivity.
Qed.

Lemma same_columns_with_users (d1 d2 : DataFrame) (key : string) :
  same_columns (key :: numeric_columns) d1 d2 ->
  App.analyze_with_users d1 key = App.analyze_with_users d2 key.
Proof.
  intros H. unfold App.analyze_with_users, App.groupby.
  destruct (same_columns_groupby _ d1 d2 key H) as [-> ->]; [set_solver|].
  rewrite !(same_columns_numeric _ d1 d2 _ H) by (unfold numeric_columns; set_solver).
  destruct (getitem d2 key); simpl; [|reflexivity].
  repeat (match goal with
          | |- context [numeric d2 ?c] => destruct (numeric d2 c); simpl; [|reflexivity]
          end).
  f_equal. rewrite <- !list_fmap_compose.
  apply list_fmap_ext. intros i k _. simpl.
  rewrite !(same_columns_sum _ d1 d2 key _ k H) by (unfold numeric_columns; set_solver).
  rewrite !(same_columns_mean _ d1 d2 key _ k H) by (unfold numeric_columns; set_solver).
  reflexivity.
Qed.

Lemma same_columns_over_time (d1 d2 : DataFrame) (key : string) :
  same_columns [key; "sessions"; "conversions"; "bounce_rate"] d1 d2 ->
  App.analyze_over_time d1 key = App.analyze_over_time d2 key.
Proof.
  intros H. unfold App.analyze_over_time, App.groupby.
  destruct (same_columns_groupby _ d1 d2 key H) as [-> ->]; [set_solver|].
  rewrite !(same_columns_numeric _ d1 d2 _ H) by set_solver.
  destruct (getitem d2 key); simpl; [|reflexivity].
  repeat (match goal with
          | |- context [numeric d2 ?c] => destruct (numeric d2 c); simpl; [|reflexivity]
          end).
  f_equal. rewrite <- !list_fmap_compose.
  apply list_fmap_ext. intros i k _. simpl.
  rewrite !(same_columns_sum _ d1 d2 key _ k H) by set_solver.
  rewrite !(same_columns_mean _ d1 d2 key _ k H) by set_solver.
  reflexivity.
Qed.

(** ** The clock and the order of a set *)

Section Clock.

Variable strptime : string -> option datetime.
Variable set_order : gset string -> list string.

Lemma in_future_parsed (now1 now2 : datetime) (r : gmap string cell) :
  match to_datetime_cell strptime (r !! "date") with
  | Ok (Some t) => bool_decide (dt_gtb t now1 = dt_gtb t now2)
  | _ => true
  end = true ->
  in_future now1 (<["date" := parsed_date strptime r]> r) =
  in_future now2 (<["date" := parsed_date strptime r]> r).
Proof.
  unfold in_future, parsed_date. rewrite !lookup_insert_eq.
  destruct (to_datetime_cell strptime (r !! "date")) as [[t|]|e] eqn:E.
  - intros H; apply bool_decide_eq_true_1 in H; exact H.
  - reflexivity.
  - intros _. destruct (r !! "date") as [[x|s|t|]|]; simpl in *; try reflexivity.
    discriminate.
Qed.

Lemma count_future (now1 now2 : datetime) (d : DataFrame) :
  same_future strptime now1 now2 d = true ->
  count_rows (assign d "date" DDatetime (parsed_date strptime)) (in_future now1) =
  count_rows (assign d "date" DDatetime (parsed_date strptime)) (in_future now2).
Proof.
  unfold same_future, count_rows, assign; simpl.
  induction (rows d) as [|r l IH]; [reflexivity|].
  simpl forallb. intros H. apply andb_true_iff in H as [Hr Hl].
  rewrite fmap_cons, !filter_cons, (in_future_parsed now1 now2 r Hr).
  destruct (decide _); simpl; rewrite (IH Hl); reflexivity.
Qed.

Lemma validate_dates_clock (now1 now2 : datetime) (s : Validator) :
  same_future strptime now1 now2 (self_df s) = true ->
  validate_dates strptime now1 s = validate_dates strptime now2 s.
Proof.
  intros H. unfold validate_dates.
  destruct (to_datetime strptime (self_df s)); [|reflexivity].
  simpl self_df.
  change (fun r : gmap string cell =>
            match r !! "date" with Some (CDate t) => dt_gtb t now1 | _ => false end)
    with (in_future now1).
  change (fun r : gmap string cell =>
            match r !! "date" with Some (CDate t) => dt_gtb t now2 | _ => false end)
    with (in_future now2).
  rewrite (count_future now1 now2 _ H). reflexivity.
Qed.

(** C8, amended.  A run of the validation is a function of the table, of
    the answer at the prompt, of the clock and of the order in which the
    interpreter lists a set of column names: with that order fixed, two
    runs on the same table give the same result, report and frame whenever
    the same rows are dated in the future at both run times.  The
    aggregations are functions of the table alone, and of the columns they
    name only: two tables that hold the same series in these columns give
    the same aggregate. *)
Theorem validation_same_future (d d' : DataFrame) (now1 now2 : datetime)
    (response : string) :
  (same_future strptime now1 now2 d = true ->
   run_full_validation strptime set_order (Some d) now1 response =
   run_full_validation strptime set_order (Some d) now2 response) /\
  (same_columns numeric_columns d d' ->
   App.calculate_kpis d = App.calculate_kpis d') /\
  (same_columns ["page"; "sessions"; "conversions"; "bounce_rate";
                 "avg_session_duration"] d d' ->
   App.analyze_page_performance d = App.analyze_page_performance d') /\
  (same_columns ("device" :: numeric_columns) d d' ->
   App.analyze_device_performance d = App.analyze_device_performance d') /\
  (same_columns ("country" :: numeric_columns) d d' ->
   App.analyze_country_performance d = App.analyze_country_performance d') /\
  (same_columns ["date_only"; "sessions"; "conversions"; "bounce_rate"] d d' ->
   App.analyze_time_trends d = App.analyze_time_trends d') /\
  (same_columns ["hour"; "sessions"; "conversions"; "bounce_rate"] d d' ->
   App.hourly_perf d = App.hourly_perf d').
Proof.
  split.
  { intros H. unfold run_full_validation, load_data, steps. cbn [run_steps].
    set (s0 := print_header "Column Validation" _).
    destruct (validate_columns_read_only set_order s0) as [Hd _].
    destruct (validate_columns set_order s0) as [[r|e] s1]; [|reflexivity].
    simpl in Hd.
    rewrite (validate_dates_clock now1 now2 (print_header "Date Validation" s1));
      [reflexivity|].
    simpl. rewrite Hd. exact H. }
  split; [apply same_columns_kpis|].
  split; [apply same_columns_pages|].
  split; [apply same_columns_with_users|].
  split; [apply same_columns_with_users|].
  split; apply same_columns_over_time.
Qed.

End Clock.

(** C8, as stated, fails: the same table validated before and after the
    date of its record gives two different reports. *)
Lemma validation_depends_on_clock :
  run_full_validation strptime_padded elements (Some v_ex) january_2024 "n" <>
  run_full_validation strptime_padded elements (Some v_ex) january_2026 "n".
Proof.
  intros H. apply (f_equal (fun p => self_issues <$> p.2)) in H.
  vm_compute in H. discriminate.
Qed.

Example validation_reports_v_ex :
  (self_issues <$> (run_full_validation strptime_padded elements (Some v_ex)
                      january_2024 "n").2
   = Some [FutureDates 1]) /\
  (self_issues <$> (run_full_validation strptime_padded elements (Some v_ex)
                      january_2026 "n").2
   = Some []).
Proof. split; vm_compute; reflexivity. Qed.

(** With two columns missing, the report names them in the order in which
    the interpreter lists the set: two processes with different hash seeds
    may give two different messages. *)
Example validation_reports_set_order :
  let run order :=
    self_issues <$> (run_full_validation strptime_padded order (Some v_missing_two)
                       january_2026 "n").2 in
  run elements <> run (fun X => reverse (elements X)).
Proof.
  cbv zeta. intros H. vm_compute in H. discriminate.
Qed.

Lemma same_columns_v_ex (cols : list string) :
  (forall c, c ∈ cols -> c ∈ "hour" :: "date_only" :: numeric_columns) ->
  same_columns cols v_ex v_ex_elsewhere.
Proof.
  intros Hc. split.
  - intros c Hin. apply Hc in Hin. unfold numeric_columns in Hin.
    repeat (apply elem_of_cons in Hin as [-> | Hin]); try reflexivity;
      by apply not_elem_of_nil in Hin.
  - repeat constructor. intros c Hin. apply Hc in Hin. unfold numeric_columns in Hin.
    repeat (apply elem_of_cons in Hin as [-> | Hin]); try (vm_compute; reflexivity);
      by apply not_elem_of_nil in Hin.
Qed.

Lemma validation_same_future_witness :
  run_full_validation strptime_padded elements (Some v_ex) january_2024 "n" =
  run_full_validation strptime_padded elements (Some v_ex) june_2024 "n" /\
  App.calculate_kpis v_ex = App.calculate_kpis v_ex_elsewhere /\
  App.analyze_time_trends v_ex = App.analyze_time_trends v_ex_elsewhere /\
  App.hourly_perf v_ex = App.hourly_perf v_ex_elsewhere.
Proof.
  destruct (validation_same_future strptime_padded elements v_ex v_ex_elsewhere
              january_2024 june_2024 "n") as (H1 & H2 & _ & _ & _ & H6 & H7).
  split; [apply H1; vm_compute; reflexivity|].
  split; [apply H2, same_columns_v_ex; intros c Hc; set_solver|].
  split; [apply H6 | apply H7]; apply same_columns_v_ex; intros c Hc; set_solver.
Defined.

(** ** The summary statistics *)

Lemma div_zero_not_finite (x : fnum) :
  is_finite (fmul (fdiv x (Fin 0)) (of_nat 100)) = false.
Proof.
  destruct x as [| |a|]; try reflexivity.
  unfold fdiv. rewrite bool_decide_eq_true_2 by reflexivity.
  unfold sign. destruct (a ?= 0); reflexivity.
Qed.




(** ** Facts about the aggregation engine *)

Ltac qc2q :=
  unfold Qcle, Qclt, Qcplus, Qcminus, Qcopp, Qcmult, Qcdiv, Qcinv, Q2Qc in *;
  simpl this in *; rewrite ?Qred_correct in *.

Lemma Qc_unit_quotient (d m : Qc) :
  0 <= d -> d <= m -> 0 < m -> 0 <= d / m /\ d / m <= 1.
Proof.
  intros H0 H1 Hm. qc2q. split.
  - apply Qle_shift_div_l; [exact Hm | lra].
  - apply Qle_shift_div_r; [exact Hm | lra].
Qed.

Lemma Qc_score_range (b c z : Qc) :
  0 <= b -> b <= 1 -> 0 <= c -> c <= Q2Qc (inject_Z 100) -> 0 <= z -> z <= 1 ->
  0 <= ((1 + - b) * Q2Qc (3 # 10) + c / Q2Qc (inject_Z 100) * Q2Qc (4 # 10)
        + z * Q2Qc (3 # 10)) * Q2Qc (inject_Z 100) /\
  ((1 + - b) * Q2Qc (3 # 10) + c / Q2Qc (inject_Z 100) * Q2Qc (4 # 10)
   + z * Q2Qc (3 # 10)) * Q2Qc (inject_Z 100) <= Q2Qc (inject_Z 100).
Proof.
  intros. qc2q.
  change (inject_Z 100) with (100 # 1)%Q in *.
  change (/ (100 # 1))%Q with (1 # 100)%Q.
  split; lra.
Qed.

Lemma fle_Fin_inv (a b : Qc) : fle (Fin a) (Fin b) = true -> a <= b.
Proof. rewrite fle_Fin; apply bool_decide_eq_true_1. Qed.

Lemma fle_Fin_intro (a b : Qc) : a <= b -> fle (Fin a) (Fin b) = true.
Proof. rewrite fle_Fin; apply bool_decide_eq_true_2. Qed.

(** The score of a page whose bounce rate, conversion rate and relative
    session duration are in their ranges. *)
Lemma score_range (b c d m : fnum) :
  fle (Fin 0) b = true -> fle b (Fin 1) = true ->
  fle (Fin 0) c = true -> fle c (of_nat 100) = true ->
  fle (Fin 0) d = true -> is_finite d = true -> fle d m = true ->
  flt (Fin 0) m = true ->
  fle (Fin 0) (App.score b c d m) = true /\
  fle (App.score b c d m) (of_nat 100) = true.
Proof.
  intros Hb0 Hb1 Hc0 Hc1 Hd0 Hdf Hdm Hm.
  destruct b as [| |b|]; try discriminate.
  destruct c as [| |c|]; try discriminate.
  destruct d as [| |d|]; try discriminate.
  apply fle_Fin_inv in Hb0, Hb1, Hc0, Hd0.
  unfold of_nat in Hc1. apply fle_Fin_inv in Hc1.
  assert (Hz : exists z, fdiv (Fin d) m = Fin z /\ 0 <= z /\ z <= 1).
  { destruct m as [| |m|]; try discriminate.
    - apply fle_Fin_inv in Hdm. simpl in Hm. apply bool_decide_eq_true_1 in Hm.
      unfold fdiv. rewrite bool_decide_eq_false_2.
      + eexists; split; [reflexivity|]. apply Qc_unit_quotient; assumption.
      + intros ->. exact (Qclt_not_eq _ _ Hm eq_refl).
    - exists 0. repeat split; [apply Qcle_refl | discriminate]. }
  destruct Hz as (z & Ez & Hz0 & Hz1).
  unfold App.score. rewrite Ez.
  unfold q, of_nat, fsub, fopp, fadd, fmul, fdiv.
  rewrite bool_decide_eq_false_2 by discriminate.
  split; apply fle_Fin_intro;
    apply (Qc_score_range b c z); assumption.
Qed.

Lemma fmul_comm (x y : fnum) : fmul x y = fmul y x.
Proof.
  destruct x as [| |a|], y as [| |b|]; simpl; try reflexivity;
    try (f_equal; apply Qcmult_comm);
    match goal with |- context [?c ?= 0] => destruct (c ?= 0); reflexivity end.
Qed.

(** The score computed by the code is the formula of the specification. *)
Lemma score_formula (b c d m : fnum) :
  App.score b c d m = App.quality_score_formula b c d m.
Proof.
  unfold App.score, App.quality_score_formula.
  rewrite (fmul_comm _ (of_nat 100)).
  rewrite (fmul_comm (fsub (Fin 1) b)), (fmul_comm (fdiv c (of_nat 100))),
    (fmul_comm (fdiv d m)).
  reflexivity.
Qed.

Lemma fle_trans (x y z : fnum) : fle x y = true -> fle y z = true -> fle x z = true.
Proof.
  destruct x as [| |a|], y as [| |b|], z as [| |c|];
    try discriminate; try reflexivity.
  rewrite !fle_Fin. intros H1 H2.
  apply bool_decide_eq_true_1 in H1, H2.
  apply bool_decide_eq_true_2. eapply Qcle_trans; eassumption.
Qed.

Lemma fmax2_notna (x y : fnum) :
  isna x = false -> isna y = false -> isna (fmax2 x y) = false.
Proof. unfold fmax2; destruct (flt x y); auto. Qed.

Lemma fmax2_ge (x y : fnum) :
  isna x = false -> isna y = false ->
  fle x (fmax2 x y) = true /\ fle y (fmax2 x y) = true.
Proof.
  intros Hx Hy; unfold fmax2. destruct (flt x y) eqn:E.
  - split; [apply flt_fle, E | apply fle_refl_notna, Hy].
  - split; [apply fle_refl_notna, Hx | apply flt_false_fle; assumption].
Qed.

Lemma foldr_fmax2_ge (x0 : fnum) (l : list fnum) :
  isna x0 = false -> Forall (fun x => isna x = false) l ->
  isna (foldr fmax2 x0 l) = false /\
  forall y, y ∈ x0 :: l -> fle y (foldr fmax2 x0 l) = true.
Proof.
  intros H0; induction l as [|a l IH]; intros Hl; simpl.
  - split; [exact H0|]. intros y Hy. apply list_elem_of_singleton in Hy as ->.
    apply fle_refl_notna, H0.
  - apply list.Forall_cons in Hl as [Ha Hl]. destruct (IH Hl) as [Hn Hge].
    split; [apply fmax2_notna; assumption|].
    destruct (fmax2_ge a (foldr fmax2 x0 l) Ha Hn) as [G1 G2].
    intros y Hy. apply elem_of_cons in Hy as [-> | Hy].
    + eapply fle_trans; [apply Hge; by left | exact G2].
    + apply elem_of_cons in Hy as [-> | Hy]; [exact G1|].
      eapply fle_trans; [apply Hge; by right | exact G2].
Qed.

(** [Series.max()] is at least every value present. *)
Lemma max_ge (l : list fnum) (x : fnum) :
  x ∈ l -> isna x = false -> fle x (Num.max l) = true.
Proof.
  intros Hin Hx. unfold Num.max.
  assert (Hf : x ∈ filter (fun x => isna x = false) l)
    by (apply list_elem_of_filter; split; assumption).
  assert (Hall : Forall (fun x => isna x = false) (filter (fun x => isna x = false) l)).
  { apply list.Forall_forall. intros y Hy. apply list_elem_of_filter in Hy as [Hy _]. exact Hy. }
  destruct (filter (fun x => isna x = false) l) as [|x0 l'].
  - by apply not_elem_of_nil in Hf.
  - apply list.Forall_cons in Hall as [H0 Hl].
    apply (foldr_fmax2_ge x0 l' H0 Hl), Hf.
Qed.

(** *** The page scores *)

Lemma analyze_page_performance_inv (df : DataFrame) (stats : list App.PageStats) :
  App.analyze_page_performance df = Ok stats ->
  exists aggs, App.page_aggregates df = Ok aggs /\ stats = App.score_pages aggs.
Proof.
  unfold App.analyze_page_performance. intros H. bind_inv H.
  injection H as <-. eauto.
Qed.

Lemma score_pages_durations (aggs : list App.PageAggregate) :
  App.page_avg_session_duration <$> App.score_pages aggs
  = App.pa_avg_session_duration <$> aggs.
Proof.
  unfold App.score_pages. rewrite <- list_fmap_compose.
  apply list_fmap_ext. reflexivity.
Qed.

Example analyze_page_performance_a_still :
  exists ps, App.analyze_page_performance a_still = Ok [ps] /\
             App.quality_score ps = NaN.
Proof. eexists. split; vm_compute; reflexivity. Qed.

(** C5, as stated, fails: a cleaned table whose sessions all last 0 seconds
    has a largest mean duration of 0, the duration term of the score is
    [0/0], and the score is [NaN], which is not between 0 and 100. *)
Lemma quality_score_not_in_range :
  clean_data a_still = Ok a_still /\
  exists ps, App.analyze_page_performance a_still = Ok [ps] /\
             fle (Fin 0) (App.quality_score ps) = false /\
             fle (App.quality_score ps) (of_nat 100) = false.
Proof.
  split; [vm_compute; reflexivity|].
  eexists. split; [vm_compute; reflexivity|]. split; vm_compute; reflexivity.
Qed.

(** C5, amended.  The quality score of every page equals the formula of the
    specification, with the largest mean session duration over the pages as
    the normaliser.  It lies between 0 and 100 when the page has a bounce
    rate between 0 and 1, a conversion rate between 0 and 100 and a finite
    mean session duration that is not negative, and the largest mean
    duration is positive. *)
Theorem quality_score_formula_range (df : DataFrame) (stats : list App.PageStats)
    (ps : App.PageStats) :
  App.analyze_page_performance df = Ok stats ->
  ps ∈ stats ->
  let max_duration := Num.max (App.page_avg_session_duration <$> stats) in
  App.quality_score ps =
    App.quality_score_formula (App.bounce_rate ps) (App.page_conversion_rate ps)
      (App.page_avg_session_duration ps) max_duration /\
  (fle (Fin 0) (App.bounce_rate ps) = true ->
   fle (App.bounce_rate ps) (Fin 1) = true ->
   fle (Fin 0) (App.page_conversion_rate ps) = true ->
   fle (App.page_conversion_rate ps) (of_nat 100) = true ->
   fle (Fin 0) (App.page_avg_session_duration ps) = true ->
   is_finite (App.page_avg_session_duration ps) = true ->
   flt (Fin 0) max_duration = true ->
   fle (Fin 0) (App.quality_score ps) = true /\
   fle (App.quality_score ps) (of_nat 100) = true).
Proof.
  intros H Hin. apply analyze_page_performance_inv in H as (aggs & _ & ->).
  cbv zeta. rewrite score_pages_durations.
  assert (Hd : App.page_avg_session_duration ps ∈ App.pa_avg_session_duration <$> aggs).
  { rewrite <- score_pages_durations. apply list_elem_of_fmap. eauto. }
  unfold App.score_pages in Hin.
  apply list_elem_of_fmap in Hin as (a & -> & Ha). simpl in *.
  fold (App.max_duration aggs).
  split; [apply score_formula|].
  intros Hb0 Hb1 Hc0 Hc1 Hd0 Hdf Hm.
  apply score_range; try assumption.
  apply max_ge; [exact Hd|].
  destruct (App.pa_avg_session_duration a); try discriminate; reflexivity.
Qed.

Lemma quality_score_formula_range_witness :
  exists stats ps,
    App.analyze_page_performance a_pages = Ok stats /\
    ps ∈ stats /\
    App.page ps = CText "home" /\
    App.quality_score ps =
      App.quality_score_formula (App.bounce_rate ps) (App.page_conversion_rate ps)
        (App.page_avg_session_duration ps)
        (Num.max (App.page_avg_session_duration <$> stats)) /\
    fle (Fin 0) (App.quality_score ps) = true /\
    fle (App.quality_score ps) (of_nat 100) = true.
Proof.
  destruct (App.analyze_page_performance a_pages) as [stats|e] eqn:E;
    [|vm_compute in E; discriminate].
  pose proof E as E'. vm_compute in E'. injection E' as <-.
  match type of E with
  | _ = Ok [?p1; ?p2; ?p3] => exists [p1; p2; p3], p3
  end.
  split; [reflexivity|].
  assert (Hin : forall (x y z : App.PageStats), z ∈ [x; y; z])
    by (intros; do 2 right; left).
  split; [apply Hin|]. split; [reflexivity|].
  match type of E with
  | _ = Ok [?p1; ?p2; ?p3] =>
      destruct (quality_score_formula_range a_pages [p1; p2; p3] p3 E (Hin _ _ _))
        as [Hf Hr]
  end.
  split; [exact Hf|].
  apply Hr; vm_compute; reflexivity.
Defined.

(** *** Groups without sessions *)

Lemma rate_zero_sessions (conversions : fnum) :
  is_finite (App.rate conversions (Fin 0)) = false.
Proof. apply div_zero_not_finite. Qed.

Lemma calculate_kpis_zero_sessions (df : DataFrame) (k : App.KPIs) :
  App.calculate_kpis df = Ok k ->
  fgt (App.total_sessions k) (Fin 0) = false ->
  App.conversion_rate k = Fin 0.
Proof.
  unfold App.calculate_kpis. intros H. do 5 bind_inv H. injection H as <-. simpl.
  intros ->. reflexivity.
Qed.

(** C2 on the failing input: one record without sessions.  The overall
    conversion rate is 0, but the conversion rate of its page, device,
    country, day and hour is [0/0 = NaN]. *)
Theorem zero_session_group_rate_nan :
  (exists k, App.calculate_kpis a_zero_loaded = Ok k /\
             App.total_sessions k = Fin 0 /\ App.conversion_rate k = Fin 0) /\
  (exists ps, App.analyze_page_performance a_zero_loaded = Ok [ps] /\
              App.sessions ps = Fin 0 /\ App.page_conversion_rate ps = NaN) /\
  (exists r, App.analyze_device_performance a_zero_loaded = Ok [r] /\
             App.ar_sessions r = Fin 0 /\ App.ar_conversion_rate r = NaN) /\
  (exists r, App.analyze_country_performance a_zero_loaded = Ok [r] /\
             App.ar_sessions r = Fin 0 /\ App.ar_conversion_rate r = NaN) /\
  (exists r, App.analyze_time_trends a_zero_loaded = Ok [r] /\
             App.ar_sessions r = Fin 0 /\ App.ar_conversion_rate r = NaN) /\
  (exists r, App.hourly_perf a_zero_loaded = Ok [r] /\
             App.ar_sessions r = Fin 0 /\ App.ar_conversion_rate r = NaN).
Proof.
  split; [|split; [|split; [|split; [|split]]]];
    (eexists; split; [vm_compute; reflexivity|]; split; vm_compute; reflexivity).
Qed.

(** In every dimensional aggregate a group whose sessions sum to zero has a
    conversion rate that is not a number or is infinite. *)
Lemma dimensional_rate_unguarded (df : DataFrame) (key : string) :
  (forall stats ps, App.analyze_page_performance df = Ok stats -> ps ∈ stats ->
     App.sessions ps = Fin 0 -> is_finite (App.page_conversion_rate ps) = false) /\
  (forall l r, App.analyze_with_users df key = Ok l -> r ∈ l ->
     App.ar_sessions r = Fin 0 -> is_finite (App.ar_conversion_rate r) = false) /\
  (forall l r, App.analyze_over_time df key = Ok l -> r ∈ l ->
     App.ar_sessions r = Fin 0 -> is_finite (App.ar_conversion_rate r) = false).
Proof.
  split; [|split].
  - intros stats ps H Hin Hz.
    apply analyze_page_performance_inv in H as (aggs & _ & ->).
    unfold App.score_pages in Hin.
    apply list_elem_of_fmap in Hin as (a & -> & _). simpl in *.
    rewrite Hz. apply rate_zero_sessions.
  - intros l r H Hin Hz. unfold App.analyze_with_users in H.
    do 6 bind_inv H. injection H as <-.
    apply list_elem_of_fmap in Hin as (g & -> & _). simpl in *.
    rewrite Hz. apply rate_zero_sessions.
  - intros l r H Hin Hz. unfold App.analyze_over_time in H.
    do 4 bind_inv H. injection H as <-.
    apply list_elem_of_fmap in Hin as (g & -> & _). simpl in *.
    rewrite Hz. apply rate_zero_sessions.
Qed.

(** *** Categories *)

(** C3 on the failing input.  A page whose conversion rate is [NaN] falls
    through every comparison to the last branch: the only page of a table
    without sessions has its sessions equal to the median and is placed in
    [NeedsAttention], which is a low-traffic category. *)
Theorem tie_with_undefined_rate :
  (forall ms mc s, App.categorize_page ms mc s NaN = App.NeedsAttention) /\
  exists aggs ps,
    App.page_aggregates a_zero = Ok aggs /\
    App.analyze_page_performance a_zero = Ok [ps] /\
    feq (App.sessions ps) (App.median_sessions aggs) = true /\
    App.page_conversion_rate ps = NaN /\
    App.category ps = App.NeedsAttention.
Proof.
  split.
  - intros ms mc s. unfold App.categorize_page, fge, fle.
    destruct mc; simpl; rewrite ?andb_false_r; reflexivity.
  - do 2 eexists. split; [vm_compute; reflexivity|].
    split; [vm_compute; reflexivity|].
    split; [vm_compute; reflexivity|].
    split; vm_compute; reflexivity.
Qed.

(** * Further properties of the code *)

(** ** [categorize_page] *)

Lemma flt_negb_fge (x y : fnum) : comparable x y = true -> flt x y = negb (fge x y).
Proof.
  unfold comparable, fge. intros H. apply andb_true_iff in H as [Hx Hy].
  apply negb_true_iff in Hx, Hy.
  destruct (flt x y) eqn:E.
  - symmetry. apply negb_true_iff. apply flt_fle in E as E'.
    destruct (fle y x) eqn:F; [|reflexivity].
    apply flt_fle_false in F. congruence.
  - symmetry. apply negb_false_iff. apply flt_false_fle; assumption.
Qed.

(** When the sessions and the conversion rate of a page can be compared
    with the medians (none of the four numbers is [NaN]), the category is
    the one of the decision table: high traffic means [sessions >= median],
    high conversion means [conversion_rate >= median], ties included. *)
Theorem categorize_page_quadrant (median_sessions median_conversions s c : fnum) :
  comparable s median_sessions = true ->
  comparable c median_conversions = true ->
  App.categorize_page median_sessions median_conversions s c =
  quadrant (fge s median_sessions) (fge c median_conversions).
Proof.
  intros Hs Hc. unfold App.categorize_page.
  rewrite (flt_negb_fge _ _ Hs), (flt_negb_fge _ _ Hc).
  destruct (fge s median_sessions), (fge c median_conversions); reflexivity.
Qed.

Lemma categorize_page_quadrant_witness :
  App.categorize_page (q 200 1) (q 5 1) (q 200 1) (q 8 1) =
  quadrant (fge (q 200 1) (q 200 1)) (fge (q 8 1) (q 5 1)).
Proof.
  apply (categorize_page_quadrant (q 200 1) (q 5 1) (q 200 1) (q 8 1));
    reflexivity.
Defined.

(** ** [clean_data]: when it raises, when it returns, what it keeps *)

Lemma fill_missing_total (cols : list string) (df : DataFrame) :
  (forall col, col ∈ cols -> is_Some (dtype_of df col)) ->
  exists df', fill_missing cols df = Ok df'.
Proof.
  revert df; induction cols as [|c cols IH]; intros df Hd; simpl; [eauto|].
  assert (Hc : exists df1, fill_column df c = Ok df1).
  { unfold fill_column, getitem. destruct (Hd c) as [t ->]; [by left|]. simpl.
    case_bool_decide; eauto. }
  destruct Hc as (df1 & E). rewrite E. simpl.
  apply IH. intros col Hin. apply fill_column_spec in E as [Hcols _].
  unfold dtype_of. rewrite Hcols. apply Hd. by right.
Qed.

Lemma is_Some_retyped (o : option dtype) (t : dtype) :
  is_Some (match o with Some _ => Some t | None => None end) <-> is_Some o.
Proof. destruct o; split; intros [x H]; try discriminate; eauto. Qed.

Lemma elem_of_dedup (seen l : list (gmap string cell)) (r : gmap string cell) :
  r ∈ l -> r ∉ seen -> r ∈ dedup seen l.
Proof.
  revert seen; induction l as [|x l IH]; intros seen Hin Hs; simpl.
  - by apply not_elem_of_nil in Hin.
  - case_bool_decide as Hx.
    + apply IH; [|exact Hs]. apply elem_of_cons in Hin as [-> | Hin]; [contradiction | exact Hin].
    + destruct (decide (r = x)) as [-> | Hne]; [by left|].
      right. apply IH.
      * apply elem_of_cons in Hin as [-> | Hin]; [contradiction | exact Hin].
      * intros H. apply elem_of_cons in H as [-> | H]; contradiction.
Qed.

Lemma holds_numbers_spec (df : DataFrame) (col : string) :
  holds_numbers df col = true ->
  (exists t, dtype_of df col = Some t /\ t <> DDatetime) /\
  forall r, r ∈ rows df ->
    orders (column_cell df col r) (Some (CNum (Fin 0))) = true.
Proof.
  unfold holds_numbers. destruct (dtype_of df col) as [[]|] eqn:Et; try discriminate.
  - intros _. split; [eexists; split; [reflexivity | discriminate]|].
    intros r _. unfold column_cell. rewrite Et. apply orders_numbers.
  - intros H. split; [eexists; split; [reflexivity | discriminate]|].
    intros r Hr. unfold column_cell. rewrite Et.
    rewrite forallb_forall in H. apply H, list_elem_of_In, Hr.
Qed.

Lemma column_cell_insert_ne (df df' : DataFrame) (col c : string) (v : cell)
    (r : gmap string cell) :
  c <> col -> dtype_of df' col = dtype_of df col ->
  column_cell df' col (<[c := v]> r) = column_cell df col r.
Proof.
  intros Hne Ht. unfold column_cell, num. rewrite Ht.
  rewrite lookup_insert_ne by exact Hne. reflexivity.
Qed.

(** [clean_data] returns a table when its five columns exist and each of
    the three columns it compares holds numbers. *)
Lemma clean_data_total (df : DataFrame) :
  holds_numbers df "sessions" = true ->
  holds_numbers df "bounce_rate" = true ->
  holds_numbers df "conversions" = true ->
  is_Some (dtype_of df "users") ->
  is_Some (dtype_of df "avg_session_duration") ->
  exists df', clean_data df = Ok df'.
Proof.
  intros Hs Hb Hc Hu Hd.
  apply holds_numbers_spec in Hs as ((ts & Es & Hts) & Hrs).
  apply holds_numbers_spec in Hb as ((tb & Eb & Htb) & Hrb).
  apply holds_numbers_spec in Hc as ((tc & Ec & Htc) & Hrc).
  unfold clean_data.
  set (d1 := drop_duplicates df).
  set (d2 := select d1 positive_sessions).
  set (d3 := update d2 "bounce_rate" clip_bounce_rate).
  assert (H2 : forall r, r ∈ rows d2 -> r ∈ rows df).
  { intros r Hr. unfold d2, select in Hr; simpl in Hr.
    apply list_elem_of_filter in Hr as [_ Hr]. apply dedup_elem_of in Hr as [Hr _].
    exact Hr. }
  rewrite (compared_Ok d1 "sessions" ts Es Hts), bind_Ok.
  2: { intros r Hr. apply (Hrs r). simpl in Hr. apply dedup_elem_of in Hr as [Hr _].
       exact Hr. }
  rewrite (compared_Ok d2 "bounce_rate" tb Eb Htb), bind_Ok.
  2: { intros r Hr. apply (Hrb r), H2, Hr. }
  rewrite (compared_Ok d3 "conversions" tc Ec Htc), bind_Ok.
  2: { intros r Hr. unfold d3, update in Hr; simpl in Hr.
       apply list_elem_of_fmap in Hr as (r0 & -> & Hr0).
       rewrite (column_cell_insert_ne df d3) by (discriminate || reflexivity).
       apply (Hrc r0), H2, Hr0. }
  rewrite (compared_Ok d3 "sessions" ts Es Hts), bind_Ok.
  2: { intros r Hr. unfold d3, update in Hr; simpl in Hr.
       apply list_elem_of_fmap in Hr as (r0 & -> & Hr0).
       rewrite (column_cell_insert_ne df d3) by (discriminate || reflexivity).
       apply (Hrs r0), H2, Hr0. }
  apply fill_missing_total. intros col Hcol.
  rewrite dtype_of_assign.
  change (dtype_of d3 col) with (dtype_of df col).
  case_bool_decide; rewrite ?is_Some_retyped;
    unfold numeric_columns in Hcol;
    repeat (apply elem_of_cons in Hcol as [-> | Hcol]); rewrite ?Es, ?Eb, ?Ec;
    eauto; by apply not_elem_of_nil in Hcol.
Qed.

(** When [clean_data] raises and when it returns.  It raises when one of
    its five columns is absent, and it raises [TypeError] when the sessions
    column is an object column with a text value.  It returns a table when
    the five columns exist and each of [sessions], [bounce_rate] and
    [conversions] is numeric or is an object column without text (numbers
    and missing values only, as in a file that has no rows). *)
Theorem clean_data_outcome (df : DataFrame) :
  (forall col, col ∈ numeric_columns -> dtype_of df col = None ->
     exists e, clean_data df = Raise e) /\
  (forall r s, dtype_of df "sessions" = Some DObject ->
     r ∈ rows df -> r !! "sessions" = Some (CText s) ->
     clean_data df = Raise (TypeError "sessions")) /\
  (holds_numbers df "sessions" = true ->
   holds_numbers df "bounce_rate" = true ->
   holds_numbers df "conversions" = true ->
   is_Some (dtype_of df "users") ->
   is_Some (dtype_of df "avg_session_duration") ->
   exists df', clean_data df = Ok df').
Proof.
  split; [|split].
  - intros col Hcol Hn. destruct (clean_data df) as [df'|e] eqn:E; [|eauto].
    exfalso. pose proof (clean_data_columns _ _ E) as Hcols.
    destruct (cl_columns _ (clean_data_cleaned _ _ E) col Hcol) as [t Ht].
    unfold dtype_of in Ht, Hn. rewrite Hcols, assoc_retype, Hn in Ht.
    case_bool_decide; discriminate.
  - intros r s Et Hr Es.
    assert (Hc : compared (drop_duplicates df) "sessions" = Raise (TypeError "sessions")).
    { unfold compared, getitem.
      change (dtype_of (drop_duplicates df) "sessions") with (dtype_of df "sessions").
      rewrite Et. cbn [mbind result_bind]. rewrite bool_decide_eq_false_2 by discriminate.
      replace (forallb _ _) with false; [reflexivity|].
      symmetry. apply not_true_is_false. intros Hf. rewrite forallb_forall in Hf.
      assert (Hin : r ∈ dedup [] (rows df))
        by (apply elem_of_dedup; [exact Hr | apply not_elem_of_nil]).
      apply list_elem_of_In, Hf in Hin.
      unfold column_cell in Hin.
      change (dtype_of (drop_duplicates df) "sessions") with (dtype_of df "sessions") in Hin.
      rewrite Et, Es in Hin. discriminate. }
    unfold clean_data. rewrite Hc. reflexivity.
  - apply clean_data_total.
Qed.

Lemma clean_data_outcome_witness :
  (exists e, clean_data t_no_users = Raise e) /\
  clean_data t_text = Raise (TypeError "sessions") /\
  (exists df', clean_data t_header_only = Ok df').
Proof.
  split; [|split].
  - apply (proj1 (clean_data_outcome t_no_users) "users");
      [unfold numeric_columns; set_solver | reflexivity].
  - apply (proj1 (proj2 (clean_data_outcome t_text))
             (<["sessions" := CText "many"]>
                (record "01-03-2025 10:00" "home" "mobile" "US"
                   NaN (q 80 1) (q 1 2) (q 10 1) (q 30 1))) "many");
      [reflexivity | apply list_elem_of_here | reflexivity].
  - apply (proj2 (proj2 (clean_data_outcome t_header_only)));
      try reflexivity; eexists; reflexivity.
Defined.

(** A text value is compared only in a row that is kept: here the only
    record is dropped for its sessions before the bounce rates are
    clipped, and cleaning returns a table without rows. *)
Example clean_data_t_text_bounce :
  exists df', clean_data t_text_bounce = Ok df' /\ rows df' = [] /\
              holds_numbers t_text_bounce "bounce_rate" = false.
Proof. eexists. split; [vm_compute; reflexivity|]. split; reflexivity. Qed.

Example clean_data_t_header_only :
  exists df', clean_data t_header_only = Ok df' /\ rows df' = [] /\
              column_names df' = column_names t_header_only.
Proof. eexists. split; [vm_compute; reflexivity|]. split; reflexivity. Qed.

Lemma repair_row_lookup_other (r : gmap string cell) (col : string) :
  col ∉ numeric_columns -> repair_row r !! col = r !! col.
Proof.
  intros H. unfold numeric_columns in H.
  assert (Hne : forall c, c ∈ ["sessions"; "users"; "conversions"; "bounce_rate";
                               "avg_session_duration"] -> c <> col)
    by (intros c Hc ->; contradiction).
  unfold repair_row, numeric_columns; simpl foldl.
  rewrite !lookup_fillna_row_ne by (apply Hne; set_solver).
  rewrite !lookup_insert_ne by (apply Hne; set_solver). reflexivity.
Qed.

Lemma repair_row_lookup_filled (r : gmap string cell) (col : string) (x : fnum) :
  col = "users" \/ col = "avg_session_duration" ->
  r !! col = Some (CNum x) ->
  repair_row r !! col = Some (CNum (if isna x then Fin 0 else x)).
Proof.
  intros [-> | ->] Hx; unfold repair_row, numeric_columns; simpl foldl;
    norm_lookup; rewrite Hx; reflexivity.
Qed.

Lemma length_dedup (seen l : list (gmap string cell)) :
  (length (dedup seen l) <= length l)%nat.
Proof.
  revert seen; induction l as [|r l IH]; intros seen; simpl; [lia|].
  case_bool_decide; simpl; [specialize (IH seen) | specialize (IH (r :: seen))]; lia.
Qed.

Lemma column_names_retype (col : string) (t : dtype) (l : list (string * dtype)) :
  (retype col t <$> l).*1 = l.*1.
Proof.
  rewrite <- list_fmap_compose. apply list_fmap_ext.
  intros i [c u] _; unfold retype; simpl. case_bool_decide; simpl; congruence.
Qed.

(** What cleaning keeps: the column names; no more rows than the input has;
    and in every row it returns, the cells of the columns that are not
    numeric columns ([date], [page], [device], [country] and any extra
    column) as they are in an input row, and the values of [users] and
    [avg_session_duration] unless they were missing, in which case they
    are 0. *)
Theorem clean_data_keeps (df df' : DataFrame) :
  clean_data df = Ok df' ->
  column_names df' = column_names df /\
  (length (rows df') <= length (rows df))%nat /\
  forall r', r' ∈ rows df' ->
    exists r, r ∈ rows df /\
      (forall col, col ∉ numeric_columns -> r' !! col = r !! col) /\
      (forall col x, col = "users" \/ col = "avg_session_duration" ->
         r !! col = Some (CNum x) ->
         r' !! col = Some (CNum (if isna x then Fin 0 else x))).
Proof.
  intros H. pose proof (clean_data_rows _ _ H) as Hrows.
  pose proof (fill_missing_spec _ _ _ (clean_data_before_fill _ _ H)) as [Hcols _].
  split; [|split].
  - unfold column_names. rewrite Hcols. unfold before_fill; simpl.
    rewrite column_names_retype. reflexivity.
  - rewrite Hrows, length_fmap.
    etrans; [apply length_filter | apply length_dedup].
  - intros r' Hr'. rewrite Hrows in Hr'.
    apply list_elem_of_fmap in Hr' as (r & -> & Hr).
    apply list_elem_of_filter in Hr as [_ Hr].
    apply dedup_elem_of in Hr as [Hr _].
    exists r. split; [exact Hr|]. split.
    + intros col Hcol. apply repair_row_lookup_other, Hcol.
    + intros col x Hcol Hx. apply repair_row_lookup_filled; assumption.
Qed.

Lemma clean_data_keeps_witness :
  column_names t_ex_clean = column_names t_ex /\
  (length (rows t_ex_clean) <= length (rows t_ex))%nat /\
  forall r', r' ∈ rows t_ex_clean ->
    exists r, r ∈ rows t_ex /\
      (forall col, col ∉ numeric_columns -> r' !! col = r !! col) /\
      (forall col x, col = "users" \/ col = "avg_session_duration" ->
         r !! col = Some (CNum x) ->
         r' !! col = Some (CNum (if isna x then Fin 0 else x))).
Proof.
  apply (clean_data_keeps t_ex t_ex_clean). vm_compute. reflexivity.
Defined.

(** ** The validator's checks *)

Section Checks.

Variable strptime : string -> option datetime.

Lemma to_datetime_cell_missing (c : option cell) :
  cell_isna c = true -> to_datetime_cell strptime c = Ok None.
Proof. destruct c as [[x|s|t|]|]; simpl; try discriminate; try reflexivity. intros ->. reflexivity. Qed.

Lemma to_datetime_rows_Ok (l : list (gmap string cell)) (ts : list (option datetime)) :
  to_datetime_rows strptime l = Ok ts ->
  forall r, r ∈ l -> exists t, to_datetime_cell strptime (r !! "date") = Ok t.
Proof.
  revert ts; induction l as [|r0 l IH]; intros ts H r Hr; simpl in H.
  - by apply not_elem_of_nil in Hr.
  - do 2 bind_inv H. apply elem_of_cons in Hr as [-> | Hr]; [eauto|].
    eapply IH; eassumption.
Qed.

Lemma to_datetime_rows_Raise (l : list (gmap string cell)) (e : exn) :
  to_datetime_rows strptime l = Raise e ->
  exists r, r ∈ l /\ to_datetime_cell strptime (r !! "date") = Raise e.
Proof.
  induction l as [|r0 l IH]; simpl; [discriminate|].
  destruct (to_datetime_cell strptime (r0 !! "date")) as [t|e0] eqn:E0; simpl.
  - destruct (to_datetime_rows strptime l) as [ts|e1]; simpl; [discriminate|].
    intros [= <-]. destruct (IH eq_refl) as (r & Hr & Er).
    exists r. split; [by right | exact Er].
  - intros [= <-]. exists r0. split; [by left | exact E0].
Qed.

(** [validate_dates] never raises.  It fails only for a missing [date]
    column or for a value that is present and does not parse: the
    exception is caught and recorded as one issue, the check returns
    [False] and the frame is left as it was.  Otherwise it returns [True],
    the column has the datetime dtype, no row is dropped, whether its date
    is in the future or not, and every cell of the column is a timestamp or
    [NaT]; a missing date becomes [NaT]. *)
Theorem validate_dates_outcome (now : datetime) (s : Validator) :
  (exists e, validate_dates strptime now s = (Ok false, append_issue (DateParsingError e) s) /\
     (dtype_of (self_df s) "date" = None /\ e = KeyError "date" \/
      exists r, r ∈ rows (self_df s) /\ cell_isna (r !! "date") = false /\
                to_datetime_cell strptime (r !! "date") = Raise e))
  \/
  (exists s', validate_dates strptime now s = (Ok true, s') /\
     dtype_of (self_df s') "date" = Some DDatetime /\
     Forall2 (fun r r' =>
                (cell_isna (r !! "date") = true -> r' !! "date" = Some CNaT) /\
                ((exists t, r' !! "date" = Some (CDate t)) \/ r' !! "date" = Some CNaT))
       (rows (self_df s)) (rows (self_df s'))).
Proof.
  unfold validate_dates.
  destruct (to_datetime strptime (self_df s)) as [ts|e] eqn:E; [right | left].
  - eexists. split; [reflexivity|].
    rewrite self_df_append_if_positive. simpl self_df.
    unfold to_datetime in E. bind_inv E.
    split.
    + rewrite dtype_of_assign. rewrite bool_decide_eq_true_2 by reflexivity.
      unfold getitem in E0. destruct (dtype_of (self_df s) "date"); [reflexivity | discriminate].
    + simpl. apply Forall2_fmap_r, Forall_Forall2_diag, list.Forall_forall.
      intros r Hr. unfold compose. cbv beta. rewrite !lookup_insert_eq.
      unfold parsed_date.
      split.
      * intros Hna. rewrite (to_datetime_cell_missing _ Hna). reflexivity.
      * destruct (to_datetime_rows_Ok _ _ E r Hr) as ([t|] & ->); eauto.
  - exists e. split; [reflexivity|].
    unfold to_datetime, getitem in E.
    destruct (dtype_of (self_df s) "date") as [t|]; simpl in E.
    + right. apply to_datetime_rows_Raise in E as (r & Hr & Er).
      exists r. split; [exact Hr|]. split; [|exact Er].
      destruct (cell_isna (r !! "date")) eqn:Hna; [|reflexivity].
      rewrite (to_datetime_cell_missing _ Hna) in Er. discriminate.
    + left. injection E as <-. auto.
Qed.

End Checks.

(** A blank date does not fail the check: the record dated in [v_blank]
    is parsed and the blank one becomes [NaT]. *)
Example validate_dates_v_blank :
  exists s',
    validate_dates strptime_padded january_2026
      {| self_df := v_blank; self_issues := []; self_log := [] |} = (Ok true, s') /\
    self_issues s' = [] /\
    (fun r : gmap string cell => r !! "date") <$> rows (self_df s')
    = [Some (CDate (mk_datetime 2025 3 1 10 0)); Some CNaT].
Proof. eexists. split; [vm_compute; reflexivity|]. split; reflexivity. Qed.

Lemma validate_numeric_column_result (col : string) (b : bool) (s : Validator)
    (t : dtype) :
  dtype_of (self_df s) col = Some t ->
  (validate_numeric_column col b s).1 = Ok (b && is_numeric_dtype t).
Proof.
  intros H. unfold validate_numeric_column, getitem. rewrite H.
  destruct t; simpl; rewrite ?andb_true_r, ?andb_false_r; reflexivity.
Qed.

Lemma validate_numeric_loop_result (cols : list string) (b : bool) (s : Validator) :
  (forall col, col ∈ cols -> is_Some (dtype_of (self_df s) col)) ->
  (validate_numeric_loop cols b s).1 =
  Ok (b && forallb (fun col => bool_decide (dtype_of (self_df s) col = Some DNumeric)) cols).
Proof.
  revert b s; induction cols as [|c cols IH]; intros b s Hp; simpl.
  - rewrite andb_true_r. reflexivity.
  - destruct (Hp c) as [t Ht]; [by left|].
    pose proof (validate_numeric_column_result c b s t Ht) as Hr.
    destruct (validate_numeric_column_read_only c b s) as [Hd _].
    destruct (validate_numeric_column c b s) as [r s1]. simpl in Hr, Hd. subst r.
    rewrite IH.
    + rewrite Hd, Ht. f_equal. rewrite <- andb_assoc. f_equal. f_equal.
      destruct t; reflexivity.
    + intros col Hcol. rewrite Hd. apply Hp. by right.
Qed.

(** When the five numeric columns exist, [validate_numeric_columns] returns
    [True] exactly when each of them has a numeric dtype: negative values,
    bounce rates out of range and missing values are recorded as issues but
    do not change what it returns, and a column that is not numeric does
    not stop the check of the others. *)
Theorem validate_numeric_columns_result (s : Validator) :
  (forall col, col ∈ numeric_columns -> is_Some (dtype_of (self_df s) col)) ->
  (validate_numeric_columns s).1 = Ok (all_numeric (self_df s)).
Proof.
  intros H. unfold validate_numeric_columns.
  rewrite (validate_numeric_loop_result _ _ _ H). reflexivity.
Qed.

Lemma validate_numeric_columns_result_witness :
  (validate_numeric_columns {| self_df := t_ex; self_issues := []; self_log := [] |}).1
  = Ok (all_numeric t_ex).
Proof.
  apply (validate_numeric_columns_result
           {| self_df := t_ex; self_issues := []; self_log := [] |}).
  intros col Hcol. unfold numeric_columns in Hcol.
  repeat (apply elem_of_cons in Hcol as [-> | Hcol]); try (eexists; reflexivity).
  by apply not_elem_of_nil in Hcol.
Defined.

(** ** Validating a cleaned table *)

Lemma count_rows_zero (d : DataFrame) (p : gmap string cell -> bool) :
  (forall r, r ∈ rows d -> p r = false) -> count_rows d p = 0%nat.
Proof.
  intros H. unfold count_rows.
  destruct (filter _ (rows d)) as [|r l] eqn:E; [reflexivity|].
  assert (Hr : r ∈ filter (fun r => p r = true) (rows d)) by (rewrite E; by left).
  apply list_elem_of_filter in Hr as [Hr1 Hr2]. rewrite (H r Hr2) in Hr1. discriminate.
Qed.

Lemma append_if_positive_zero (i : issue) (s : Validator) :
  append_if_positive 0 i s = s.
Proof. reflexivity. Qed.

Lemma append_if_positive_issues (n : nat) (i j : issue) (s : Validator) :
  j ∈ self_issues (append_if_positive n i s) -> j ∈ self_issues s \/ j = i.
Proof.
  unfold append_if_positive. case_bool_decide as Hn; simpl; [|auto].
  intros Hj. apply elem_of_app in Hj as [Hj | Hj]; [auto|].
  apply list_elem_of_singleton in Hj. auto.
Qed.

Lemma column_pair_Ok (d : DataFrame) (a b : string) (ta tb : dtype) :
  dtype_of d a = Some ta -> dtype_of d b = Some tb ->
  datetime_against_numeric ta tb = false ->
  (forall r, r ∈ rows d -> orders (column_cell d a r) (column_cell d b r) = true) ->
  column_pair d a b = Ok (column_cell d a, column_cell d b).
Proof.
  intros Ea Eb Hd Hr. unfold column_pair, getitem. rewrite Ea, Eb. simpl. rewrite Hd.
  replace (forallb _ (rows d)) with true; [reflexivity|].
  symmetry. apply forallb_forall. intros r Hin. apply Hr, list_elem_of_In, Hin.
Qed.

(** After cleaning, the quality check finds no record with more conversions
    than sessions and none with zero sessions: the only issue it can add
    is the one for records with fewer sessions than users, which cleaning
    does not repair. *)
Theorem check_data_quality_cleaned (df df' : DataFrame) (s : Validator) :
  clean_data df = Ok df' ->
  self_df s = df' ->
  dtype_of df' "users" = Some DNumeric ->
  exists s',
    check_data_quality s = (Ok true, s') /\
    forall i, i ∈ self_issues s' ->
      i ∈ self_issues s \/ exists n, i = SessionsBelowUsers n.
Proof.
  intros H Hs Hu. apply clean_data_cleaned in H as Hcl.
  destruct (cl_columns _ Hcl "sessions") as [ts Es]; [unfold numeric_columns; set_solver|].
  pose proof (cl_sessions _ Hcl) as Hts. pose proof (cl_conversions _ Hcl) as Ec.
  pose proof (row_min_dtype_not_datetime df') as Htc.
  assert (Hcell : forall r, r ∈ rows df' ->
            exists x c, column_cell df' "sessions" r = Some (CNum x) /\
                        column_cell df' "conversions" r = Some (CNum c) /\
                        flt (Fin 0) x = true /\ fle c x = true).
  { intros r Hr.
    destruct (cleaned_row_cells _ _ Hcl Hr) as (x & c & b & Ex & Ecv & _ & Hx & Hc & _).
    exists x, c. rewrite (column_cell_number _ _ _ _ Ex), (column_cell_number _ _ _ _ Ecv).
    auto. }
  unfold check_data_quality. rewrite Hs.
  unfold column_lt, column_gt.
  rewrite (column_pair_Ok df' "sessions" "users" ts DNumeric Es Hu), bind_Ok.
  2: { destruct ts; try reflexivity. congruence. }
  2: { intros r Hr. destruct (Hcell r Hr) as (x & c & -> & _).
       unfold column_cell at 1. rewrite Hu. apply orders_numbers. }
  rewrite (column_pair_Ok df' "conversions" "sessions" _ ts Ec Es), bind_Ok.
  2: { destruct (row_min_dtype df'), ts; try reflexivity; congruence. }
  2: { intros r Hr. destruct (Hcell r Hr) as (x & c & -> & -> & _). apply orders_numbers. }
  cbn [fst snd].
  rewrite (count_rows_zero df'
             (fun r => cell_ltb (column_cell df' "sessions" r)
                         (column_cell df' "conversions" r))).
  2: { intros r Hr. destruct (Hcell r Hr) as (x & c & -> & -> & _ & Hc).
       simpl. apply flt_fle_false, Hc. }
  unfold column_eq_zero, getitem. rewrite Es. simpl.
  rewrite (count_rows_zero df'
             (fun r => match r !! "sessions" with
                       | Some (CNum x) => feq x (Fin 0)
                       | _ => false
                       end)).
  2: { intros r Hr.
       destruct (cleaned_row_cells _ _ Hcl Hr) as (x & c & b & -> & _ & _ & Hx & _).
       destruct x; simpl in *; try discriminate; try reflexivity.
       apply bool_decide_eq_true_1 in Hx. apply bool_decide_eq_false_2.
       intros ->. exact (Qclt_not_eq _ _ Hx eq_refl). }
  rewrite !append_if_positive_zero.
  eexists. split; [reflexivity|].
  intros i Hi. apply append_if_positive_issues in Hi as [Hi | ->]; eauto.
Qed.

Lemma check_data_quality_cleaned_witness :
  exists s',
    check_data_quality {| self_df := t_ex_clean; self_issues := []; self_log := [] |}
    = (Ok true, s') /\
    forall i, i ∈ self_issues s' -> i ∈ [] \/ exists n, i = SessionsBelowUsers n.
Proof.
  apply (check_data_quality_cleaned t_ex t_ex_clean
           {| self_df := t_ex_clean; self_issues := []; self_log := [] |}).
  - vm_compute. reflexivity.
  - reflexivity.
  - reflexivity.
Defined.

Lemma validate_numeric_column_cleaned (col : string) (b : bool) (s : Validator) :
  cleaned (self_df s) -> col ∈ numeric_columns ->
  dtype_of (self_df s) col = Some DNumeric ->
  exists s',
    validate_numeric_column col b s = (Ok b, s') /\
    self_df s' = self_df s /\
    forall i, i ∈ self_issues s' ->
      i ∈ self_issues s \/
      exists n, i = NegativeValues n col /\ col <> "sessions" /\ col <> "bounce_rate".
Proof.
  intros Hcl Hcol Hd.
  unfold validate_numeric_column, getitem. rewrite Hd. simpl negb. cbv iota zeta.
  rewrite (isna_count_zero (self_df s) col).
  2: { intros r Hr. destruct (cl_rows _ Hcl r Hr) as (r0 & _ & ->).
       apply repair_row_no_missing, Hcol. }
  rewrite append_if_positive_zero.
  destruct (decide (col = "bounce_rate")) as [-> | Hnb].
  - rewrite (bool_decide_eq_false_2 ("bounce_rate" <> "bounce_rate"))
      by (intros H; apply H; reflexivity).
    rewrite (bool_decide_eq_true_2 ("bounce_rate" = "bounce_rate")) by reflexivity.
    rewrite count_rows_zero.
    + rewrite append_if_positive_zero. eexists. split; [reflexivity|]. split; auto.
    + intros r Hr.
      destruct (cleaned_row_cells _ _ Hcl Hr) as (x & c & y & _ & _ & Ey & _ & _ & H0 & H1).
      unfold num. rewrite Ey. unfold fgt.
      rewrite (flt_fle_false _ _ H0), (flt_fle_false _ _ H1). reflexivity.
  - rewrite (bool_decide_eq_true_2 (col <> "bounce_rate")) by exact Hnb.
    rewrite (bool_decide_eq_false_2 (col = "bounce_rate")) by exact Hnb.
    destruct (decide (col = "sessions")) as [-> | Hns].
    + rewrite count_rows_zero.
      * rewrite append_if_positive_zero. eexists. split; [reflexivity|]. split; auto.
      * intros r Hr.
        destruct (cleaned_row_cells _ _ Hcl Hr) as (x & c & y & Ex & _ & _ & Hx & _).
        unfold num. rewrite Ex. apply flt_fle_false, flt_fle, Hx.
    + eexists. split; [reflexivity|]. split; [apply self_df_append_if_positive|].
      intros i Hi. apply append_if_positive_issues in Hi as [Hi | ->]; eauto.
Qed.

Lemma validate_numeric_loop_cleaned (cols : list string) (b : bool) (s : Validator) :
  cleaned (self_df s) ->
  (forall col, col ∈ cols ->
     col ∈ numeric_columns /\ dtype_of (self_df s) col = Some DNumeric) ->
  exists s',
    validate_numeric_loop cols b s = (Ok b, s') /\
    forall i, i ∈ self_issues s' ->
      i ∈ self_issues s \/
      exists n col, i = NegativeValues n col /\ col ∈ cols /\
                    col <> "sessions" /\ col <> "bounce_rate".
Proof.
  revert s; induction cols as [|c cols IH]; intros s Hcl Hc; simpl.
  - eexists. split; [reflexivity | auto].
  - destruct (Hc c) as [Hin Hd]; [by left|].
    destruct (validate_numeric_column_cleaned c b s Hcl Hin Hd) as (s1 & E & Hdf & Hi1).
    rewrite E.
    destruct (IH s1) as (s' & E' & Hi').
    + rewrite Hdf. exact Hcl.
    + intros col Hcol. rewrite Hdf. apply Hc. by right.
    + exists s'. split; [exact E'|].
      intros i Hi. destruct (Hi' i Hi) as [Hold | (n & col & -> & Hcol & Hne)].
      * destruct (Hi1 i Hold) as [Hold' | (n & -> & Hne)]; [auto|].
        right. exists n, c. split; [reflexivity|]. split; [by left | exact Hne].
      * right. exists n, col. split; [reflexivity|]. split; [by right | exact Hne].
Qed.

(** After cleaning, the numeric check of a table whose numeric columns are
    numeric passes and can only report negative values, in [users],
    [conversions] or [avg_session_duration]: it finds no bounce rate out of
    range, no missing value and no negative sessions. *)
Theorem validate_numeric_columns_cleaned (df df' : DataFrame) (s : Validator) :
  clean_data df = Ok df' ->
  self_df s = df' ->
  all_numeric df' = true ->
  exists s',
    validate_numeric_columns s = (Ok true, s') /\
    forall i, i ∈ self_issues s' ->
      i ∈ self_issues s \/
      exists n col, i = NegativeValues n col /\
                    col ∈ ["users"; "conversions"; "avg_session_duration"].
Proof.
  intros H Hs Hn. apply clean_data_cleaned in H as Hcl. subst df'.
  destruct (validate_numeric_loop_cleaned numeric_columns true s Hcl) as (s' & E & Hi).
  - intros col Hcol. split; [exact Hcol|].
    unfold all_numeric in Hn. rewrite forallb_forall in Hn.
    assert (Hb := Hn col (proj1 (list_elem_of_In _ _) Hcol)).
    apply bool_decide_eq_true_1 in Hb. exact Hb.
  - exists s'. split; [exact E|].
    intros i Hin. destruct (Hi i Hin) as [Hold | (n & col & -> & Hcol & Hns & Hnb)]; [auto|].
    right. exists n, col. split; [reflexivity|].
    unfold numeric_columns in Hcol. set_solver.
Qed.

Lemma validate_numeric_columns_cleaned_witness :
  exists s',
    validate_numeric_columns {| self_df := t_ex_clean; self_issues := []; self_log := [] |}
    = (Ok true, s') /\
    forall i, i ∈ self_issues s' ->
      i ∈ [] \/
      exists n col, i = NegativeValues n col /\
                    col ∈ ["users"; "conversions"; "avg_session_duration"].
Proof.
  apply (validate_numeric_columns_cleaned t_ex t_ex_clean
           {| self_df := t_ex_clean; self_issues := []; self_log := [] |}).
  - vm_compute. reflexivity.
  - reflexivity.
  - reflexivity.
Defined.

(** ** The whole run on a well-formed table *)

Lemma well_formed_present (d : DataFrame) (col : string) :
  well_formed d = true -> col ∈ required_columns -> is_Some (dtype_of d col).
Proof.
  unfold well_formed. intros H Hcol. apply andb_true_iff in H as [H _].
  rewrite forallb_forall in H.
  assert (Hb := H col (proj1 (list_elem_of_In _ _) Hcol)).
  apply bool_decide_eq_true_1 in Hb. exact Hb.
Qed.

Lemma well_formed_numeric (d : DataFrame) (col : string) :
  well_formed d = true -> col ∈ numeric_columns -> dtype_of d col = Some DNumeric.
Proof.
  unfold well_formed, all_numeric. intros H Hcol. apply andb_true_iff in H as [_ H].
  rewrite forallb_forall in H.
  assert (Hb := H col (proj1 (list_elem_of_In _ _) Hcol)).
  apply bool_decide_eq_true_1 in Hb. exact Hb.
Qed.

Lemma self_log_append_if_positive (n : nat) (i : issue) (s : Validator) :
  self_log (append_if_positive n i s) = self_log s.
Proof. unfold append_if_positive; case_bool_decide; reflexivity. Qed.

Lemma validate_columns_passes (set_order : gset string -> list string)
    (s : Validator) :
  (forall col, col ∈ required_columns -> is_Some (dtype_of (self_df s) col)) ->
  passes (validate_columns set_order) s true.
Proof.
  intros H. unfold passes, validate_columns. cbv zeta.
  case_bool_decide as Hm; [|eauto].
  exfalso. destruct (missing_columns_elem (self_df s) Hm) as (col & Hin & Hn).
  destruct (H col Hin) as [t Ht]. congruence.
Qed.

Lemma validate_numeric_loop_log (cols : list string) (b : bool) (s : Validator) :
  self_log (validate_numeric_loop cols b s).2 = self_log s.
Proof.
  revert b s; induction cols as [|c cols IH]; intros b s; simpl; [reflexivity|].
  assert (Hl : self_log (validate_numeric_column c b s).2 = self_log s).
  { unfold validate_numeric_column.
    destruct (getitem (self_df s) c); simpl; [|reflexivity].
    destruct (negb (is_numeric_dtype a)); simpl; [reflexivity|].
    rewrite self_log_append_if_positive.
    repeat case_bool_decide; rewrite ?self_log_append_if_positive; reflexivity. }
  destruct (validate_numeric_column c b s) as [[b'|e] s1]; simpl in *; [|exact Hl].
  rewrite IH. exact Hl.
Qed.

Lemma validate_numeric_columns_passes (s : Validator) :
  (forall col, col ∈ numeric_columns -> dtype_of (self_df s) col = Some DNumeric) ->
  passes validate_numeric_columns s true.
Proof.
  intros H. unfold passes.
  assert (Hr : (validate_numeric_columns s).1 = Ok (all_numeric (self_df s))).
  { unfold validate_numeric_columns. rewrite validate_numeric_loop_result; [reflexivity|].
    intros col Hcol. rewrite (H col Hcol). eauto. }
  assert (Ha : all_numeric (self_df s) = true).
  { unfold all_numeric. rewrite forallb_forall. intros col Hcol.
    apply bool_decide_eq_true_2, H, list_elem_of_In, Hcol. }
  rewrite Ha in Hr.
  destruct (validate_numeric_columns_read_only s) as [Hd _].
  pose proof (validate_numeric_loop_log numeric_columns true s) as Hl.
  fold (validate_numeric_columns s) in Hl.
  destruct (validate_numeric_columns s) as [r s']. simpl in *. subst r. eauto.
Qed.

Lemma validate_categorical_loop_passes (cols : list string) (s : Validator) :
  (forall col, col ∈ cols -> is_Some (dtype_of (self_df s) col)) ->
  validate_categorical_loop cols s = (Ok true, s).
Proof.
  induction cols as [|c cols IH]; intros H; simpl; [reflexivity|].
  unfold getitem. destruct (H c) as [t ->]; [by left|].
  apply IH. intros col Hcol. apply H. by right.
Qed.

Lemma column_pair_numeric (d : DataFrame) (a b : string) :
  dtype_of d a = Some DNumeric -> dtype_of d b = Some DNumeric ->
  column_pair d a b = Ok (column_cell d a, column_cell d b).
Proof.
  intros Ha Hb. apply (column_pair_Ok d a b DNumeric DNumeric Ha Hb); [reflexivity|].
  intros r _. unfold column_cell. rewrite Ha, Hb. apply orders_numbers.
Qed.

Lemma check_data_quality_passes (s : Validator) :
  dtype_of (self_df s) "sessions" = Some DNumeric ->
  dtype_of (self_df s) "users" = Some DNumeric ->
  dtype_of (self_df s) "conversions" = Some DNumeric ->
  passes check_data_quality s true.
Proof.
  intros Hs Hu Hc. unfold passes, check_data_quality.
  unfold column_lt, column_gt.
  rewrite (column_pair_numeric _ "sessions" "users" Hs Hu), bind_Ok.
  rewrite (column_pair_numeric _ "conversions" "sessions" Hc Hs), bind_Ok.
  unfold column_eq_zero, getitem. rewrite Hs. cbn [mbind result_bind].
  eexists. split; [reflexivity|].
  rewrite !self_df_append_if_positive, !self_log_append_if_positive. auto.
Qed.

Lemma summary_stats_passes (d : DataFrame) (range : option cell * option cell) :
  date_range_of d = Ok range ->
  (forall col, col ∈ numeric_columns -> dtype_of d col = Some DNumeric) ->
  exists stats, summary_stats d = Ok stats.
Proof.
  intros Hr H. unfold summary_stats. rewrite Hr, bind_Ok.
  rewrite !numeric_Ok by (apply H; unfold numeric_columns; set_solver).
  simpl. eauto.
Qed.

Lemma date_range_of_Raise (d : DataFrame) (e : exn) :
  date_range_of d = Raise e ->
  dtype_of d "date" = None \/
  dtype_of d "date" = Some DObject /\ e = TypeError "date".
Proof.
  unfold date_range_of, getitem.
  destruct (dtype_of d "date") as [t|]; [|auto]. cbn [mbind result_bind].
  case_bool_decide as Ht; simpl; [|discriminate].
  destruct (negb _); [|discriminate]. intros [= <-]. subst t. auto.
Qed.

Lemma holds_numbers_numeric (df : DataFrame) (col : string) :
  dtype_of df col = Some DNumeric -> holds_numbers df col = true.
Proof. unfold holds_numbers. intros ->. reflexivity. Qed.

Section WellFormed.

Variable strptime : string -> option datetime.
Variable set_order : gset string -> list string.

Lemma validate_dates_passes (now : datetime) (s : Validator) :
  exists r s',
    validate_dates strptime now s = (Ok r, s') /\
    self_log s' = self_log s /\
    ((exists ts, to_datetime strptime (self_df s) = Ok ts) /\ r = true /\
     self_df s' = assign (self_df s) "date" DDatetime (parsed_date strptime)
     \/
     (exists e, to_datetime strptime (self_df s) = Raise e) /\ r = false /\
     self_df s' = self_df s).
Proof.
  unfold validate_dates.
  destruct (to_datetime strptime (self_df s)) as [ts|e] eqn:E.
  - eexists true, _. split; [reflexivity|].
    rewrite self_df_append_if_positive, self_log_append_if_positive. simpl.
    split; [reflexivity|]. left. eauto.
  - eexists false, _. split; [reflexivity|]. simpl.
    split; [reflexivity|]. right. eauto.
Qed.

(** On a table that has every required column and whose numeric columns
    are numeric, all six steps run, whatever the values.  When every date
    present parses the run returns [True]: warnings (future dates,
    negative or missing values, bounce rates out of range, inconsistent
    records) do not change it, and neither does cleaning at the prompt.
    When a date does not parse the run returns [False], unless the summary
    statistics stop with a [TypeError] on the unparsed date column. *)
Theorem run_full_validation_well_formed (d : DataFrame) (now : datetime)
    (response : string) :
  well_formed d = true ->
  exists res s',
    run_full_validation strptime set_order (Some d) now response = (res, Some s') /\
    self_log s' = ["Column Validation"; "Date Validation"; "Numeric Validation";
                   "Categorical Validation"; "Quality Checks"; "Summary Statistics"] /\
    ((exists ts, to_datetime strptime d = Ok ts) -> res = Ok true) /\
    ((exists e, to_datetime strptime d = Raise e) ->
     res = Ok false \/ res = Raise (TypeError "date")).
Proof.
  intros Hw.
  assert (Hreq : forall col, col ∈ required_columns -> is_Some (dtype_of d col))
    by (intros col; apply well_formed_present, Hw).
  assert (Hnum : forall col, col ∈ numeric_columns -> dtype_of d col = Some DNumeric)
    by (intros col; apply well_formed_numeric, Hw).
  assert (Hnd : forall col, col ∈ numeric_columns -> col <> "date").
  { intros col Hc ->. unfold numeric_columns in Hc. set_solver. }
  set (s0 := {| self_df := d; self_issues := []; self_log := [] |}).
  assert (Hsteps : exists res s6,
             run_steps (steps strptime set_order now) true s0 = (res, s6) /\
             self_log s6 = fst <$> steps strptime set_order now /\
             (forall col, col ∈ numeric_columns ->
                dtype_of (self_df s6) col = Some DNumeric) /\
             ((exists ts, to_datetime strptime d = Ok ts) /\ res = Ok true \/
              (exists e, to_datetime strptime d = Raise e) /\
              (res = Ok false \/ res = Raise (TypeError "date")))).
  { unfold steps, later_steps. cbn [run_steps].
    destruct (validate_columns_passes set_order (print_header "Column Validation" s0) Hreq)
      as (s1 & E1 & Hd1 & Hl1).
    rewrite E1. cbv beta iota. simpl in Hd1, Hl1.
    destruct (validate_dates_passes now (print_header "Date Validation" s1))
      as (r2 & s2 & E2 & Hl2 & Hcase).
    rewrite E2. cbv beta iota. simpl in Hl2, Hcase. rewrite Hd1 in Hcase.
    assert (Hdt : forall col, col <> "date" -> dtype_of (self_df s2) col = dtype_of d col).
    { intros col Hne. destruct Hcase as [(_ & _ & ->) | (_ & _ & ->)]; [|reflexivity].
      rewrite dtype_of_assign. rewrite bool_decide_eq_false_2 by congruence. reflexivity. }
    assert (Hdate : is_Some (dtype_of (self_df s2) "date")).
    { destruct (Hreq "date") as [t Ht]; [unfold required_columns; set_solver|].
      destruct Hcase as [(_ & _ & ->) | (_ & _ & ->)]; [|eauto].
      rewrite dtype_of_assign, Ht. case_bool_decide; eauto. }
    assert (Hnum2 : forall s, self_df s = self_df s2 ->
              forall col, col ∈ numeric_columns -> dtype_of (self_df s) col = Some DNumeric).
    { intros s Hs col Hc. rewrite Hs, (Hdt col (Hnd col Hc)). apply Hnum, Hc. }
    assert (Hreq2 : forall s, self_df s = self_df s2 ->
              forall col, col ∈ required_columns -> is_Some (dtype_of (self_df s) col)).
    { intros s Hs col Hc. rewrite Hs.
      destruct (decide (col = "date")) as [-> | Hne]; [exact Hdate|].
      rewrite (Hdt col Hne). apply Hreq, Hc. }
    destruct (validate_numeric_columns_passes (print_header "Numeric Validation" s2))
      as (s3 & E3 & Hd3 & Hl3); [apply Hnum2; reflexivity|].
    rewrite E3. cbv beta iota. simpl in Hd3, Hl3.
    unfold validate_categorical_columns.
    rewrite validate_categorical_loop_passes.
    2: { intros col Hc. apply Hreq2; [exact Hd3|]. unfold required_columns. set_solver. }
    cbv beta iota.
    set (s4 := print_header "Categorical Validation" s3).
    destruct (check_data_quality_passes (print_header "Quality Checks" s4))
      as (s5 & E5 & Hd5 & Hl5);
      try (apply Hnum2; [exact Hd3 | unfold numeric_columns; set_solver]).
    rewrite E5. cbv beta iota. simpl in Hd5, Hl5.
    unfold truthy, generate_summary_stats. simpl self_df.
    assert (Hdf5 : self_df s5 = self_df s2) by congruence.
    assert (Hlog : (self_log s5 ++ ["Summary Statistics"])%list =
                   ["Column Validation"; "Date Validation"; "Numeric Validation";
                    "Categorical Validation"; "Quality Checks"; "Summary Statistics"]).
    { rewrite Hl5. unfold s4. simpl. rewrite Hl3, Hl2, Hl1. reflexivity. }
    destruct (date_range_of (self_df s5)) as [range|e6] eqn:E6.
    - destruct (summary_stats_passes (self_df s5) range E6) as (stats & E7).
      { apply Hnum2. exact Hdf5. }
      rewrite E7. cbv beta iota.
      eexists _, _. split; [reflexivity|]. split; [exact Hlog|].
      split; [apply Hnum2; exact Hdf5|].
      destruct Hcase as [(Hp & -> & _) | (Hf & -> & _)]; [left | right]; auto.
    - assert (E7 : summary_stats (self_df s5) = Raise e6)
        by (unfold summary_stats; rewrite E6; reflexivity).
      rewrite E7. cbv beta iota.
      eexists _, _. split; [reflexivity|]. split; [exact Hlog|].
      split; [apply (Hnum2 (print_header "Summary Statistics" s5)); exact Hdf5|].
      apply date_range_of_Raise in E6 as [E6 | [E6 ->]].
      + exfalso. rewrite Hdf5 in E6. destruct Hdate as [t Ht]. congruence.
      + right. destruct Hcase as [(_ & _ & Hdf) | (Hf & _ & _)]; [|auto].
        exfalso. rewrite Hdf5, Hdf, dtype_of_assign in E6.
        rewrite bool_decide_eq_true_2 in E6 by reflexivity.
        destruct (dtype_of d "date"); discriminate. }
  destruct Hsteps as (res & s6 & E & Hl & Hn6 & Hres).
  unfold run_full_validation, load_data. fold s0. rewrite E.
  assert (Hfinal : forall r, res = r -> (exists ts, to_datetime strptime d = Ok ts) /\ r = Ok true \/
              (exists e, to_datetime strptime d = Raise e) /\
              (r = Ok false \/ r = Raise (TypeError "date")))
    by (intros r <-; exact Hres).
  assert (Hconc : forall r,
            ((exists ts, to_datetime strptime d = Ok ts) /\ r = Ok true \/
             (exists e, to_datetime strptime d = Raise e) /\
             (r = Ok false \/ r = Raise (TypeError "date"))) ->
            ((exists ts, to_datetime strptime d = Ok ts) -> r = Ok true) /\
            ((exists e, to_datetime strptime d = Raise e) ->
             r = Ok false \/ r = Raise (TypeError "date"))).
  { intros r [((ts & Hts) & ->) | ((e & He) & Hr)]; split; auto.
    - intros (e & He). congruence.
    - intros (ts & Hts). congruence. }
  destruct res as [b|e].
  - destruct (self_issues s6) as [|i l].
    { exists (Ok b), s6. split; [reflexivity|]. split; [exact Hl | apply Hconc, Hres]. }
    case_bool_decide.
    2: { exists (Ok b), s6. split; [reflexivity|]. split; [exact Hl | apply Hconc, Hres]. }
    unfold clean_data_method.
    destruct (clean_data_total (self_df s6)) as (c & Ec);
      try (apply holds_numbers_numeric, Hn6; unfold numeric_columns; set_solver);
      try (rewrite Hn6 by (unfold numeric_columns; set_solver); eauto).
    rewrite Ec. exists (Ok b), (set_df c s6).
    split; [reflexivity|]. split; [exact Hl | apply Hconc, Hres].
  - exists (Raise e), s6. split; [reflexivity|]. split; [exact Hl | apply Hconc, Hres].
Qed.

End WellFormed.

Lemma run_full_validation_well_formed_witness :
  exists res s',
    run_full_validation strptime_padded elements (Some v_blank) january_2026 "y"
    = (res, Some s') /\
    self_log s' = ["Column Validation"; "Date Validation"; "Numeric Validation";
                   "Categorical Validation"; "Quality Checks"; "Summary Statistics"] /\
    ((exists ts, to_datetime strptime_padded v_blank = Ok ts) -> res = Ok true) /\
    ((exists e, to_datetime strptime_padded v_blank = Raise e) ->
     res = Ok false \/ res = Raise (TypeError "date")).
Proof.
  apply (run_full_validation_well_formed strptime_padded elements v_blank january_2026 "y").
  vm_compute. reflexivity.
Defined.

(** The run on [v_blank]: the blank date is no issue, and the check
    passes. *)
Example run_full_validation_v_blank :
  exists s', run_full_validation strptime_padded elements (Some v_blank) january_2026 "n"
             = (Ok true, Some s') /\
             self_issues s' = [].
Proof. eexists. split; [vm_compute; reflexivity | reflexivity]. Qed.

(** ** [validate_columns] *)

(** [validate_columns] returns [True] exactly when every required column
    is in the header.  Otherwise it adds one issue, which names the
    required columns that are absent and no other, each once, in the order
    that the interpreter gives to the set; it never changes the frame. *)
Theorem validate_columns_report (set_order : gset string -> list string)
    (s : Validator) :
  (forall X, set_order X ≡ₚ elements X) ->
  exists b s',
    validate_columns set_order s = (Ok b, s') /\
    self_df s' = self_df s /\
    (b = true <-> forall col, col ∈ required_columns -> col ∈ column_names (self_df s)) /\
    (b = true -> s' = s) /\
    (b = false ->
     exists l, self_issues s' = (self_issues s ++ [MissingColumns l])%list /\
               NoDup l /\ l <> [] /\
               forall col, col ∈ l <->
                 col ∈ required_columns /\ col ∉ column_names (self_df s)).
Proof.
  intros Hperm. unfold validate_columns. cbv zeta.
  assert (Hin : forall col, col ∈ missing_columns (self_df s) <->
                  col ∈ required_columns /\ col ∉ column_names (self_df s)).
  { intros col. unfold missing_columns.
    rewrite elem_of_difference, !elem_of_list_to_set. reflexivity. }
  case_bool_decide as Hm.
  - eexists false, _. split; [reflexivity|]. split; [reflexivity|].
    split; [|split; [discriminate|]].
    + split; [discriminate|]. intros Hall. exfalso.
      apply set_choose_L in Hm as (col & Hcol). apply Hin in Hcol as [H1 H2].
      apply H2, Hall, H1.
    + intros _. exists (set_order (missing_columns (self_df s))).
      split; [reflexivity|]. split; [|split].
      * rewrite Hperm. apply NoDup_elements.
      * intros Hnil. apply Hm. apply leibniz_equiv, elements_empty_inv.
        apply Permutation_nil. rewrite <- Hnil. apply Hperm.
      * intros col. rewrite Hperm, elem_of_elements. apply Hin.
  - eexists true, _. split; [reflexivity|]. split; [reflexivity|].
    split; [|split; [reflexivity | discriminate]].
    split; [|reflexivity]. intros _ col Hcol.
    destruct (decide (col ∈ column_names (self_df s))) as [Hc | Hc]; [exact Hc|].
    exfalso.
    assert (Hx : col ∈ missing_columns (self_df s)) by (apply Hin; auto).
    rewrite Hm in Hx. by apply not_elem_of_empty in Hx.
Qed.

Lemma validate_columns_report_witness :
  exists b s',
    validate_columns elements
      {| self_df := v_missing_two; self_issues := []; self_log := [] |} = (Ok b, s') /\
    b = false /\
    exists l, self_issues s' = [MissingColumns l] /\
              forall col, col ∈ l <->
                col ∈ required_columns /\ col ∉ column_names v_missing_two.
Proof.
  destruct (validate_columns_report elements
              {| self_df := v_missing_two; self_issues := []; self_log := [] |})
    as (b & s' & E & _ & Hb & _ & Hf); [reflexivity|].
  exists b, s'. split; [exact E|].
  assert (Hbf : b = false).
  { vm_compute in E. injection E as <- _. reflexivity. }
  split; [exact Hbf|].
  destruct (Hf Hbf) as (l & Hl & _ & _ & Hin). exists l. split; [exact Hl | exact Hin].
Defined.
